(** * Gateway core: connector supervisor, hook ingress and server utilities

    A shallow embedding of
    - [server-utils.ts]     ([normalizeVoiceWakeTriggers], [formatError]),
    - the gateway's HTTP module ([createHooksRequestHandler], [sendJson]),
    - [server-providers.ts] ([createProviderManager] and its closures),
    with the theorems that settle what the design document says about them. *)

From Stdlib Require Import ZArith Ascii String List Lia DecimalString.
From stdpp Require Import base list strings.
Import ListNotations.
Local Open Scope string_scope.

(** ** JavaScript values and the platform functions the code calls *)

Module Js.

(** The values a parameter typed [unknown] can hold. Strings are sequences
    of code units, here the code units below 256; numbers are the integral
    ones; an array has no holes; an object is its own enumerable properties
    in insertion order (keys distinct); [JError] is an instance of [Error]
    with its [message]. *)
#[warnings="-register-all"]
Inductive JsValue : Type :=
| JUndefined
| JNull
| JBool (b : bool)
| JNumber (n : Z)
| JBigInt (n : Z)
| JString (s : string)
| JArray (items : list JsValue)
| JObject (props : list (string * JsValue))
| JError (message : string).

(** What a call gives back: a value, or an exception on its way up. *)
Inductive Completion (A : Type) : Type :=
| Normal (a : A)
| Throw (e : JsValue).
Arguments Normal {A} a.
Arguments Throw {A} e.

Definition isArray (v : JsValue) : bool :=
  match v with JArray _ => true | _ => false end.

(** [WhiteSpace] and [LineTerminator] of the language, below code unit 256:
    TAB, LF, VT, FF, CR, SP and NBSP. *)
Definition isWhiteSpace (c : ascii) : bool :=
  let n := nat_of_ascii c in
  ((9 <=? n)%nat && (n <=? 13)%nat) || (n =? 32)%nat || (n =? 160)%nat.

(** [String.prototype.trimStart], [trimEnd] and [trim]. *)
Fixpoint trimStart (s : string) : string :=
  match s with
  | EmptyString => EmptyString
  | String c r => if isWhiteSpace c then trimStart r else s
  end.

Fixpoint trimEnd (s : string) : string :=
  match s with
  | EmptyString => EmptyString
  | String c r =>
      match trimEnd r with
      | EmptyString => if isWhiteSpace c then EmptyString else String c EmptyString
      | r' => String c r'
      end
  end.

Definition trim (s : string) : string := trimEnd (trimStart s).

(** [s.slice(0, n)] for a literal [n >= 0]: the first [n] code units. *)
Fixpoint sliceTo (n : nat) (s : string) : string :=
  match n, s with
  | S n', String c r => String c (sliceTo n' r)
  | _, _ => EmptyString
  end.

(** [s.slice(n)]: what is left after the first [n] code units. *)
Fixpoint sliceFrom (n : nat) (s : string) : string :=
  match n, s with
  | S n', String _ r => sliceFrom n' r
  | _, _ => s
  end.

(** First and last code unit, when there is one. *)
Definition firstChar (s : string) : option ascii :=
  match s with EmptyString => None | String c _ => Some c end.

Fixpoint lastChar (s : string) : option ascii :=
  match s with
  | EmptyString => None
  | String c EmptyString => Some c
  | String _ r => lastChar r
  end.

(** A non-empty string is truthy, the empty one falsy. *)
Definition nonEmpty (s : string) : bool :=
  match s with EmptyString => false | _ => true end.

(** [a.join(sep)] on strings. *)
Fixpoint join (sep : string) (parts : list string) : string :=
  match parts with
  | [] => ""
  | [p] => p
  | p :: rest => p ++ sep ++ join sep rest
  end.

(** [String(n)] for an integral number or a BigInt. *)
Definition numberToString (n : Z) : string :=
  NilZero.string_of_int (Z.to_int n).

(** [String(v)]. An array joins its elements with commas, [null] and
    [undefined] elements as empty strings; a plain object has the default
    [toString]; an [Error] prints its name and message. *)
Fixpoint toString (v : JsValue) : string :=
  match v with
  | JUndefined => "undefined"
  | JNull => "null"
  | JBool b => if b then "true" else "false"
  | JNumber n => numberToString n
  | JBigInt n => numberToString n
  | JString s => s
  | JArray items =>
      join ","
        ((fix elements (xs : list JsValue) : list string :=
            match xs with
            | [] => []
            | x :: rest =>
                match x with
                | JUndefined | JNull => ""
                | _ => toString x
                end :: elements rest
            end) items)
  | JObject _ => "[object Object]"
  | JError m => if nonEmpty m then "Error: " ++ m else "Error"
  end.

Definition newline : string := String (ascii_of_nat 10) "".
Definition dquote : string := String (ascii_of_nat 34) "".

Definition hexDigit (n : nat) : string :=
  String (ascii_of_nat (if (n <? 10)%nat then 48 + n else 87 + n)) "".

(** [QuoteJSONString]: the escapes of one code unit. *)
Definition escapeChar (c : ascii) : string :=
  let n := nat_of_ascii c in
  if (n =? 34)%nat then "\" ++ dquote
  else if (n =? 92)%nat then "\\"
  else if (n =? 8)%nat then "\b"
  else if (n =? 9)%nat then "\t"
  else if (n =? 10)%nat then "\n"
  else if (n =? 12)%nat then "\f"
  else if (n =? 13)%nat then "\r"
  else if (n <? 32)%nat then "\u00" ++ hexDigit (n / 16) ++ hexDigit (n mod 16)
  else String c "".

Fixpoint escapeString (s : string) : string :=
  match s with
  | EmptyString => ""
  | String c r => escapeChar c ++ escapeString r
  end.

Definition quoteJSONString (s : string) : string :=
  dquote ++ escapeString s ++ dquote.

(** Brackets around the members of an array or object, one per line. *)
Definition wrapMembers (opening closing indent : string) (members : list string) : string :=
  match members with
  | [] => opening ++ closing
  | _ =>
      let inner := indent ++ "  " in
      opening ++ newline ++ inner ++ join ("," ++ newline ++ inner) members
        ++ newline ++ indent ++ closing
  end.

(** [SerializeJSONProperty] with a gap of two spaces, at the indentation
    [indent]: [Normal None] is [undefined], a BigInt throws a [TypeError],
    an [Error] has no enumerable property of its own. *)
Fixpoint serializeJSON (indent : string) (v : JsValue) : Completion (option string) :=
  match v with
  | JUndefined => Normal None
  | JNull => Normal (Some "null")
  | JBool b => Normal (Some (if b then "true" else "false"))
  | JNumber n => Normal (Some (numberToString n))
  | JBigInt _ => Throw (JError "Do not know how to serialize a BigInt")
  | JString s => Normal (Some (quoteJSONString s))
  | JError _ => Normal (Some "{}")
  | JArray items =>
      match
        (fix elements (xs : list JsValue) : Completion (list string) :=
           match xs with
           | [] => Normal []
           | x :: rest =>
               match serializeJSON (indent ++ "  ") x with
               | Throw e => Throw e
               | Normal r =>
                   match elements rest with
                   | Throw e => Throw e
                   | Normal rs => Normal (default "null" r :: rs)
                   end
               end
           end) items
      with
      | Throw e => Throw e
      | Normal members => Normal (Some (wrapMembers "[" "]" indent members))
      end
  | JObject props =>
      match
        (fix members (ps : list (string * JsValue)) : Completion (list string) :=
           match ps with
           | [] => Normal []
           | (k, x) :: rest =>
               match serializeJSON (indent ++ "  ") x with
               | Throw e => Throw e
               | Normal r =>
                   match members rest with
                   | Throw e => Throw e
                   | Normal rs =>
                       Normal
                         (match r with
                          | Some str => (quoteJSONString k ++ ": " ++ str) :: rs
                          | None => rs
                          end)
                   end
               end
           end) props
      with
      | Throw e => Throw e
      | Normal members => Normal (Some (wrapMembers "{" "}" indent members))
      end
  end.

(** [JSON.stringify(v, null, 2)]. *)
Definition JSON_stringify (v : JsValue) : Completion (option string) :=
  serializeJSON "" v.

(** [obj[key]] on the properties of an object. *)
Fixpoint lookupProp (key : string) (props : list (string * JsValue)) : JsValue :=
  match props with
  | [] => JUndefined
  | (k, v) :: rest => if String.eqb k key then v else lookupProp key rest
  end.

(** [v?.key]: [undefined] on [null] and [undefined], and on the values
    of the model that carry no such property. *)
Definition getProp (v : JsValue) (key : string) : JsValue :=
  match v with
  | JObject props => lookupProp key props
  | _ => JUndefined
  end.

End Js.

(** ** server-utils.ts *)

Module ServerUtils.
Import Js.

Section Normalize.

(** [defaultVoiceWakeTriggers()] of [../infra/voicewake.js]: the list the
    collaborator supplies. *)
Variable defaultVoiceWakeTriggers : list string.

(** The first [map] of the chain: a string is trimmed, anything else
    becomes the empty string. *)
Definition trimmedEntry (v : JsValue) : string :=
  match v with JString s => trim s | _ => "" end.

Definition cleanedTriggers (raw : list JsValue) : list string :=
  map (sliceTo 64) (take 32 (List.filter nonEmpty (map trimmedEntry raw))).

Definition normalizeVoiceWakeTriggers (input : JsValue) : list string :=
  let raw := match input with JArray items => items | _ => [] end in
  let cleaned := cleanedTriggers raw in
  if (0 <? length cleaned)%nat then cleaned else defaultVoiceWakeTriggers.

End Normalize.

(** The entries the chain keeps, read off an element of the input: the
    strings whose trim is not empty. *)
Definition keptEntry (v : JsValue) : bool := nonEmpty (trimmedEntry v).

(** What becomes of a kept entry. *)
Definition cleanEntry (v : JsValue) : string := sliceTo 64 (trimmedEntry v).

(** The bounds the design document gives for a trigger, trailing white
    space aside: between 1 and 64 code units, no leading white space. *)
Definition wellFormedTrigger (s : string) : Prop :=
  1 <= String.length s <= 64
  /\ (forall c, firstChar s = Some c -> isWhiteSpace c = false).

(** No trailing white space. *)
Definition noTrailingSpace (s : string) : Prop :=
  forall c, lastChar s = Some c -> isWhiteSpace c = false.

(** [typeof v === "string" || typeof v === "number" ? String(v) : undefined] *)
Definition textOf (v : JsValue) : option string :=
  match v with
  | JString s => Some s
  | JNumber n => Some (numberToString n)
  | _ => None
  end.

(** Truthiness of a [string | undefined]. *)
Definition truthy (t : option string) : bool :=
  match t with Some s => nonEmpty s | None => false end.

(** [parts.filter(Boolean)] *)
Definition filterBoolean (parts : list (option string)) : list string :=
  omap (fun t => if truthy t then t else None) parts.

(** The result is [None] where the function returns [undefined], which
    [JSON.stringify] gives for [undefined] itself. *)
Definition formatError (err : JsValue) : option string :=
  match err with
  | JError message => Some message
  | JString s => Some s
  | _ =>
      let statusValue := getProp err "status" in
      let codeValue := getProp err "code" in
      let statusText := textOf statusValue in
      let codeText := textOf codeValue in
      if truthy statusText || truthy codeText then
        Some (join " " (filterBoolean [statusText; codeText]))
      else
        match JSON_stringify err with
        | Normal dump => dump
        | Throw _ => Some (toString err)
        end
  end.

(** The status/code rendering in the words of the design document:
    ["<status> <code>"], either part may be absent, one space between
    them when both are there; [None] when neither is. *)
Definition statusAndCode (statusText codeText : option string) : option string :=
  match truthy statusText, truthy codeText with
  | true, true => Some (default "" statusText ++ " " ++ default "" codeText)
  | true, false => statusText
  | false, true => codeText
  | false, false => None
  end.

End ServerUtils.

(** ** The HTTP module: the hook ingress *)

Module ServerHttp.
Import Js ServerUtils.

(** The request as the handler reads it: its method and the URL that
    [new URL(req.url ?? "/", ...)] parsed out of it. *)
Record URL := { pathname : string; searchParams : list (string * string) }.

Record IncomingMessage := {
  method : option string;
  url : URL;
  reqHeaders : list (string * string);
}.

(** [HooksConfigResolved], with the mapping rules left to the engine. *)
Record HooksConfigResolved (Mapping : Type) := {
  basePath : string;
  token : string;
  maxBodyBytes : Z;
  mappings : list Mapping;
}.
Arguments basePath {Mapping} _.
Arguments token {Mapping} _.
Arguments maxBodyBytes {Mapping} _.
Arguments mappings {Mapping} _.

Inductive WakeMode := Now | NextHeartbeat.

Inductive Channel :=
| ChLast | ChWhatsapp | ChTelegram | ChDiscord | ChSignal | ChImessage.

Record WakeHook := { wakeText : string; wakeMode : WakeMode }.

Record AgentHook := {
  agentMessage : string;
  agentName : string;
  agentWakeMode : WakeMode;
  agentSessionKey : string;
  agentDeliver : bool;
  agentChannel : Channel;
  agentTo : option string;
  agentThinking : option string;
  agentTimeoutSeconds : option Z;
}.

(** What [applyHookMappings] resolves to, as the handler takes it apart. *)
Record MappedAgent := {
  mMessage : string;
  mName : option string;
  mWakeMode : WakeMode;
  mSessionKey : option string;
  mDeliver : option bool;
  mChannel : option Channel;
  mTo : option string;
  mThinking : option string;
  mTimeoutSeconds : option Z;
}.

Inductive MappedAction :=
| ActionWake (text : string) (mode : WakeMode)
| ActionAgent (a : MappedAgent).

Inductive HookMappingResult :=
| MappingFailed (error : string)
| MappingOk (action : option MappedAction).

(** A discriminated [{ok: true, value} | {ok: false, error}]. *)
Inductive Checked (A : Type) :=
| Ok (value : A)
| Failed (error : string).
Arguments Ok {A} value.
Arguments Failed {A} error.

Record MappingContext := {
  ctxPayload : JsValue;
  ctxHeaders : list (string * string);
  ctxUrl : URL;
  ctxPath : string;
}.

(** The functions the module imports from [./hooks.js] and
    [./hooks-mapping.js]. Only the mapping engine is called under a [try]. *)
Class HooksImports (Mapping : Type) := {
  extractHookToken : IncomingMessage -> URL -> option string;
  readJsonBody : IncomingMessage -> Z -> Checked JsValue;
  normalizeHookHeaders : IncomingMessage -> list (string * string);
  normalizeWakePayload : JsValue -> Checked WakeHook;
  normalizeAgentPayload : JsValue -> Checked AgentHook;
  applyHookMappings :
    list Mapping -> MappingContext -> Completion (option HookMappingResult);
}.

(** What the handler writes on [res]. [BodyJson v] is the text
    [JSON.stringify(v)]. *)
Inductive Body :=
| BodyNone
| BodyText (s : string)
| BodyJson (v : JsValue).

Record ServerResponse := {
  statusCode : Z;
  resHeaders : list (string * string);
  ended : bool;
  body : Body;
}.

(** A response nothing was written to. *)
Definition freshResponse : ServerResponse :=
  {| statusCode := 200; resHeaders := []; ended := false; body := BodyNone |}.

(** What a run leaves behind besides the response. *)
Inductive Effect :=
| LogWarn (msg : string)
| WakeDispatched (v : WakeHook)
| AgentDispatched (v : AgentHook).

Record Conn := { res : ServerResponse; effects : list Effect }.

(** A computation on the connection that may throw; what was written
    before a throw stays written. *)
Definition M (A : Type) : Type := Conn -> Completion A * Conn.

Definition ret {A} (a : A) : M A := fun c => (Normal a, c).

Definition bind {A B} (m : M A) (k : A -> M B) : M B :=
  fun c =>
    match m c with
    | (Normal a, c') => k a c'
    | (Throw e, c') => (Throw e, c')
    end.

Definition throw {A} (e : JsValue) : M A := fun c => (Throw e, c).

(** [try { body } catch (err) { handler(err) }] *)
Definition tryCatch {A} (m : M A) (handler : JsValue -> M A) : M A :=
  fun c =>
    match m c with
    | (Normal a, c') => (Normal a, c')
    | (Throw e, c') => handler e c'
    end.

Definition lift {A} (r : Completion A) : M A := fun c => (r, c).

Declare Scope conn_scope.
Delimit Scope conn_scope with conn.
Bind Scope conn_scope with M.
Notation "x <- m ;; k" := (bind m (fun x => k))
  (at level 100, m at next level, k at level 200, right associativity) : conn_scope.
Notation "m ;; k" := (bind m (fun _ => k))
  (at level 100, k at level 200, right associativity) : conn_scope.
Local Open Scope conn_scope.

Definition modifyRes (f : ServerResponse -> ServerResponse) : M unit :=
  fun c => (Normal tt, {| res := f (res c); effects := effects c |}).

Definition emit (e : Effect) : M unit :=
  fun c => (Normal tt, {| res := res c; effects := effects c ++ [e] |}).

Definition setStatusCode (n : Z) : M unit :=
  modifyRes (fun r =>
    {| statusCode := n; resHeaders := resHeaders r; ended := ended r; body := body r |}).

(** [res.setHeader(name, value)]: one value per name. *)
Definition setHeader (name value : string) : M unit :=
  modifyRes (fun r =>
    {| statusCode := statusCode r;
       resHeaders :=
         List.filter (fun h => negb (String.eqb (fst h) name)) (resHeaders r)
           ++ [(name, value)];
       ended := ended r; body := body r |}).

Definition endWith (b : Body) : M unit :=
  modifyRes (fun r =>
    {| statusCode := statusCode r; resHeaders := resHeaders r; ended := true; body := b |}).

Definition getHeader (name : string) (r : ServerResponse) : option string :=
  snd <$> List.find (fun h => String.eqb (fst h) name) (resHeaders r).

Definition sendJson (status : Z) (v : JsValue) : M unit :=
  setStatusCode status ;;
  setHeader "Content-Type" "application/json; charset=utf-8" ;;
  endWith (BodyJson v).

Definition sendText (status : Z) (text : string) : M unit :=
  setStatusCode status ;;
  setHeader "Content-Type" "text/plain; charset=utf-8" ;;
  endWith (BodyText text).

(** [s.replace(/^\/+/, "")] *)
Fixpoint stripLeadingSlashes (s : string) : string :=
  match s with
  | String c r => if Ascii.eqb c "/" then stripLeadingSlashes r else s
  | EmptyString => s
  end.

Definition wakeModeText (m : WakeMode) : string :=
  match m with Now => "now" | NextHeartbeat => "next-heartbeat" end.

(** [{ ok: false, error }] *)
Definition errorBody (error : string) : JsValue :=
  JObject [("ok", JBool false); ("error", JString error)].

(** [typeof v === "object" && v !== null] *)
Definition isObjectValue (v : JsValue) : bool :=
  match v with JArray _ | JObject _ | JError _ => true | _ => false end.

(** [url.pathname.slice(basePath.length).replace(/^\/+/, "")] *)
Definition hookSubPath (basePath pathname : string) : string :=
  stripLeadingSlashes (sliceFrom (String.length basePath) pathname).

(** [typeof body.value === "object" && body.value !== null ? body.value : {}] *)
Definition hookPayload (value : JsValue) : JsValue :=
  if isObjectValue value then value else JObject [].

Section Handler.

Context {Mapping : Type} `{HooksImports Mapping}.

(** The [opts] of [createHooksRequestHandler]; the logger's lines go to
    the effects of the run. A dispatcher is the caller's function and may
    throw. *)
Record HandlerOpts := {
  hooksConfig : option (HooksConfigResolved Mapping);
  bindHost : string;
  port : Z;
  dispatchWakeHook : WakeHook -> Completion unit;
  dispatchAgentHook : AgentHook -> Completion string;
}.

Variable opts : HandlerOpts.

Definition callDispatchWake (v : WakeHook) : M unit :=
  emit (WakeDispatched v) ;; lift (dispatchWakeHook opts v).

Definition callDispatchAgent (v : AgentHook) : M string :=
  emit (AgentDispatched v) ;; lift (dispatchAgentHook opts v).

(** The [try] block of the mapping branch: [Some b] when it returned [b],
    [None] when control left the block at its end. *)
Definition applyMapped (mapped : option HookMappingResult) : M (option bool) :=
  match mapped with
  | None => ret None
  | Some (MappingFailed error) =>
      sendJson 400 (errorBody error) ;; ret (Some true)
  | Some (MappingOk None) =>
      setStatusCode 204 ;; endWith BodyNone ;; ret (Some true)
  | Some (MappingOk (Some (ActionWake text mode))) =>
      callDispatchWake {| wakeText := text; wakeMode := mode |} ;;
      sendJson 200 (JObject [("ok", JBool true); ("mode", JString (wakeModeText mode))]) ;;
      ret (Some true)
  | Some (MappingOk (Some (ActionAgent a))) =>
      runId <- callDispatchAgent
                 {| agentMessage := mMessage a;
                    agentName := default "Hook" (mName a);
                    agentWakeMode := mWakeMode a;
                    agentSessionKey := default "" (mSessionKey a);
                    agentDeliver :=
                      match mDeliver a with Some true => true | _ => false end;
                    agentChannel := default ChLast (mChannel a);
                    agentTo := mTo a;
                    agentThinking := mThinking a;
                    agentTimeoutSeconds := mTimeoutSeconds a |} ;;
      sendJson 202 (JObject [("ok", JBool true); ("runId", JString runId)]) ;;
      ret (Some true)
  end.

Definition mappingBranch (cfg : HooksConfigResolved Mapping) (ctx : MappingContext)
  : M (option bool) :=
  tryCatch
    (mapped <- lift (applyHookMappings (mappings cfg) ctx) ;;
     applyMapped mapped)
    (fun err =>
       emit (LogWarn ("hook mapping failed: " ++ toString err)) ;;
       sendJson 500 (errorBody "hook mapping failed") ;;
       ret (Some true)).

(** The handler [createHooksRequestHandler] returns. *)
Definition handleHooksRequest (req : IncomingMessage) : M bool :=
  match hooksConfig opts with
  | None => ret false
  | Some cfg =>
      let url := url req in
      let basePath := basePath cfg in
      if negb (String.eqb (pathname url) basePath)
         && negb (String.prefix (basePath ++ "/") (pathname url))
      then ret false
      else
        let token := extractHookToken req url in
        if negb (truthy token)
           || negb (bool_decide (token = Some (ServerHttp.token cfg)))
        then sendText 401 "Unauthorized" ;; ret true
        else if negb (bool_decide (method req = Some "POST"))
        then
          setStatusCode 405 ;;
          setHeader "Allow" "POST" ;;
          setHeader "Content-Type" "text/plain; charset=utf-8" ;;
          endWith (BodyText "Method Not Allowed") ;;
          ret true
        else
          let subPath := hookSubPath basePath (pathname url) in
          if negb (nonEmpty subPath)
          then sendText 404 "Not Found" ;; ret true
          else
            match readJsonBody req (maxBodyBytes cfg) with
            | Failed error =>
                let status := if String.eqb error "payload too large" then 413%Z else 400%Z in
                sendJson status (errorBody error) ;; ret true
            | Ok value =>
                let payload := hookPayload value in
                let headers := normalizeHookHeaders req in
                if String.eqb subPath "wake" then
                  match normalizeWakePayload payload with
                  | Failed error => sendJson 400 (errorBody error) ;; ret true
                  | Ok v =>
                      callDispatchWake v ;;
                      sendJson 200
                        (JObject [("ok", JBool true);
                                  ("mode", JString (wakeModeText (wakeMode v)))]) ;;
                      ret true
                  end
                else if String.eqb subPath "agent" then
                  match normalizeAgentPayload payload with
                  | Failed error => sendJson 400 (errorBody error) ;; ret true
                  | Ok v =>
                      runId <- callDispatchAgent v ;;
                      sendJson 202 (JObject [("ok", JBool true); ("runId", JString runId)]) ;;
                      ret true
                  end
                else
                  returned <-
                    (if (0 <? length (mappings cfg))%nat
                     then
                       mappingBranch cfg
                         {| ctxPayload := payload; ctxHeaders := headers;
                            ctxUrl := url; ctxPath := subPath |}
                     else ret None) ;;
                  match returned with
                  | Some b => ret b
                  | None => sendText 404 "Not Found" ;; ret true
                  end
            end
  end.

End Handler.

(** *** Words for the statements about the handler *)

(** A response written in full, and nothing else done: status,
    content type, body, ended; no effect added. *)
Definition written (status : Z) (contentType : string) (b : Body) (before after : Conn)
  : Prop :=
  statusCode (res after) = status
  /\ getHeader "Content-Type" (res after) = Some contentType
  /\ ended (res after) = true
  /\ body (res after) = b
  /\ effects after = effects before.

(** The request is a hook request: its path is the base path or lies
    under it. *)
Definition underBasePath {Mapping} (cfg : HooksConfigResolved Mapping)
  (req : IncomingMessage) : Prop :=
  pathname (url req) = basePath cfg
  \/ String.prefix (basePath cfg ++ "/") (pathname (url req)) = true.

(** The token the request carries passes the check: it is not empty and
    it is the configured one. *)
Definition authorized {Mapping} `{HooksImports Mapping}
  (cfg : HooksConfigResolved Mapping) (req : IncomingMessage) : Prop :=
  extractHookToken req (url req) = Some (token cfg) /\ token cfg <> "".

(** The request passed the checks that come before the body is read:
    configuration, path, token, method. *)
Definition accepted {Mapping} `{HooksImports Mapping} (opts : @HandlerOpts Mapping)
  (cfg : HooksConfigResolved Mapping) (req : IncomingMessage) : Prop :=
  hooksConfig opts = Some cfg
  /\ underBasePath cfg req
  /\ authorized cfg req
  /\ method req = Some "POST".

(** A path below the base path at which the mapping engine is asked:
    not empty, and neither of the built-in routes. *)
Definition mappedRoute (subPath : string) : Prop :=
  nonEmpty subPath = true
  /\ String.eqb subPath "wake" = false
  /\ String.eqb subPath "agent" = false.

(** Collaborators with scripted answers, to run the handler on a concrete
    request: the token the extractor finds, what the body reader gives,
    and how the mapping engine completes. *)
Definition scriptedImports (found : option string) (bodyRead : Checked JsValue)
  (mapped : Completion (option HookMappingResult)) : HooksImports unit :=
  {| extractHookToken := fun _ _ => found;
     readJsonBody := fun _ _ => bodyRead;
     normalizeHookHeaders := reqHeaders;
     normalizeWakePayload := fun _ => Failed "text required";
     normalizeAgentPayload := fun _ => Failed "message required";
     applyHookMappings := fun _ _ => mapped |}.

(** Options with a hook configuration under [/hooks], one mapping rule,
    and dispatchers that succeed. *)
Definition sampleOpts (secret : string) : @HandlerOpts unit :=
  {| hooksConfig :=
       Some {| basePath := "/hooks"; token := secret; maxBodyBytes := 262144;
               mappings := [tt] |};
     bindHost := "127.0.0.1";
     port := 18789;
     dispatchWakeHook := fun _ => Normal tt;
     dispatchAgentHook := fun _ => Normal "run-1" |}.

Definition sampleRequest (verb path : string) : IncomingMessage :=
  {| method := Some verb;
     url := {| pathname := path; searchParams := [] |};
     reqHeaders := [] |}.

Definition freshConn : Conn := {| res := freshResponse; effects := [] |}.

End ServerHttp.

(** ** server-providers.ts: the connector supervisor *)

Module ServerProviders.
Import Js ServerUtils.

Inductive ProviderKind := WhatsApp | Telegram | Discord | Signal | IMessage.

(** *** Status records *)

(** [WebProviderStatus] of [../web/auto-reply.js], with the fields the
    manager initialises. *)
Record WebProviderStatus := {
  waRunning : bool;
  waConnected : bool;
  waReconnectAttempts : Z;
  waLastConnectedAt : option Z;
  waLastDisconnect : option JsValue;
  waLastMessageAt : option Z;
  waLastEventAt : option Z;
  waLastError : option string;
}.

Inductive TelegramMode := Webhook | Polling.

Record TelegramRuntimeStatus := {
  tgRunning : bool;
  tgLastStartAt : option Z;
  tgLastStopAt : option Z;
  tgLastError : option string;
  tgMode : option TelegramMode;
}.

Record DiscordRuntimeStatus := {
  dcRunning : bool;
  dcLastStartAt : option Z;
  dcLastStopAt : option Z;
  dcLastError : option string;
}.

Record SignalRuntimeStatus := {
  sgRunning : bool;
  sgLastStartAt : option Z;
  sgLastStopAt : option Z;
  sgLastError : option string;
  sgBaseUrl : option string;
}.

Record IMessageRuntimeStatus := {
  imRunning : bool;
  imLastStartAt : option Z;
  imLastStopAt : option Z;
  imLastError : option string;
  imCliPath : option string;
  imDbPath : option string;
}.

Record ProviderRuntimeSnapshot := {
  snapWhatsapp : WebProviderStatus;
  snapTelegram : TelegramRuntimeStatus;
  snapDiscord : DiscordRuntimeStatus;
  snapSignal : SignalRuntimeStatus;
  snapIMessage : IMessageRuntimeStatus;
}.

(** *** Configuration, as far as the manager reads it *)

Record WebConfig := { webEnabled : option bool }.

Record TelegramConfig := {
  telegramEnabled : option bool;
  telegramWebhookUrl : option string;
}.

Record DiscordConfig := {
  discordEnabled : option bool;
  discordToken : option string;
}.

Record SignalConfig := {
  signalEnabled : option bool;
  signalAccount : option string;
  signalHttpUrl : option string;
  signalCliPath : option string;
  signalHttpHost : option string;
  signalHttpPort : option Z;
  signalAutoStart : option bool;
}.

Record IMessageConfig := {
  imessageEnabled : option bool;
  imessageCliPath : option string;
  imessageDbPath : option string;
}.

Record ClawdisConfig := {
  cfgWeb : option WebConfig;
  cfgTelegram : option TelegramConfig;
  cfgDiscord : option DiscordConfig;
  cfgSignal : option SignalConfig;
  cfgIMessage : option IMessageConfig;
}.

(** *** What a call meets outside the manager *)

(** The outcome of [probeTelegram] / [probeDiscord]: it threw, or it
    returned [{ok, bot?: {username?}}]. *)
Inductive ProbeOutcome :=
| ProbeThrew (err : JsValue)
| Probed (ok : bool) (username : option string).

(** The answers one call of a start function gets from its collaborators
    and from the platform. What the collaborators log themselves (the
    missing-file warning of [resolveTelegramToken]) is not recorded. *)
Record StartEnv := {
  loadConfig : ClawdisConfig;
  shouldLogVerbose : bool;
  webAuthExists : bool;
  readWebSelfId : option string * option string;
  resolveTelegramToken : ClawdisConfig -> string;
  probeTelegram : string -> Z -> ProbeOutcome;
  probeDiscord : string -> Z -> ProbeOutcome;
  envDiscordBotToken : option string;
  dateNow : Z;
}.

Inductive LogLevel := Info | Debug | Warn | Error.

(** The arguments a monitor is launched with, as far as the manager
    computes them. *)
Inductive MonitorArgs :=
| WebMonitor (verbose : bool)
| TelegramMonitor (token : string) (useWebhook : bool) (webhookUrl : option string)
| DiscordMonitor (token : string)
| SignalMonitor (baseUrl : string)
| IMessageMonitor (cliPath : string) (dbPath : option string).

(** What the manager does to the world outside its own variables. *)
Inductive Effect :=
| ConfigLoaded
| Logged (k : ProviderKind) (level : LogLevel) (msg : string)
| MonitorLaunched (k : ProviderKind) (taskId signalId : nat) (args : MonitorArgs)
| AbortSignalled (k : ProviderKind) (signalId : nat).

(** *** The closure's variables *)

(** Per connector, [<k>Abort], [<k>Task] and [<k>Runtime]: an
    [AbortController] and a promise are known by a number. *)
Record Provider (Status : Type) := {
  abort : option nat;
  task : option nat;
  runtime : Status;
}.
Arguments abort {Status} _.
Arguments task {Status} _.
Arguments runtime {Status} _.

Record Manager := {
  whatsapp : Provider WebProviderStatus;
  telegram : Provider TelegramRuntimeStatus;
  discord : Provider DiscordRuntimeStatus;
  signal : Provider SignalRuntimeStatus;
  imessage : Provider IMessageRuntimeStatus;
  trace : list Effect;
  nextId : nat;
}.

Definition idle {Status} (initial : Status) : Provider Status :=
  {| abort := None; task := None; runtime := initial |}.

(** The state [createProviderManager] starts from. *)
Definition initialManager : Manager :=
  {| whatsapp :=
       idle {| waRunning := false; waConnected := false; waReconnectAttempts := 0;
               waLastConnectedAt := None; waLastDisconnect := None;
               waLastMessageAt := None; waLastEventAt := None; waLastError := None |};
     telegram :=
       idle {| tgRunning := false; tgLastStartAt := None; tgLastStopAt := None;
               tgLastError := None; tgMode := None |};
     discord :=
       idle {| dcRunning := false; dcLastStartAt := None; dcLastStopAt := None;
               dcLastError := None |};
     signal :=
       idle {| sgRunning := false; sgLastStartAt := None; sgLastStopAt := None;
               sgLastError := None; sgBaseUrl := None |};
     imessage :=
       idle {| imRunning := false; imLastStartAt := None; imLastStopAt := None;
               imLastError := None; imCliPath := None; imDbPath := None |};
     trace := [];
     nextId := 0 |}.

(** Assignments to one group of variables. *)
Definition setWhatsapp (p : Provider WebProviderStatus) (m : Manager) : Manager :=
  {| whatsapp := p; telegram := telegram m; discord := discord m; signal := signal m;
     imessage := imessage m; trace := trace m; nextId := nextId m |}.

Definition setTelegram (p : Provider TelegramRuntimeStatus) (m : Manager) : Manager :=
  {| whatsapp := whatsapp m; telegram := p; discord := discord m; signal := signal m;
     imessage := imessage m; trace := trace m; nextId := nextId m |}.

Definition setDiscord (p : Provider DiscordRuntimeStatus) (m : Manager) : Manager :=
  {| whatsapp := whatsapp m; telegram := telegram m; discord := p; signal := signal m;
     imessage := imessage m; trace := trace m; nextId := nextId m |}.

Definition setSignal (p : Provider SignalRuntimeStatus) (m : Manager) : Manager :=
  {| whatsapp := whatsapp m; telegram := telegram m; discord := discord m; signal := p;
     imessage := imessage m; trace := trace m; nextId := nextId m |}.

Definition setIMessage (p : Provider IMessageRuntimeStatus) (m : Manager) : Manager :=
  {| whatsapp := whatsapp m; telegram := telegram m; discord := discord m;
     signal := signal m; imessage := p; trace := trace m; nextId := nextId m |}.

Definition withAbort {Status} (a : option nat) (p : Provider Status) : Provider Status :=
  {| abort := a; task := task p; runtime := runtime p |}.

Definition withTask {Status} (t : option nat) (p : Provider Status) : Provider Status :=
  {| abort := abort p; task := t; runtime := runtime p |}.

Definition withRuntime {Status} (r : Status) (p : Provider Status) : Provider Status :=
  {| abort := abort p; task := task p; runtime := r |}.

Definition record (e : Effect) (m : Manager) : Manager :=
  {| whatsapp := whatsapp m; telegram := telegram m; discord := discord m;
     signal := signal m; imessage := imessage m; trace := trace m ++ [e];
     nextId := nextId m |}.

Definition log (k : ProviderKind) (level : LogLevel) (msg : string) : Manager -> Manager :=
  record (Logged k level msg).

Definition logIf (cond : bool) (k : ProviderKind) (level : LogLevel) (msg : string)
  (m : Manager) : Manager :=
  if cond then log k level msg m else m.

(** Two fresh numbers: one for the [AbortController], one for the task. *)
Definition bumpIds (m : Manager) : Manager :=
  {| whatsapp := whatsapp m; telegram := telegram m; discord := discord m;
     signal := signal m; imessage := imessage m; trace := trace m;
     nextId := S (S (nextId m)) |}.

(** *** Spreads over the status records *)

(** [{ ...whatsappRuntime, running, connected, lastError }] *)
Definition waWith (running connected : bool) (lastError : option string)
  (r : WebProviderStatus) : WebProviderStatus :=
  {| waRunning := running; waConnected := connected;
     waReconnectAttempts := waReconnectAttempts r;
     waLastConnectedAt := waLastConnectedAt r;
     waLastDisconnect := waLastDisconnect r;
     waLastMessageAt := waLastMessageAt r;
     waLastEventAt := waLastEventAt r;
     waLastError := lastError |}.

(** [x?.enabled === false] *)
Definition disabled (enabled : option (option bool)) : bool :=
  match enabled with Some (Some false) => true | _ => false end.

(** [s?.trim()], and its truthiness. *)
Definition trimmed (s : option string) : option string := trim <$> s.

Definition isSome {A} (o : option A) : bool :=
  match o with Some _ => true | None => false end.

(** [a || b] on a [string | undefined] and a string. *)
Definition orElse (a : option string) (b : string) : string :=
  match a with
  | Some s => if nonEmpty s then s else b
  | None => b
  end.

(** A template literal prints [undefined] as such. *)
Definition interpolate (t : option string) : string := default "undefined" t.

(** The label of the bot a probe found: [" (@name)"], or nothing. *)
Definition botLabel (p : ProbeOutcome) : string :=
  match p with
  | Probed true username =>
      let username := trimmed username in
      if truthy username then " (@" ++ default "" username ++ ")" else ""
  | _ => ""
  end.

(** The [catch] of the probe: a debug line when verbose. *)
Definition logProbeFailure (k : ProviderKind) (verbose : bool) (p : ProbeOutcome)
  (m : Manager) : Manager :=
  match p with
  | ProbeThrew err => logIf verbose k Debug ("bot probe failed: " ++ toString err) m
  | Probed _ _ => m
  end.

(** *** The per-connector variables, by kind *)

Record Slot (Status : Type) := {
  getP : Manager -> Provider Status;
  setP : Provider Status -> Manager -> Manager;
}.
Arguments getP {Status} _ _.
Arguments setP {Status} _ _ _.

Definition whatsappSlot := {| getP := whatsapp; setP := setWhatsapp |}.
Definition telegramSlot := {| getP := telegram; setP := setTelegram |}.
Definition discordSlot := {| getP := discord; setP := setDiscord |}.
Definition signalSlot := {| getP := signal; setP := setSignal |}.
Definition imessageSlot := {| getP := imessage; setP := setIMessage |}.

(** [<k>Abort = a], [<k>Task = t], [<k>Runtime = f(<k>Runtime)] *)
Definition assignAbort {Status} (sl : Slot Status) (a : option nat) (m : Manager) : Manager :=
  setP sl (withAbort a (getP sl m)) m.

Definition assignTask {Status} (sl : Slot Status) (t : option nat) (m : Manager) : Manager :=
  setP sl (withTask t (getP sl m)) m.

Definition updateRuntime {Status} (sl : Slot Status) (f : Status -> Status) (m : Manager)
  : Manager :=
  setP sl (withRuntime (f (runtime (getP sl m))) (getP sl m)) m.

(** [abort = new AbortController()], the status update, the monitor call
    with its [.catch(...).finally(...)] chain, and [task = <the chain>],
    in the order of the source. *)
Definition launch {Status} (sl : Slot Status) (k : ProviderKind)
  (started : Status -> Status) (args : MonitorArgs) (m : Manager) : Manager :=
  let signalId := nextId m in
  let taskId := S (nextId m) in
  let m := bumpIds m in
  let m := assignAbort sl (Some signalId) m in
  let m := updateRuntime sl started m in
  let m := record (MonitorLaunched k taskId signalId args) m in
  assignTask sl (Some taskId) m.

(** *** WhatsApp *)

Definition updateWhatsAppStatus (next : WebProviderStatus) (m : Manager) : Manager :=
  updateRuntime whatsappSlot (fun _ => next) m.

Definition startWhatsAppProvider (env : StartEnv) (m : Manager) : Manager :=
  if isSome (task (whatsapp m)) then m
  else
    let m := record ConfigLoaded m in
    let cfg := loadConfig env in
    if disabled (webEnabled <$> cfgWeb cfg) then
      let m := updateRuntime whatsappSlot (waWith false false (Some "disabled")) m in
      log WhatsApp Info "skipping provider start (web.enabled=false)" m
    else if negb (webAuthExists env) then
      let m := updateRuntime whatsappSlot (waWith false false (Some "not linked")) m in
      log WhatsApp Info "skipping provider start (no linked session)" m
    else
      let '(e164, jid) := readWebSelfId env in
      let identity :=
        if truthy e164 then default "" e164
        else if truthy jid then "jid " ++ default "" jid
        else "unknown" in
      let m := log WhatsApp Info ("starting provider (" ++ identity ++ ")") m in
      launch whatsappSlot WhatsApp (waWith true false None)
        (WebMonitor (shouldLogVerbose env)) m.

(** The [.catch] callback of the WhatsApp task. *)
Definition whatsappRejected (err : JsValue) (m : Manager) : Manager :=
  let m :=
    updateRuntime whatsappSlot
      (fun r => waWith (waRunning r) (waConnected r) (formatError err) r) m in
  log WhatsApp Error ("provider exited: " ++ interpolate (formatError err)) m.

(** The statements of the [.finally] callback, in the order written. *)
Definition whatsappFinally : list (Manager -> Manager) :=
  [ assignAbort whatsappSlot None;
    assignTask whatsappSlot None;
    updateRuntime whatsappSlot (fun r => waWith false false (waLastError r) r) ].

Definition markWhatsAppLoggedOut (cleared : bool) (m : Manager) : Manager :=
  updateRuntime whatsappSlot
    (fun r => waWith false false (if cleared then Some "logged out" else waLastError r) r) m.

(** *** Telegram *)

Definition tgSkipped (reason : string) (r : TelegramRuntimeStatus) : TelegramRuntimeStatus :=
  {| tgRunning := false; tgLastStartAt := tgLastStartAt r; tgLastStopAt := tgLastStopAt r;
     tgLastError := Some reason; tgMode := tgMode r |}.

Definition tgStarted (now : Z) (mode : TelegramMode) (r : TelegramRuntimeStatus)
  : TelegramRuntimeStatus :=
  {| tgRunning := true; tgLastStartAt := Some now; tgLastStopAt := tgLastStopAt r;
     tgLastError := None; tgMode := Some mode |}.

Definition tgFailed (lastError : option string) (r : TelegramRuntimeStatus)
  : TelegramRuntimeStatus :=
  {| tgRunning := tgRunning r; tgLastStartAt := tgLastStartAt r;
     tgLastStopAt := tgLastStopAt r; tgLastError := lastError; tgMode := tgMode r |}.

Definition tgStopped (now : Z) (r : TelegramRuntimeStatus) : TelegramRuntimeStatus :=
  {| tgRunning := false; tgLastStartAt := tgLastStartAt r; tgLastStopAt := Some now;
     tgLastError := tgLastError r; tgMode := tgMode r |}.

Definition startTelegramProvider (env : StartEnv) (m : Manager) : Manager :=
  if isSome (task (telegram m)) then m
  else
    let m := record ConfigLoaded m in
    let cfg := loadConfig env in
    if disabled (telegramEnabled <$> cfgTelegram cfg) then
      let m := updateRuntime telegramSlot (tgSkipped "disabled") m in
      logIf (shouldLogVerbose env) Telegram Debug
        "telegram provider disabled (telegram.enabled=false)" m
    else
      let telegramToken := resolveTelegramToken env cfg in
      if negb (nonEmpty (trim telegramToken)) then
        let m := updateRuntime telegramSlot (tgSkipped "not configured") m in
        logIf (shouldLogVerbose env) Telegram Debug
          "telegram provider not configured (no TELEGRAM_BOT_TOKEN)" m
      else
        let probe := probeTelegram env (trim telegramToken) 2500 in
        let telegramBotLabel := botLabel probe in
        let m := logProbeFailure Telegram (shouldLogVerbose env) probe m in
        let m :=
          log Telegram Info
            ("starting provider" ++ telegramBotLabel
               ++ (if isSome (cfgTelegram cfg) then ""
                   else " (no telegram config; token via env)")) m in
        let webhookUrl := cfgTelegram cfg ≫= telegramWebhookUrl in
        launch telegramSlot Telegram
          (tgStarted (dateNow env) (if truthy webhookUrl then Webhook else Polling))
          (TelegramMonitor (trim telegramToken) (truthy webhookUrl) webhookUrl) m.

Definition telegramRejected (err : JsValue) (m : Manager) : Manager :=
  let m := updateRuntime telegramSlot (tgFailed (formatError err)) m in
  log Telegram Error ("provider exited: " ++ interpolate (formatError err)) m.

Definition telegramFinally (now : Z) : list (Manager -> Manager) :=
  [ assignAbort telegramSlot None;
    assignTask telegramSlot None;
    updateRuntime telegramSlot (tgStopped now) ].

(** *** Discord *)

Definition dcSkipped (reason : string) (r : DiscordRuntimeStatus) : DiscordRuntimeStatus :=
  {| dcRunning := false; dcLastStartAt := dcLastStartAt r; dcLastStopAt := dcLastStopAt r;
     dcLastError := Some reason |}.

Definition dcStarted (now : Z) (r : DiscordRuntimeStatus) : DiscordRuntimeStatus :=
  {| dcRunning := true; dcLastStartAt := Some now; dcLastStopAt := dcLastStopAt r;
     dcLastError := None |}.

Definition dcFailed (lastError : option string) (r : DiscordRuntimeStatus)
  : DiscordRuntimeStatus :=
  {| dcRunning := dcRunning r; dcLastStartAt := dcLastStartAt r;
     dcLastStopAt := dcLastStopAt r; dcLastError := lastError |}.

Definition dcStopped (now : Z) (r : DiscordRuntimeStatus) : DiscordRuntimeStatus :=
  {| dcRunning := false; dcLastStartAt := dcLastStartAt r; dcLastStopAt := Some now;
     dcLastError := dcLastError r |}.

Definition startDiscordProvider (env : StartEnv) (m : Manager) : Manager :=
  if isSome (task (discord m)) then m
  else
    let m := record ConfigLoaded m in
    let cfg := loadConfig env in
    if disabled (discordEnabled <$> cfgDiscord cfg) then
      let m := updateRuntime discordSlot (dcSkipped "disabled") m in
      logIf (shouldLogVerbose env) Discord Debug
        "discord provider disabled (discord.enabled=false)" m
    else
      let discordToken :=
        match envDiscordBotToken env with
        | Some t => t
        | None => default "" (cfgDiscord cfg ≫= discordToken)
        end in
      if negb (nonEmpty (trim discordToken)) then
        let m := updateRuntime discordSlot (dcSkipped "not configured") m in
        logIf (shouldLogVerbose env) Discord Debug
          "discord provider not configured (no DISCORD_BOT_TOKEN)" m
      else
        let probe := probeDiscord env (trim discordToken) 2500 in
        let discordBotLabel := botLabel probe in
        let m := logProbeFailure Discord (shouldLogVerbose env) probe m in
        let m :=
          log Discord Info
            ("starting provider" ++ discordBotLabel
               ++ (if isSome (cfgDiscord cfg) then ""
                   else " (no discord config; token via env)")) m in
        launch discordSlot Discord (dcStarted (dateNow env))
          (DiscordMonitor (trim discordToken)) m.

Definition discordRejected (err : JsValue) (m : Manager) : Manager :=
  let m := updateRuntime discordSlot (dcFailed (formatError err)) m in
  log Discord Error ("provider exited: " ++ interpolate (formatError err)) m.

Definition discordFinally (now : Z) : list (Manager -> Manager) :=
  [ assignAbort discordSlot None;
    assignTask discordSlot None;
    updateRuntime discordSlot (dcStopped now) ].

(** *** Signal *)

Definition sgSkipped (reason : string) (r : SignalRuntimeStatus) : SignalRuntimeStatus :=
  {| sgRunning := false; sgLastStartAt := sgLastStartAt r; sgLastStopAt := sgLastStopAt r;
     sgLastError := Some reason; sgBaseUrl := sgBaseUrl r |}.

Definition sgStarted (now : Z) (baseUrl : string) (r : SignalRuntimeStatus)
  : SignalRuntimeStatus :=
  {| sgRunning := true; sgLastStartAt := Some now; sgLastStopAt := sgLastStopAt r;
     sgLastError := None; sgBaseUrl := Some baseUrl |}.

Definition sgFailed (lastError : option string) (r : SignalRuntimeStatus)
  : SignalRuntimeStatus :=
  {| sgRunning := sgRunning r; sgLastStartAt := sgLastStartAt r;
     sgLastStopAt := sgLastStopAt r; sgLastError := lastError; sgBaseUrl := sgBaseUrl r |}.

Definition sgStopped (now : Z) (r : SignalRuntimeStatus) : SignalRuntimeStatus :=
  {| sgRunning := false; sgLastStartAt := sgLastStartAt r; sgLastStopAt := Some now;
     sgLastError := sgLastError r; sgBaseUrl := sgBaseUrl r |}.

(** [Boolean(account?.trim() || httpUrl?.trim() || cliPath?.trim() ||
    httpHost?.trim() || typeof httpPort === "number" ||
    typeof autoStart === "boolean")] *)
Definition signalMeaningfullyConfigured (signalCfg : SignalConfig) : bool :=
  truthy (trimmed (signalAccount signalCfg))
  || truthy (trimmed (signalHttpUrl signalCfg))
  || truthy (trimmed (signalCliPath signalCfg))
  || truthy (trimmed (signalHttpHost signalCfg))
  || isSome (signalHttpPort signalCfg)
  || isSome (signalAutoStart signalCfg).

Definition startSignalProvider (env : StartEnv) (m : Manager) : Manager :=
  if isSome (task (signal m)) then m
  else
    let m := record ConfigLoaded m in
    let cfg := loadConfig env in
    match cfgSignal cfg with
    | None =>
        let m := updateRuntime signalSlot (sgSkipped "not configured") m in
        logIf (shouldLogVerbose env) Signal Debug
          "signal provider not configured (no signal config)" m
    | Some signalCfg =>
        if disabled (Some (signalEnabled signalCfg)) then
          let m := updateRuntime signalSlot (sgSkipped "disabled") m in
          logIf (shouldLogVerbose env) Signal Debug
            "signal provider disabled (signal.enabled=false)" m
        else if negb (signalMeaningfullyConfigured signalCfg) then
          let m := updateRuntime signalSlot (sgSkipped "not configured") m in
          logIf (shouldLogVerbose env) Signal Debug
            "signal provider not configured (signal config present but missing required fields)"
            m
        else
          let host := orElse (trimmed (signalHttpHost signalCfg)) "127.0.0.1" in
          let port := default 8080%Z (signalHttpPort signalCfg) in
          let baseUrl :=
            orElse (trimmed (signalHttpUrl signalCfg))
              ("http://" ++ host ++ ":" ++ numberToString port) in
          let m := log Signal Info ("starting provider (" ++ baseUrl ++ ")") m in
          launch signalSlot Signal (sgStarted (dateNow env) baseUrl)
            (SignalMonitor baseUrl) m
    end.

Definition signalRejected (err : JsValue) (m : Manager) : Manager :=
  let m := updateRuntime signalSlot (sgFailed (formatError err)) m in
  log Signal Error ("provider exited: " ++ interpolate (formatError err)) m.

Definition signalFinally (now : Z) : list (Manager -> Manager) :=
  [ assignAbort signalSlot None;
    assignTask signalSlot None;
    updateRuntime signalSlot (sgStopped now) ].

(** *** iMessage *)

Definition imSkipped (reason : string) (r : IMessageRuntimeStatus) : IMessageRuntimeStatus :=
  {| imRunning := false; imLastStartAt := imLastStartAt r; imLastStopAt := imLastStopAt r;
     imLastError := Some reason; imCliPath := imCliPath r; imDbPath := imDbPath r |}.

Definition imStarted (now : Z) (cliPath : string) (dbPath : option string)
  (r : IMessageRuntimeStatus) : IMessageRuntimeStatus :=
  {| imRunning := true; imLastStartAt := Some now; imLastStopAt := imLastStopAt r;
     imLastError := None; imCliPath := Some cliPath; imDbPath := dbPath |}.

Definition imFailed (lastError : option string) (r : IMessageRuntimeStatus)
  : IMessageRuntimeStatus :=
  {| imRunning := imRunning r; imLastStartAt := imLastStartAt r;
     imLastStopAt := imLastStopAt r; imLastError := lastError;
     imCliPath := imCliPath r; imDbPath := imDbPath r |}.

Definition imStopped (now : Z) (r : IMessageRuntimeStatus) : IMessageRuntimeStatus :=
  {| imRunning := false; imLastStartAt := imLastStartAt r; imLastStopAt := Some now;
     imLastError := imLastError r; imCliPath := imCliPath r; imDbPath := imDbPath r |}.

Definition startIMessageProvider (env : StartEnv) (m : Manager) : Manager :=
  if isSome (task (imessage m)) then m
  else
    let m := record ConfigLoaded m in
    let cfg := loadConfig env in
    match cfgIMessage cfg with
    | None =>
        let m := updateRuntime imessageSlot (imSkipped "not configured") m in
        logIf (shouldLogVerbose env) IMessage Debug
          "imessage provider not configured (no imessage config)" m
    | Some imessageCfg =>
        if disabled (Some (imessageEnabled imessageCfg)) then
          let m := updateRuntime imessageSlot (imSkipped "disabled") m in
          logIf (shouldLogVerbose env) IMessage Debug
            "imessage provider disabled (imessage.enabled=false)" m
        else
          let cliPath := orElse (trimmed (imessageCliPath imessageCfg)) "imsg" in
          let dbPath := trimmed (imessageDbPath imessageCfg) in
          let m :=
            log IMessage Info
              ("starting provider (" ++ cliPath
                 ++ (if truthy dbPath then " db=" ++ default "" dbPath else "") ++ ")") m in
          launch imessageSlot IMessage (imStarted (dateNow env) cliPath dbPath)
            (IMessageMonitor cliPath dbPath) m
    end.

Definition imessageRejected (err : JsValue) (m : Manager) : Manager :=
  let m := updateRuntime imessageSlot (imFailed (formatError err)) m in
  log IMessage Error ("provider exited: " ++ interpolate (formatError err)) m.

Definition imessageFinally (now : Z) : list (Manager -> Manager) :=
  [ assignAbort imessageSlot None;
    assignTask imessageSlot None;
    updateRuntime imessageSlot (imStopped now) ].

(** *** The manager's interface, by kind *)

(** A start call that runs from its first line to its return with no
    other job in between. *)
Definition start (k : ProviderKind) : StartEnv -> Manager -> Manager :=
  match k with
  | WhatsApp => startWhatsAppProvider
  | Telegram => startTelegramProvider
  | Discord => startDiscordProvider
  | Signal => startSignalProvider
  | IMessage => startIMessageProvider
  end.

(** [startProviders]: each call is awaited before the next begins. *)
Definition startProviders (env : ProviderKind -> StartEnv) (m : Manager) : Manager :=
  let m := startWhatsAppProvider (env WhatsApp) m in
  let m := startDiscordProvider (env Discord) m in
  let m := startTelegramProvider (env Telegram) m in
  let m := startSignalProvider (env Signal) m in
  startIMessageProvider (env IMessage) m.

Definition getRuntimeSnapshot (m : Manager) : ProviderRuntimeSnapshot :=
  {| snapWhatsapp := runtime (whatsapp m);
     snapTelegram := runtime (telegram m);
     snapDiscord := runtime (discord m);
     snapSignal := runtime (signal m);
     snapIMessage := runtime (imessage m) |}.

Definition snapshotRunning (k : ProviderKind) (s : ProviderRuntimeSnapshot) : bool :=
  match k with
  | WhatsApp => waRunning (snapWhatsapp s)
  | Telegram => tgRunning (snapTelegram s)
  | Discord => dcRunning (snapDiscord s)
  | Signal => sgRunning (snapSignal s)
  | IMessage => imRunning (snapIMessage s)
  end.

Definition snapshotLastError (k : ProviderKind) (s : ProviderRuntimeSnapshot) : option string :=
  match k with
  | WhatsApp => waLastError (snapWhatsapp s)
  | Telegram => tgLastError (snapTelegram s)
  | Discord => dcLastError (snapDiscord s)
  | Signal => sgLastError (snapSignal s)
  | IMessage => imLastError (snapIMessage s)
  end.

Definition taskOf (k : ProviderKind) (m : Manager) : option nat :=
  match k with
  | WhatsApp => task (whatsapp m)
  | Telegram => task (telegram m)
  | Discord => task (discord m)
  | Signal => task (signal m)
  | IMessage => task (imessage m)
  end.

Definition abortOf (k : ProviderKind) (m : Manager) : option nat :=
  match k with
  | WhatsApp => abort (whatsapp m)
  | Telegram => abort (telegram m)
  | Discord => abort (discord m)
  | Signal => abort (signal m)
  | IMessage => abort (imessage m)
  end.

(** The running flag and the last error of a connector, as a snapshot
    shows them. *)
Definition runningOf (k : ProviderKind) (m : Manager) : bool :=
  snapshotRunning k (getRuntimeSnapshot m).

Definition lastErrorOf (k : ProviderKind) (m : Manager) : option string :=
  snapshotLastError k (getRuntimeSnapshot m).

(** The reasons a start call records when it launches nothing. *)
Definition skipReason (e : option string) : Prop :=
  e = Some "disabled" \/ e = Some "not configured" \/ e = Some "not linked".

(** *** Settlement of a connector's task *)

(** The [.catch] callback. *)
Definition onRejected (k : ProviderKind) : JsValue -> Manager -> Manager :=
  match k with
  | WhatsApp => whatsappRejected
  | Telegram => telegramRejected
  | Discord => discordRejected
  | Signal => signalRejected
  | IMessage => imessageRejected
  end.

(** The statements of the [.finally] callback; [now] is its [Date.now()]. *)
Definition finallyStatements (k : ProviderKind) (now : Z) : list (Manager -> Manager) :=
  match k with
  | WhatsApp => whatsappFinally
  | Telegram => telegramFinally now
  | Discord => discordFinally now
  | Signal => signalFinally now
  | IMessage => imessageFinally now
  end.

Definition runStatements (stmts : list (Manager -> Manager)) (m : Manager) : Manager :=
  fold_left (fun m stmt => stmt m) stmts m.

(** The [.finally] callback. *)
Definition onFinally (k : ProviderKind) (now : Z) (m : Manager) : Manager :=
  runStatements (finallyStatements k now) m.

(** *** stop *)

(** A stop function up to its [await]: it returns at once ([None]) when
    neither the controller nor the task is set; otherwise it aborts the
    controller, if there is one, and waits for the task. *)
Definition stopRequested (k : ProviderKind) (m : Manager) : option Manager :=
  if negb (isSome (abortOf k m)) && negb (isSome (taskOf k m)) then None
  else
    Some match abortOf k m with
         | Some signalId => record (AbortSignalled k signalId) m
         | None => m
         end.

(** A stop function after its [await]: the three assignments of the
    [.finally] callback once more, with a [Date.now()] of its own. *)
Definition stopResumed (k : ProviderKind) (now : Z) (m : Manager) : Manager :=
  runStatements (finallyStatements k now) m.

(** *** The scheduler's view *)

(** A callback runs to completion before the next one starts, so the
    states another job (a status read, a start or a stop call) can read
    are those between two jobs. Status records are plain data here: an
    accessor of a status object handed to the status sink, which a
    spread inside a callback would run, is outside this model. A task that fails
    settles in two jobs, one per link of [.catch(...).finally(...)]; one
    that succeeds settles in the second alone. A stop call is the two
    jobs around its [await]. A [Start] job is a start call that nothing
    interrupts at its own [await], which [env] answers; the two jobs of a
    start call and the runs in which two calls overlap are [startBegin],
    [startResume] and [startOverlapped] below. *)
Inductive Job :=
| Start (k : ProviderKind) (env : StartEnv)
| Rejected (k : ProviderKind) (err : JsValue)
| Finally (k : ProviderKind) (now : Z)
| StopRequested (k : ProviderKind)
| StopResumed (k : ProviderKind) (now : Z)
| StatusSink (next : WebProviderStatus)
| LoggedOut (cleared : bool).

Definition runJob (j : Job) (m : Manager) : Manager :=
  match j with
  | Start k env => start k env m
  | Rejected k err => onRejected k err m
  | Finally k now => onFinally k now m
  | StopRequested k => default m (stopRequested k m)
  | StopResumed k now => stopResumed k now m
  | StatusSink next => updateWhatsAppStatus next m
  | LoggedOut cleared => markWhatsAppLoggedOut cleared m
  end.

Definition runJobs (js : list Job) (m : Manager) : Manager :=
  fold_left (fun m j => runJob j m) js m.

(** What a reader of the status sees after the jobs [js]. *)
Definition observe (js : list Job) (m : Manager) : ProviderRuntimeSnapshot :=
  getRuntimeSnapshot (runJobs js m).

(** A stop call whose task settles during the wait: with [failure] when
    it rejects. *)
Definition stop (k : ProviderKind) (failure : option JsValue) (settledAt resumedAt : Z)
  (m : Manager) : Manager :=
  match stopRequested k m with
  | None => m
  | Some m =>
      let m :=
        if isSome (taskOf k m) then
          let m := match failure with Some err => onRejected k err m | None => m end in
          onFinally k settledAt m
        else m in
      stopResumed k resumedAt m
  end.

(** How many monitors of kind [k] a trace launched. *)
Definition isLaunchOf (k : ProviderKind) (e : Effect) : bool :=
  match e with
  | MonitorLaunched k' _ _ _ =>
      match k, k' with
      | WhatsApp, WhatsApp | Telegram, Telegram | Discord, Discord
      | Signal, Signal | IMessage, IMessage => true
      | _, _ => false
      end
  | _ => false
  end.

Definition launches (k : ProviderKind) (t : list Effect) : nat :=
  length (List.filter (isLaunchOf k) t).

Definition isConfigLoad (e : Effect) : bool :=
  match e with ConfigLoaded => true | _ => false end.

Definition configLoads (t : list Effect) : nat :=
  length (List.filter isConfigLoad t).

(** The controllers a trace aborted, in order. *)
Definition signalled (t : list Effect) : list nat :=
  flat_map (fun e => match e with AbortSignalled _ signalId => [signalId] | _ => [] end) t.

(** *** A start call, around its await *)

(** Three start functions wait for a collaborator between their first
    line and the assignment of the task handle: [await webAuthExists()],
    [await probeTelegram(...)] and [await probeDiscord(...)]. Such a call
    runs up to the [await] when it is made and the rest as a later job of
    its own, and other jobs can run in between. A suspended call keeps its
    local variables. The start functions of Signal and iMessage have no
    [await]: a call of theirs is one job. *)
Inductive Suspended :=
| AwaitingWebAuth
| AwaitingTelegramProbe (cfg : ClawdisConfig) (telegramToken : string)
| AwaitingDiscordProbe (cfg : ClawdisConfig) (discordToken : string).

Definition awaits (k : ProviderKind) : bool :=
  match k with
  | WhatsApp | Telegram | Discord => true
  | Signal | IMessage => false
  end.

(** [startWhatsAppProvider] up to [await webAuthExists()]. *)
Definition startWhatsAppBegin (env : StartEnv) (m : Manager) : Manager * option Suspended :=
  if isSome (task (whatsapp m)) then (m, None)
  else
    let m := record ConfigLoaded m in
    let cfg := loadConfig env in
    if disabled (webEnabled <$> cfgWeb cfg) then
      let m := updateRuntime whatsappSlot (waWith false false (Some "disabled")) m in
      (log WhatsApp Info "skipping provider start (web.enabled=false)" m, None)
    else (m, Some AwaitingWebAuth).

(** [startWhatsAppProvider] from the answer of [webAuthExists()] on. *)
Definition startWhatsAppResume (env : StartEnv) (m : Manager) : Manager :=
  if negb (webAuthExists env) then
    let m := updateRuntime whatsappSlot (waWith false false (Some "not linked")) m in
    log WhatsApp Info "skipping provider start (no linked session)" m
  else
    let '(e164, jid) := readWebSelfId env in
    let identity :=
      if truthy e164 then default "" e164
      else if truthy jid then "jid " ++ default "" jid
      else "unknown" in
    let m := log WhatsApp Info ("starting provider (" ++ identity ++ ")") m in
    launch whatsappSlot WhatsApp (waWith true false None)
      (WebMonitor (shouldLogVerbose env)) m.

(** [startTelegramProvider] up to [await probeTelegram(...)]. *)
Definition startTelegramBegin (env : StartEnv) (m : Manager) : Manager * option Suspended :=
  if isSome (task (telegram m)) then (m, None)
  else
    let m := record ConfigLoaded m in
    let cfg := loadConfig env in
    if disabled (telegramEnabled <$> cfgTelegram cfg) then
      let m := updateRuntime telegramSlot (tgSkipped "disabled") m in
      (logIf (shouldLogVerbose env) Telegram Debug
         "telegram provider disabled (telegram.enabled=false)" m, None)
    else
      let telegramToken := resolveTelegramToken env cfg in
      if negb (nonEmpty (trim telegramToken)) then
        let m := updateRuntime telegramSlot (tgSkipped "not configured") m in
        (logIf (shouldLogVerbose env) Telegram Debug
           "telegram provider not configured (no TELEGRAM_BOT_TOKEN)" m, None)
      else (m, Some (AwaitingTelegramProbe cfg telegramToken)).

(** [startTelegramProvider] from the outcome of the probe on. *)
Definition startTelegramResume (cfg : ClawdisConfig) (telegramToken : string)
  (env : StartEnv) (m : Manager) : Manager :=
  let probe := probeTelegram env (trim telegramToken) 2500 in
  let telegramBotLabel := botLabel probe in
  let m := logProbeFailure Telegram (shouldLogVerbose env) probe m in
  let m :=
    log Telegram Info
      ("starting provider" ++ telegramBotLabel
         ++ (if isSome (cfgTelegram cfg) then ""
             else " (no telegram config; token via env)")) m in
  let webhookUrl := cfgTelegram cfg ≫= telegramWebhookUrl in
  launch telegramSlot Telegram
    (tgStarted (dateNow env) (if truthy webhookUrl then Webhook else Polling))
    (TelegramMonitor (trim telegramToken) (truthy webhookUrl) webhookUrl) m.

(** [startDiscordProvider] up to [await probeDiscord(...)]. *)
Definition startDiscordBegin (env : StartEnv) (m : Manager) : Manager * option Suspended :=
  if isSome (task (discord m)) then (m, None)
  else
    let m := record ConfigLoaded m in
    let cfg := loadConfig env in
    if disabled (discordEnabled <$> cfgDiscord cfg) then
      let m := updateRuntime discordSlot (dcSkipped "disabled") m in
      (logIf (shouldLogVerbose env) Discord Debug
         "discord provider disabled (discord.enabled=false)" m, None)
    else
      let discordToken :=
        match envDiscordBotToken env with
        | Some t => t
        | None => default "" (cfgDiscord cfg ≫= discordToken)
        end in
      if negb (nonEmpty (trim discordToken)) then
        let m := updateRuntime discordSlot (dcSkipped "not configured") m in
        (logIf (shouldLogVerbose env) Discord Debug
           "discord provider not configured (no DISCORD_BOT_TOKEN)" m, None)
      else (m, Some (AwaitingDiscordProbe cfg discordToken)).

(** [startDiscordProvider] from the outcome of the probe on. *)
Definition startDiscordResume (cfg : ClawdisConfig) (discordToken : string)
  (env : StartEnv) (m : Manager) : Manager :=
  let probe := probeDiscord env (trim discordToken) 2500 in
  let discordBotLabel := botLabel probe in
  let m := logProbeFailure Discord (shouldLogVerbose env) probe m in
  let m :=
    log Discord Info
      ("starting provider" ++ discordBotLabel
         ++ (if isSome (cfgDiscord cfg) then ""
             else " (no discord config; token via env)")) m in
  launch discordSlot Discord (dcStarted (dateNow env))
    (DiscordMonitor (trim discordToken)) m.

(** The job a start call runs when it is made: the state it leaves and,
    when it stopped at its [await], what it resumes with. *)
Definition startBegin (k : ProviderKind) (env : StartEnv) (m : Manager)
  : Manager * option Suspended :=
  match k with
  | WhatsApp => startWhatsAppBegin env m
  | Telegram => startTelegramBegin env m
  | Discord => startDiscordBegin env m
  | Signal => (startSignalProvider env m, None)
  | IMessage => (startIMessageProvider env m, None)
  end.

(** The job that resumes a suspended start call. *)
Definition startResume (s : Suspended) (env : StartEnv) (m : Manager) : Manager :=
  match s with
  | AwaitingWebAuth => startWhatsAppResume env m
  | AwaitingTelegramProbe cfg telegramToken => startTelegramResume cfg telegramToken env m
  | AwaitingDiscordProbe cfg discordToken => startDiscordResume cfg discordToken env m
  end.

Definition resumeStart (s : option Suspended) (env : StartEnv) (m : Manager) : Manager :=
  match s with
  | Some s => startResume s env m
  | None => m
  end.

(** Two start calls of one connector, the second made before the first
    is resumed, as in [void start(); void start()] or two requests that
    arrive together: both run to their [await], then each is resumed,
    in the order [firstResumed] says. *)
Definition startOverlapped (k : ProviderKind) (env1 env2 : StartEnv) (firstResumed : bool)
  (m : Manager) : Manager :=
  let '(m, s1) := startBegin k env1 m in
  let '(m, s2) := startBegin k env2 m in
  if firstResumed then resumeStart s2 env2 (resumeStart s1 env1 m)
  else resumeStart s1 env1 (resumeStart s2 env2 m).

(** None of the early returns of the start function of [k] is taken by
    a call that passes its first line. *)
Definition startsMonitor (k : ProviderKind) (env : StartEnv) : bool :=
  let cfg := loadConfig env in
  match k with
  | WhatsApp => negb (disabled (webEnabled <$> cfgWeb cfg)) && webAuthExists env
  | Telegram =>
      negb (disabled (telegramEnabled <$> cfgTelegram cfg))
      && nonEmpty (trim (resolveTelegramToken env cfg))
  | Discord =>
      negb (disabled (discordEnabled <$> cfgDiscord cfg))
      && nonEmpty (trim match envDiscordBotToken env with
                        | Some t => t
                        | None => default "" (cfgDiscord cfg ≫= discordToken)
                        end)
  | Signal =>
      match cfgSignal cfg with
      | Some signalCfg =>
          negb (disabled (Some (signalEnabled signalCfg)))
          && signalMeaningfullyConfigured signalCfg
      | None => false
      end
  | IMessage =>
      match cfgIMessage cfg with
      | Some imessageCfg => negb (disabled (Some (imessageEnabled imessageCfg)))
      | None => false
      end
  end.

(** The outcomes of a settling task: it resolved, or it rejected with a
    value; and the callbacks of [.catch(...).finally(...)] that run,
    each a job of its own. *)
Definition settlement (k : ProviderKind) (failure : option JsValue) (now : Z) : list Job :=
  match failure with
  | Some err => [Rejected k err; Finally k now]
  | None => [Finally k now]
  end.

(** A configuration and an environment under which every connector
    starts, to run the manager on. *)
Definition sampleConfig : ClawdisConfig :=
  {| cfgWeb := None;
     cfgTelegram := Some {| telegramEnabled := None; telegramWebhookUrl := None |};
     cfgDiscord := None;
     cfgSignal :=
       Some {| signalEnabled := None; signalAccount := Some "+15550100";
               signalHttpUrl := None; signalCliPath := None; signalHttpHost := None;
               signalHttpPort := None; signalAutoStart := None |};
     cfgIMessage :=
       Some {| imessageEnabled := Some true; imessageCliPath := None;
               imessageDbPath := None |} |}.

Definition sampleEnv : StartEnv :=
  {| loadConfig := sampleConfig;
     shouldLogVerbose := false;
     webAuthExists := true;
     readWebSelfId := (Some "+15550100", None);
     resolveTelegramToken := fun _ => "123:abc";
     probeTelegram := fun _ _ => Probed true (Some "hookbot");
     probeDiscord := fun _ _ => ProbeThrew (JError "timeout");
     envDiscordBotToken := Some "discord-token";
     dateNow := 1700000000000 |}.

End ServerProviders.

(** ** The HTTP module: the request listener and the upgrade handler *)

Module GatewayServer.
Import Js ServerUtils ServerHttp.
Local Open Scope conn_scope.

(** [String.prototype.toLowerCase] on the code units below 256: the
    letters A to Z, and the capital letters of the upper half but the
    multiplication sign. *)
Definition toLowerCaseChar (c : ascii) : ascii :=
  let n := nat_of_ascii c in
  if ((65 <=? n)%nat && (n <=? 90)%nat)
     || ((192 <=? n)%nat && (n <=? 214)%nat)
     || ((216 <=? n)%nat && (n <=? 222)%nat)
  then ascii_of_nat (n + 32)
  else c.

Fixpoint toLowerCase (s : string) : string :=
  match s with
  | EmptyString => EmptyString
  | String c r => String (toLowerCaseChar c) (toLowerCase r)
  end.

(** [req.headers[name]], the names being in lower case already. *)
Fixpoint lookupHeader (name : string) (headers : list (string * string)) : option string :=
  match headers with
  | [] => None
  | (k, v) :: rest => if String.eqb k name then Some v else lookupHeader name rest
  end.

(** [String(req.headers.upgrade ?? "").toLowerCase() === "websocket"] *)
Definition isWebSocketUpgrade (req : IncomingMessage) : bool :=
  String.eqb (toLowerCase (default "" (lookupHeader "upgrade" (reqHeaders req))))
    "websocket".

(** [CanvasHostHandler], as far as the gateway calls it. *)
Record CanvasHostHandler := {
  handleHttpRequest : IncomingMessage -> M bool;
  handleUpgrade : IncomingMessage -> bool;
}.

(** The handlers the module imports from [../canvas-host/a2ui.js] and
    [./control-ui.js]. *)
Class ServerImports := {
  handleA2uiHttpRequest : IncomingMessage -> M bool;
  handleControlUiHttpRequest : IncomingMessage -> string -> M bool;
}.

(** The [opts] of [createGatewayHttpServer]; [hooksHandler] is
    [opts.handleHooksRequest]. *)
Record ServerOpts := {
  canvasHost : option CanvasHostHandler;
  controlUiEnabled : bool;
  controlUiBasePath : string;
  hooksHandler : IncomingMessage -> M bool;
}.

Section Listener.

Context `{ServerImports}.

Variable opts : ServerOpts.

(** The body of the async function: each handler in turn, the first that
    returns [true] ends the chain; 404 when none does. *)
Definition handlerChain (req : IncomingMessage) : M unit :=
  handled <- hooksHandler opts req ;;
  if (handled : bool) then ret tt
  else
    handled <-
      match canvasHost opts with
      | Some host =>
          handled <- handleA2uiHttpRequest req ;;
          if (handled : bool) then ret true else handleHttpRequest host req
      | None => ret false
      end ;;
    if (handled : bool) then ret tt
    else
      handled <-
        (if controlUiEnabled opts
         then handleControlUiHttpRequest req (controlUiBasePath opts)
         else ret false) ;;
      if (handled : bool) then ret tt else sendText 404 "Not Found".

(** The [.catch] of the chain. The writes are those of a response whose
    headers are not sent yet. *)
Definition onChainError (err : JsValue) : M unit :=
  sendText 500 (toString err).

(** The listener [createHttpServer] is given: what it leaves on the
    connection. An upgrade request is left to the [upgrade] event. *)
Definition requestListener (req : IncomingMessage) (c : Conn) : Conn :=
  if isWebSocketUpgrade req then c
  else snd (tryCatch (handlerChain req) onChainError c).

End Listener.

(** Who takes a socket in [attachGatewayUpgradeHandler]. *)
Inductive UpgradeRoute := ToCanvasHost | ToWebSocketServer.

Definition routeUpgrade (canvasHost : option CanvasHostHandler) (req : IncomingMessage)
  : UpgradeRoute :=
  match canvasHost with
  | Some host => if handleUpgrade host req then ToCanvasHost else ToWebSocketServer
  | None => ToWebSocketServer
  end.

(** A handler keeps to the convention of the chain when a call that
    returns [true] has ended the response. *)
Definition endsWhenHandled (h : IncomingMessage -> M bool) : Prop :=
  forall req c c', h req c = (Normal true, c') -> ended (res c') = true.

(** The status codes the hook handler answers with. *)
Definition hookStatusCodes : list Z := [200; 202; 204; 400; 401; 404; 405; 413; 500]%Z.

(** Imports and options for concrete runs: a UI handler that takes every
    request under its base path, a canvas host that takes none. *)
Definition sampleServerImports : ServerImports :=
  {| handleA2uiHttpRequest := fun _ => ret false;
     handleControlUiHttpRequest := fun req base =>
       if String.prefix base (pathname (url req))
       then (sendText 200 "control ui" ;; ret true)
       else ret false |}.

Definition sampleCanvasHost : CanvasHostHandler :=
  {| handleHttpRequest := fun _ => ret false; handleUpgrade := fun _ => false |}.

Definition sampleServerOpts (hooks : IncomingMessage -> M bool) : ServerOpts :=
  {| canvasHost := Some sampleCanvasHost;
     controlUiEnabled := true;
     controlUiBasePath := "/ui";
     hooksHandler := hooks |}.

(** The hook handler of the sample options, with scripted collaborators. *)
Definition sampleHooks (found : option string) : IncomingMessage -> M bool :=
  @handleHooksRequest unit (scriptedImports found (Ok (JObject [])) (Normal None))
    (sampleOpts "secret").

End GatewayServer.

(** ** Words for the mapping branch of the hook handler *)

Module HookRoutes.
Import Js ServerUtils ServerHttp.

Section Routes.

Context {Mapping : Type} `{HooksImports Mapping}.

(** The context the mapping engine is called with. *)
Definition mappingContextOf (cfg : HooksConfigResolved Mapping) (req : IncomingMessage)
  (value : JsValue) : MappingContext :=
  {| ctxPayload := hookPayload value;
     ctxHeaders := normalizeHookHeaders req;
     ctxUrl := url req;
     ctxPath := hookSubPath (basePath cfg) (pathname (url req)) |}.

(** The request reached the mapping engine, which completed with
    [mapped]. *)
Definition mappedTo (opts : @HandlerOpts Mapping) (cfg : HooksConfigResolved Mapping)
  (req : IncomingMessage) (value : JsValue)
  (mapped : Completion (option HookMappingResult)) : Prop :=
  accepted opts cfg req
  /\ mappedRoute (hookSubPath (basePath cfg) (pathname (url req)))
  /\ readJsonBody req (maxBodyBytes cfg) = Ok value
  /\ mappings cfg <> []
  /\ applyHookMappings (mappings cfg) (mappingContextOf cfg req value) = mapped.

End Routes.

(** Collaborators that accept every payload, for concrete runs. *)
Definition sampleWake : WakeHook := {| wakeText := "hello"; wakeMode := Now |}.

Definition sampleAgent : AgentHook :=
  {| agentMessage := "summarize the inbox"; agentName := "Mail";
     agentWakeMode := NextHeartbeat; agentSessionKey := "hook:mail";
     agentDeliver := true; agentChannel := ChTelegram; agentTo := Some "@me";
     agentThinking := None; agentTimeoutSeconds := Some 120%Z |}.

Definition sampleMappedAgent : MappedAgent :=
  {| mMessage := "build failed"; mName := None; mWakeMode := Now;
     mSessionKey := None; mDeliver := None; mChannel := None; mTo := None;
     mThinking := None; mTimeoutSeconds := None |}.

Definition acceptingImports (mapped : Completion (option HookMappingResult))
  : HooksImports unit :=
  {| extractHookToken := fun _ _ => Some "secret";
     readJsonBody := fun _ _ => Ok (JObject []);
     normalizeHookHeaders := reqHeaders;
     normalizeWakePayload := fun _ => Ok sampleWake;
     normalizeAgentPayload := fun _ => Ok sampleAgent;
     applyHookMappings := fun _ _ => mapped |}.

Definition sampleHooksConfig : HooksConfigResolved unit :=
  {| basePath := "/hooks"; token := "secret"; maxBodyBytes := 262144; mappings := [tt] |}.

(** Options whose dispatchers throw [e]. *)
Definition failingOpts (e : JsValue) : @HandlerOpts unit :=
  {| hooksConfig := Some sampleHooksConfig;
     bindHost := "127.0.0.1";
     port := 18789;
     dispatchWakeHook := fun _ => Throw e;
     dispatchAgentHook := fun _ => Throw e |}.

(** ["/"] repeated [n] times. *)
Fixpoint slashes (n : nat) : string :=
  match n with
  | O => ""
  | S n' => String "/" (slashes n')
  end.

End HookRoutes.

(** ** Views of the supervisor's state *)

Module ProvidersView.
Import Js ServerUtils ServerProviders.

Definition kindEqb (a b : ProviderKind) : bool :=
  match a, b with
  | WhatsApp, WhatsApp | Telegram, Telegram | Discord, Discord
  | Signal, Signal | IMessage, IMessage => true
  | _, _ => false
  end.

(** The status record of a connector, whatever its type. *)
Inductive AnyStatus :=
| WhatsAppStatus (s : WebProviderStatus)
| TelegramStatus (s : TelegramRuntimeStatus)
| DiscordStatus (s : DiscordRuntimeStatus)
| SignalStatus (s : SignalRuntimeStatus)
| IMessageStatus (s : IMessageRuntimeStatus).

Definition statusOf (k : ProviderKind) (m : Manager) : AnyStatus :=
  match k with
  | WhatsApp => WhatsAppStatus (runtime (whatsapp m))
  | Telegram => TelegramStatus (runtime (telegram m))
  | Discord => DiscordStatus (runtime (discord m))
  | Signal => SignalStatus (runtime (signal m))
  | IMessage => IMessageStatus (runtime (imessage m))
  end.

(** The three variables of a connector. *)
Definition connectorOf (k : ProviderKind) (m : Manager)
  : option nat * option nat * AnyStatus :=
  (abortOf k m, taskOf k m, statusOf k m).

(** A connector as its callers see it: its status, and whether a task is
    in place. *)
Definition visibleOf (k : ProviderKind) (m : Manager) : bool * AnyStatus :=
  (isSome (taskOf k m), statusOf k m).

(** The connector a job belongs to. *)
Definition jobKind (j : Job) : ProviderKind :=
  match j with
  | Start k _ | Rejected k _ | Finally k _ | StopRequested k | StopResumed k _ => k
  | StatusSink _ | LoggedOut _ => WhatsApp
  end.

Definition isStatusSink (j : Job) : bool :=
  match j with StatusSink _ => true | _ => false end.

(** The kinds of the monitors a trace launched, in order. *)
Definition launchedKinds (t : list Effect) : list ProviderKind :=
  omap (fun e => match e with MonitorLaunched k _ _ _ => Some k | _ => None end) t.

(** The order [startProviders] goes through the connectors. *)
Definition startOrder : list ProviderKind := [WhatsApp; Discord; Telegram; Signal; IMessage].

(** The [running] flag of a status record. *)
Definition anyRunning (s : AnyStatus) : bool :=
  match s with
  | WhatsAppStatus r => waRunning r
  | TelegramStatus r => tgRunning r
  | DiscordStatus r => dcRunning r
  | SignalStatus r => sgRunning r
  | IMessageStatus r => imRunning r
  end.

(** The cancellation token and the task handle are there together. *)
Definition handlesPaired (k : ProviderKind) (m : Manager) : Prop :=
  isSome (abortOf k m) = isSome (taskOf k m).

(** [running] only with a task in place. *)
Definition runningHasTask (k : ProviderKind) (m : Manager) : Prop :=
  runningOf k m = true -> taskOf k m <> None.

End ProvidersView.

(** * Properties *)

(** ** server-utils.ts *)

Module ServerUtilsFacts.
Import Js ServerUtils.

(** *** Strings *)

Lemma length_sliceTo (n : nat) (s : string) :
  String.length (sliceTo n s) = Nat.min n (String.length s).
Proof.
  revert s; induction n as [|n IH]; intros [|c r]; simpl; auto.
Qed.

Lemma sliceTo_all (n : nat) (s : string) :
  String.length s <= n -> sliceTo n s = s.
Proof.
  revert s; induction n as [|n IH]; intros [|c r]; simpl; intros Hlen;
    try reflexivity; try lia.
  rewrite IH by lia. reflexivity.
Qed.

Lemma firstChar_sliceTo (n : nat) (s : string) :
  firstChar (sliceTo (S n) s) = firstChar s.
Proof. destruct s; reflexivity. Qed.

Lemma nonEmpty_length (s : string) : nonEmpty s = true <-> 1 <= String.length s.
Proof. destruct s; simpl; split; intros; try discriminate; try lia; auto. Qed.

Lemma firstChar_trimStart (s : string) (c : ascii) :
  firstChar (trimStart s) = Some c -> isWhiteSpace c = false.
Proof.
  induction s as [|a r IH]; simpl; [discriminate|].
  destruct (isWhiteSpace a) eqn:Ha; [exact IH|].
  simpl. intros [= <-]. exact Ha.
Qed.

Lemma firstChar_trimEnd (s : string) (c : ascii) :
  firstChar (trimEnd s) = Some c -> firstChar s = Some c.
Proof.
  destruct s as [|a r]; simpl; [discriminate|].
  destruct (trimEnd r); [destruct (isWhiteSpace a)|]; simpl; congruence.
Qed.

Lemma lastChar_trimEnd (s : string) (c : ascii) :
  lastChar (trimEnd s) = Some c -> isWhiteSpace c = false.
Proof.
  induction s as [|a r IH]; simpl; [discriminate|].
  destruct (trimEnd r) as [|b r'] eqn:Hr.
  - destruct (isWhiteSpace a) eqn:Ha; simpl; [discriminate|].
    intros [= <-]. exact Ha.
  - simpl. exact IH.
Qed.

(** A trimmed string neither starts nor ends with white space. *)
Lemma trim_no_leading (s : string) (c : ascii) :
  firstChar (trim s) = Some c -> isWhiteSpace c = false.
Proof.
  unfold trim. intros Hc. apply firstChar_trimEnd in Hc.
  eapply firstChar_trimStart; eauto.
Qed.

Lemma trim_no_trailing (s : string) (c : ascii) :
  lastChar (trim s) = Some c -> isWhiteSpace c = false.
Proof. apply lastChar_trimEnd. Qed.

(** *** Lists *)

Lemma filter_sublist {A} (f : A -> bool) (l : list A) : sublist (List.filter f l) l.
Proof.
  induction l as [|x l IH]; simpl; [constructor|].
  destruct (f x); [apply sublist_skip | apply sublist_cons]; exact IH.
Qed.

Lemma filter_map_swap {A B} (f : A -> B) (p : B -> bool) (l : list A) :
  List.filter p (map f l) = map f (List.filter (fun x => p (f x)) l).
Proof.
  induction l as [|x l IH]; simpl; [reflexivity|].
  destruct (p (f x)); simpl; rewrite IH; reflexivity.
Qed.

(** *** normalizeVoiceWakeTriggers *)

Lemma cleanedTriggers_kept (raw : list JsValue) :
  cleanedTriggers raw = map cleanEntry (take 32 (List.filter keptEntry raw)).
Proof.
  unfold cleanedTriggers, cleanEntry, keptEntry.
  rewrite filter_map_swap, firstn_map, map_map. reflexivity.
Qed.

Lemma cleanedTriggers_length (raw : list JsValue) : length (cleanedTriggers raw) <= 32.
Proof.
  unfold cleanedTriggers. rewrite length_map, length_take. lia.
Qed.

Lemma cleanEntry_wellFormed (v : JsValue) :
  keptEntry v = true -> wellFormedTrigger (cleanEntry v).
Proof.
  unfold keptEntry, cleanEntry, wellFormedTrigger. intros Hk.
  apply nonEmpty_length in Hk. rewrite length_sliceTo. split; [lia|].
  intros c. rewrite firstChar_sliceTo. destruct v; simpl in *; try discriminate.
  apply trim_no_leading.
Qed.

Lemma cleanedTriggers_wellFormed (raw : list JsValue) :
  Forall wellFormedTrigger (cleanedTriggers raw).
Proof.
  rewrite cleanedTriggers_kept. apply Forall_forall. intros s Hs.
  apply list_elem_of_In, in_map_iff in Hs as (v & <- & Hv).
  apply cleanEntry_wellFormed.
  apply list_elem_of_In in Hv.
  pose proof (elem_of_sublist _ _ _ Hv (sublist_take _ _)) as Hin.
  apply list_elem_of_In, filter_In in Hin. tauto.
Qed.

Lemma cleanEntry_short_no_trailing (v : JsValue) (c : ascii) :
  String.length (cleanEntry v) < 64 ->
  lastChar (cleanEntry v) = Some c -> isWhiteSpace c = false.
Proof.
  unfold cleanEntry. intros Hlen. rewrite length_sliceTo in Hlen.
  rewrite sliceTo_all by lia. destruct v; simpl; try discriminate.
  apply trim_no_trailing.
Qed.

(** X3: an output entry of fewer than 64 code units was not cut, so it has no
    trailing white space either, provided the default list is so. *)
Theorem normalizeVoiceWakeTriggers_short_entries (defaults : list string) (input : JsValue) :
  Forall (fun s => String.length s < 64 -> noTrailingSpace s) defaults ->
  Forall (fun s => String.length s < 64 -> noTrailingSpace s)
    (normalizeVoiceWakeTriggers defaults input).
Proof.
  intros Hdef. unfold normalizeVoiceWakeTriggers.
  destruct (0 <? length _)%nat; [|exact Hdef].
  rewrite cleanedTriggers_kept. apply Forall_forall. intros s Hs Hlen c.
  apply list_elem_of_In, in_map_iff in Hs as (v & <- & _).
  apply cleanEntry_short_no_trailing, Hlen.
Qed.

Lemma normalizeVoiceWakeTriggers_short_entries_witness :
  Forall (fun s => String.length s < 64 -> noTrailingSpace s)
    (normalizeVoiceWakeTriggers ["computer"] (JArray [JString " hey there  "])).
Proof.
  apply (normalizeVoiceWakeTriggers_short_entries ["computer"]).
  repeat constructor. intros _ c [= <-]. reflexivity.
Defined.

(** C5, at the input where it fails: an entry whose trim is longer than
    64 code units and has a space as its 64th is cut after that space, so
    the output entry ends with white space, whatever the default list is;
    and normalizing the output once more gives a different list. *)
Theorem normalizeVoiceWakeTriggers_cut_leaves_trailing_space (defaults : list string) :
  let long := "aaaaaaaaaaaaaaaaaaaaaaaaaaaaaaaaaaaaaaaaaaaaaaaaaaaaaaaaaaaaaaa b" in
  let out := normalizeVoiceWakeTriggers defaults (JArray [JString long]) in
  out = ["aaaaaaaaaaaaaaaaaaaaaaaaaaaaaaaaaaaaaaaaaaaaaaaaaaaaaaaaaaaaaaa "]
  /\ Forall (fun s => exists c, lastChar s = Some c /\ isWhiteSpace c = true) out
  /\ normalizeVoiceWakeTriggers defaults (JArray (map JString out)) = ["aaaaaaaaaaaaaaaaaaaaaaaaaaaaaaaaaaaaaaaaaaaaaaaaaaaaaaaaaaaaaaa"].
Proof.
  cbv zeta. split; [reflexivity|]. split; [|reflexivity].
  repeat constructor. exists " "%char. split; reflexivity.
Qed.

(** X1: the bounds on the output: when the default list is itself within
    the bounds, every output has at most 32 entries, each of 1 to 64 code
    units and without leading white space. *)
Theorem normalizeVoiceWakeTriggers_bounds (defaults : list string) (input : JsValue) :
  length defaults <= 32 ->
  Forall wellFormedTrigger defaults ->
  length (normalizeVoiceWakeTriggers defaults input) <= 32
  /\ Forall wellFormedTrigger (normalizeVoiceWakeTriggers defaults input).
Proof.
  intros Hlen Hwf. unfold normalizeVoiceWakeTriggers.
  destruct (0 <? length _)%nat; [|auto].
  split; [apply cleanedTriggers_length | apply cleanedTriggers_wellFormed].
Qed.

Lemma normalizeVoiceWakeTriggers_bounds_witness :
  length (normalizeVoiceWakeTriggers ["computer"]
            (JArray [JString "  hello  "; JString ""; JString "world"])) <= 32
  /\ Forall wellFormedTrigger
       (normalizeVoiceWakeTriggers ["computer"]
          (JArray [JString "  hello  "; JString ""; JString "world"])).
Proof.
  apply (normalizeVoiceWakeTriggers_bounds ["computer"]).
  - simpl. lia.
  - repeat constructor; simpl; try lia. intros c [= <-]. reflexivity.
Defined.

(** X2: an empty or all-blank array gives the default list. *)
Theorem normalizeVoiceWakeTriggers_blank (defaults : list string) (items : list JsValue) :
  Forall (fun v => keptEntry v = false) items ->
  normalizeVoiceWakeTriggers defaults (JArray items) = defaults.
Proof.
  intros Hblank. unfold normalizeVoiceWakeTriggers.
  rewrite cleanedTriggers_kept.
  replace (List.filter keptEntry items) with (@nil JsValue); [reflexivity|].
  induction Hblank as [|v l Hv _ IH]; simpl; [reflexivity|].
  rewrite Hv. exact IH.
Qed.

Lemma normalizeVoiceWakeTriggers_blank_witness :
  normalizeVoiceWakeTriggers ["computer"] (JArray [JString "   "; JNumber 7; JString ""])
  = ["computer"].
Proof.
  apply (normalizeVoiceWakeTriggers_blank ["computer"]).
  repeat constructor.
Defined.

(** The test of the repository: ["  hello  ", "", "world"]. *)
Example normalizeVoiceWakeTriggers_test (defaults : list string) :
  normalizeVoiceWakeTriggers defaults
    (JArray [JString "  hello  "; JString ""; JString "world"]) = ["hello"; "world"].
Proof. reflexivity. Qed.

(** C6 as stated fails: two equal entries both survive. *)
Lemma normalizeVoiceWakeTriggers_keeps_duplicates :
  normalizeVoiceWakeTriggers ["computer"] (JArray [JString "hey"; JString " hey "])
  = ["hey"; "hey"]
  /\ ~ NoDup ["hey"; "hey"].
Proof.
  split; [reflexivity|].
  intros Hnd. apply NoDup_cons_1_1 in Hnd. apply Hnd. left.
Qed.

(** C6, amended: nothing is deduplicated. For an array, the output is made,
    in input order, of the first 32 entries that are strings with a
    non-empty trim (a subsequence of the input, equal entries included),
    each trimmed and cut to 64 code units; with no such entry it is the
    default list. *)
Theorem normalizeVoiceWakeTriggers_order (defaults : list string) (items : list JsValue) :
  let kept := take 32 (List.filter keptEntry items) in
  sublist kept items
  /\ length kept = Nat.min 32 (length (List.filter keptEntry items))
  /\ normalizeVoiceWakeTriggers defaults (JArray items)
     = match kept with [] => defaults | _ => map cleanEntry kept end.
Proof.
  cbv zeta. split; [|split].
  - etransitivity; [apply sublist_take | apply filter_sublist].
  - apply length_take.
  - unfold normalizeVoiceWakeTriggers. rewrite cleanedTriggers_kept.
    destruct (take 32 (List.filter keptEntry items)); reflexivity.
Qed.

(** C10: anything that is not an array is read as the empty list, so the
    default list comes back. *)
Theorem normalizeVoiceWakeTriggers_non_array (defaults : list string) (input : JsValue) :
  isArray input = false ->
  normalizeVoiceWakeTriggers defaults input = defaults.
Proof.
  intros Hna. destruct input; try reflexivity. discriminate Hna.
Qed.

Lemma normalizeVoiceWakeTriggers_non_array_witness :
  normalizeVoiceWakeTriggers ["computer"] JNull = ["computer"]
  /\ normalizeVoiceWakeTriggers ["computer"] (JObject [("0", JString "hey")]) = ["computer"].
Proof.
  split.
  - apply (normalizeVoiceWakeTriggers_non_array ["computer"] JNull). reflexivity.
  - apply (normalizeVoiceWakeTriggers_non_array ["computer"]). reflexivity.
Defined.

(** *** formatError *)

Lemma numberToString_nonEmpty (n : Z) : nonEmpty (numberToString n) = true.
Proof.
  unfold numberToString.
  destruct (Z.to_int n) as [d|d]; simpl; [|reflexivity].
  destruct d; reflexivity.
Qed.

(** A number always has a text; a string has one when it is not empty. *)
Lemma truthy_textOf_number (n : Z) : truthy (textOf (JNumber n)) = true.
Proof. apply numberToString_nonEmpty. Qed.

Lemma nonEmpty_append_l (a b : string) : nonEmpty a = true -> nonEmpty (a ++ b) = true.
Proof. destruct a; [discriminate | reflexivity]. Qed.

Lemma join_filterBoolean (statusText codeText : option string) :
  (truthy statusText || truthy codeText) = true ->
  statusAndCode statusText codeText
  = Some (join " " (filterBoolean [statusText; codeText])).
Proof.
  unfold statusAndCode, filterBoolean.
  destruct statusText as [[|a s]|], codeText as [[|b c]|]; simpl;
    intros; try discriminate; reflexivity.
Qed.

Lemma statusAndCode_nonEmpty (statusText codeText : option string) (out : string) :
  statusAndCode statusText codeText = Some out -> nonEmpty out = true.
Proof.
  unfold statusAndCode.
  destruct statusText as [[|a s]|], codeText as [[|b c]|]; simpl;
    intros [= <-]; reflexivity.
Qed.

(** The tests of the repository. *)
Example formatError_test_message : formatError (JError "boom") = Some "boom".
Proof. reflexivity. Qed.

Example formatError_test_status_code :
  formatError (JObject [("status", JNumber 500); ("code", JString "EPIPE")]) = Some "500 EPIPE"
  /\ formatError (JObject [("status", JNumber 404)]) = Some "404"
  /\ formatError (JObject [("code", JString "ENOENT")]) = Some "ENOENT".
Proof. repeat split; reflexivity. Qed.

(** The last two branches: a dump of two-space indentation, and the plain
    conversion when the dump throws. *)
Example formatError_dump :
  formatError (JObject [("reason", JString "down"); ("retry", JBool false)])
  = Some ("{" ++ newline ++ "  " ++ dquote ++ "reason" ++ dquote ++ ": "
            ++ dquote ++ "down" ++ dquote ++ "," ++ newline
            ++ "  " ++ dquote ++ "retry" ++ dquote ++ ": false" ++ newline ++ "}")
  /\ formatError (JArray [JBigInt 10; JNull; JNumber (-3)]) = Some "10,,-3".
Proof. split; reflexivity. Qed.

(** C7 as stated fails: the text is empty for an empty string and for an
    [Error] without message, and for [undefined] the function returns
    [undefined] (what [JSON.stringify] returns for it), not a string. *)
Lemma formatError_can_be_empty :
  formatError (JString "") = Some ""
  /\ formatError (JError "") = Some ""
  /\ formatError JUndefined = None.
Proof. repeat split; reflexivity. Qed.

(** C7, amended: the rule is followed in its order (the message of an
    [Error]; a string as it is; then the status and code that are strings
    or numbers, the empty ones dropped, with one space between them when
    both are there; then the dump; then the plain conversion when the dump
    throws), and the text is non-empty when it comes from status and code.
    Nothing is promised for the other branches. *)
Theorem formatError_rule (err : JsValue) :
  match err with
  | JError message => formatError err = Some message
  | JString s => formatError err = Some s
  | _ =>
      let statusText := textOf (getProp err "status") in
      let codeText := textOf (getProp err "code") in
      match statusAndCode statusText codeText with
      | Some out => formatError err = Some out /\ nonEmpty out = true
      | None =>
          formatError err
          = match JSON_stringify err with
            | Normal dump => dump
            | Throw _ => Some (toString err)
            end
      end
  end.
Proof.
  assert (Hrule : forall statusText codeText (rest : option string),
    match statusAndCode statusText codeText with
    | Some out =>
        (if truthy statusText || truthy codeText
         then Some (join " " (filterBoolean [statusText; codeText]))
         else rest) = Some out /\ nonEmpty out = true
    | None =>
        (if truthy statusText || truthy codeText
         then Some (join " " (filterBoolean [statusText; codeText]))
         else rest) = rest
    end).
  { intros st cd rest.
    destruct (truthy st || truthy cd) eqn:Hany.
    - rewrite (join_filterBoolean _ _ Hany). split; [reflexivity|].
      eapply statusAndCode_nonEmpty, join_filterBoolean, Hany.
    - apply orb_false_iff in Hany as [Hs Hc].
      unfold statusAndCode. rewrite Hs, Hc. reflexivity. }
  destruct err; try reflexivity; cbv zeta; unfold formatError; apply Hrule.
Qed.

End ServerUtilsFacts.

(** ** The HTTP module *)

Module ServerHttpFacts.
Import Js ServerUtils ServerHttp.
Local Open Scope conn_scope.

(** *** The response *)

Lemma find_header_app_last (name value : string) (hs : list (string * string)) :
  List.find (fun h => String.eqb (fst h) name)
    (List.filter (fun h => negb (String.eqb (fst h) name)) hs ++ [(name, value)])
  = Some (name, value).
Proof.
  induction hs as [|[k v] hs IH]; simpl.
  - rewrite String.eqb_refl. reflexivity.
  - destruct (String.eqb k name) eqn:Hk; simpl; [exact IH|].
    rewrite Hk. exact IH.
Qed.

Lemma find_header_app_other (name other value : string) (hs : list (string * string)) :
  String.eqb other name = false ->
  List.find (fun h => String.eqb (fst h) name)
    (List.filter (fun h => negb (String.eqb (fst h) other)) hs ++ [(other, value)])
  = List.find (fun h => String.eqb (fst h) name) hs.
Proof.
  intros Hne. induction hs as [|[k v] hs IH]; simpl.
  - rewrite Hne. reflexivity.
  - destruct (String.eqb k other) eqn:Hk; simpl.
    + apply String.eqb_eq in Hk. subst k. rewrite Hne. exact IH.
    + destruct (String.eqb k name); [reflexivity | exact IH].
Qed.

Lemma sendText_written (status : Z) (text : string) (c : Conn) :
  exists c', sendText status text c = (Normal tt, c')
             /\ written status "text/plain; charset=utf-8" (BodyText text) c c'.
Proof.
  eexists. split; [reflexivity|]. unfold written, getHeader. simpl.
  rewrite find_header_app_last. repeat split.
Qed.

Lemma sendJson_written (status : Z) (v : JsValue) (c : Conn) :
  exists c', sendJson status v c = (Normal tt, c')
             /\ written status "application/json; charset=utf-8" (BodyJson v) c c'.
Proof.
  eexists. split; [reflexivity|]. unfold written, getHeader. simpl.
  rewrite find_header_app_last. repeat split.
Qed.

(** *** The handler *)

Section HandlerFacts.

Context {Mapping : Type} `{HooksImports Mapping}.

Implicit Types (opts : @HandlerOpts Mapping) (cfg : HooksConfigResolved Mapping).
Implicit Types (req : IncomingMessage) (c : Conn).

Lemma underBasePath_guard cfg req :
  underBasePath cfg req ->
  negb (String.eqb (pathname (url req)) (basePath cfg))
  && negb (String.prefix (basePath cfg ++ "/") (pathname (url req))) = false.
Proof.
  intros [Heq | Hpre].
  - rewrite Heq, String.eqb_refl. reflexivity.
  - rewrite Hpre. apply andb_false_r.
Qed.

Lemma authorized_guard cfg req :
  authorized cfg req ->
  negb (truthy (extractHookToken req (url req)))
  || negb (bool_decide (extractHookToken req (url req) = Some (token cfg))) = false.
Proof.
  intros [Htok Hne]. rewrite Htok, bool_decide_eq_true_2 by reflexivity.
  simpl. destruct (token cfg); [contradiction | reflexivity].
Qed.

(** Without hook configuration the request is left to the next handler
    and nothing is written. *)
Lemma handleHooksRequest_declines opts req c :
  hooksConfig opts = None -> handleHooksRequest opts req c = (Normal false, c).
Proof. intros Hcfg. unfold handleHooksRequest. rewrite Hcfg. reflexivity. Qed.

(** C9: a hook request whose token is missing or empty is answered 401,
    whatever the configured secret is, the empty one included. *)
Theorem empty_token_unauthorized opts cfg req c :
  hooksConfig opts = Some cfg ->
  underBasePath cfg req ->
  truthy (extractHookToken req (url req)) = false ->
  exists c',
    handleHooksRequest opts req c = (Normal true, c')
    /\ written 401 "text/plain; charset=utf-8" (BodyText "Unauthorized") c c'.
Proof.
  intros Hcfg Hpath Htok. unfold handleHooksRequest.
  rewrite Hcfg. cbv zeta. rewrite (underBasePath_guard _ _ Hpath), Htok. simpl.
  destruct (sendText_written 401 "Unauthorized" c) as (c' & Hrun & Hw).
  exists c'. unfold bind. rewrite Hrun. auto.
Qed.

(** X4: a token that is not the configured one is answered 401 as well, before
    the method is looked at. *)
Lemma wrong_token_unauthorized opts cfg req c :
  hooksConfig opts = Some cfg ->
  underBasePath cfg req ->
  extractHookToken req (url req) <> Some (token cfg) ->
  exists c',
    handleHooksRequest opts req c = (Normal true, c')
    /\ written 401 "text/plain; charset=utf-8" (BodyText "Unauthorized") c c'.
Proof.
  intros Hcfg Hpath Htok. unfold handleHooksRequest.
  rewrite Hcfg. cbv zeta. rewrite (underBasePath_guard _ _ Hpath).
  rewrite (bool_decide_eq_false_2 _ Htok), orb_true_r. simpl.
  destruct (sendText_written 401 "Unauthorized" c) as (c' & Hrun & Hw).
  exists c'. unfold bind. rewrite Hrun. auto.
Qed.

(** C4, amended: a hook request with the right token and a method other
    than POST is answered 405 with [Allow: POST]; nothing is dispatched or
    logged. (Without the right token the answer is 401, see above.) *)
Theorem non_post_method_not_allowed opts cfg req c :
  hooksConfig opts = Some cfg ->
  underBasePath cfg req ->
  authorized cfg req ->
  method req <> Some "POST" ->
  exists c',
    handleHooksRequest opts req c = (Normal true, c')
    /\ getHeader "Allow" (res c') = Some "POST"
    /\ written 405 "text/plain; charset=utf-8" (BodyText "Method Not Allowed") c c'.
Proof.
  intros Hcfg Hpath Hauth Hmethod. unfold handleHooksRequest.
  rewrite Hcfg. cbv zeta.
  rewrite (underBasePath_guard _ _ Hpath), (authorized_guard _ _ Hauth).
  rewrite (bool_decide_eq_false_2 _ Hmethod). simpl.
  eexists. split; [reflexivity|]. unfold written, getHeader. simpl.
  rewrite find_header_app_last.
  rewrite find_header_app_other by reflexivity.
  rewrite find_header_app_last. repeat split.
Qed.

(** C8, amended: when the mapping engine throws, the handler catches the
    exception, logs one warning with [String(err)], answers 500 with the
    fixed body [{ok: false, error: "hook mapping failed"}] and returns
    normally; the text of the error goes to the log, not to the
    response. *)
Theorem mapping_exception_caught opts cfg req c value err :
  hooksConfig opts = Some cfg ->
  underBasePath cfg req ->
  authorized cfg req ->
  method req = Some "POST" ->
  mappedRoute (hookSubPath (basePath cfg) (pathname (url req))) ->
  readJsonBody req (maxBodyBytes cfg) = Ok value ->
  mappings cfg <> [] ->
  applyHookMappings (mappings cfg)
    {| ctxPayload := hookPayload value;
       ctxHeaders := normalizeHookHeaders req;
       ctxUrl := url req;
       ctxPath := hookSubPath (basePath cfg) (pathname (url req)) |} = Throw err ->
  exists c',
    handleHooksRequest opts req c = (Normal true, c')
    /\ statusCode (res c') = 500%Z
    /\ body (res c') = BodyJson (errorBody "hook mapping failed")
    /\ ended (res c') = true
    /\ effects c' = (effects c ++ [LogWarn ("hook mapping failed: " ++ toString err)])%list.
Proof.
  intros Hcfg Hpath Hauth Hmethod (Hsub & Hwake & Hagent) Hbody Hrules Hthrow.
  unfold handleHooksRequest. rewrite Hcfg. cbv zeta.
  rewrite (underBasePath_guard _ _ Hpath), (authorized_guard _ _ Hauth).
  rewrite (bool_decide_eq_true_2 _ Hmethod), Hsub, Hbody, Hwake, Hagent. simpl.
  assert (Hlen : (0 <? length (mappings cfg))%nat = true).
  { destruct (mappings cfg); [contradiction | reflexivity]. }
  rewrite Hlen.
  unfold bind at 1, mappingBranch, tryCatch, bind at 1, lift.
  rewrite Hthrow.
  eexists. split; [reflexivity|]. repeat split.
Qed.

(** X6: a path that is neither the base path nor under it is left to the
    next handler, with nothing written. *)
Theorem off_base_path_declined opts cfg req c :
  hooksConfig opts = Some cfg ->
  pathname (url req) <> basePath cfg ->
  String.prefix (basePath cfg ++ "/") (pathname (url req)) = false ->
  handleHooksRequest opts req c = (Normal false, c).
Proof.
  intros Hcfg Hne Hpre. unfold handleHooksRequest. rewrite Hcfg. cbv zeta.
  apply String.eqb_neq in Hne. rewrite Hne, Hpre. reflexivity.
Qed.

Lemma accepted_run opts cfg req c :
  accepted opts cfg req ->
  handleHooksRequest opts req c
  = (let subPath := hookSubPath (basePath cfg) (pathname (url req)) in
     if negb (nonEmpty subPath)
     then sendText 404 "Not Found" ;; ret true
     else
       match readJsonBody req (maxBodyBytes cfg) with
       | Failed error =>
           let status := if String.eqb error "payload too large" then 413%Z else 400%Z in
           sendJson status (errorBody error) ;; ret true
       | Ok value =>
           let payload := hookPayload value in
           let headers := normalizeHookHeaders req in
           if String.eqb subPath "wake" then
             match normalizeWakePayload payload with
             | Failed error => sendJson 400 (errorBody error) ;; ret true
             | Ok v =>
                 callDispatchWake opts v ;;
                 sendJson 200
                   (JObject [("ok", JBool true);
                             ("mode", JString (wakeModeText (wakeMode v)))]) ;;
                 ret true
             end
           else if String.eqb subPath "agent" then
             match normalizeAgentPayload payload with
             | Failed error => sendJson 400 (errorBody error) ;; ret true
             | Ok v =>
                 runId <- callDispatchAgent opts v ;;
                 sendJson 202 (JObject [("ok", JBool true); ("runId", JString runId)]) ;;
                 ret true
             end
           else
             returned <-
               (if (0 <? length (mappings cfg))%nat
                then
                  mappingBranch opts cfg
                    {| ctxPayload := payload; ctxHeaders := headers;
                       ctxUrl := url req; ctxPath := subPath |}
                else ret None) ;;
             match returned with
             | Some b => ret b
             | None => sendText 404 "Not Found" ;; ret true
             end
       end) c.
Proof.
  intros (Hcfg & Hpath & Hauth & Hmethod). unfold handleHooksRequest.
  rewrite Hcfg. cbv zeta.
  rewrite (underBasePath_guard _ _ Hpath), (authorized_guard _ _ Hauth).
  rewrite (bool_decide_eq_true_2 _ Hmethod). reflexivity.
Qed.

(** X7: a body over the limit is answered 413 with
    [{ok: false, error: "payload too large"}] and the recorded effects
    are those before the call: no dispatcher is invoked and no warning
    is logged. *)
Theorem oversized_body_413 opts cfg req c :
  accepted opts cfg req ->
  nonEmpty (hookSubPath (basePath cfg) (pathname (url req))) = true ->
  readJsonBody req (maxBodyBytes cfg) = Failed "payload too large" ->
  exists c',
    handleHooksRequest opts req c = (Normal true, c')
    /\ written 413 "application/json; charset=utf-8"
         (BodyJson (errorBody "payload too large")) c c'.
Proof.
  intros Hadm Hsub Hbody. rewrite (accepted_run _ _ _ _ Hadm). cbv zeta.
  rewrite Hsub, Hbody. simpl.
  destruct (sendJson_written 413 (errorBody "payload too large") c) as (c' & Hrun & Hw).
  exists c'. unfold bind. rewrite Hrun. auto.
Qed.

(** X8: with no mapping rule configured, a route that is not built in is
    answered 404. *)
Theorem unknown_route_404 opts cfg req c value :
  accepted opts cfg req ->
  mappedRoute (hookSubPath (basePath cfg) (pathname (url req))) ->
  readJsonBody req (maxBodyBytes cfg) = Ok value ->
  mappings cfg = [] ->
  exists c',
    handleHooksRequest opts req c = (Normal true, c')
    /\ written 404 "text/plain; charset=utf-8" (BodyText "Not Found") c c'.
Proof.
  intros Hadm (Hsub & Hwake & Hagent) Hbody Hnone.
  rewrite (accepted_run _ _ _ _ Hadm). cbv zeta.
  rewrite Hsub, Hbody, Hwake, Hagent, Hnone. simpl.
  destruct (sendText_written 404 "Not Found" c) as (c' & Hrun & Hw).
  exists c'. unfold bind at 1, ret at 1, bind. rewrite Hrun. auto.
Qed.

(** X9: the wake route: a payload the normalizer accepts is dispatched once
    and answered 200 with [{ok: true, mode}]. *)
Theorem wake_dispatched_once opts cfg req c value v :
  accepted opts cfg req ->
  hookSubPath (basePath cfg) (pathname (url req)) = "wake" ->
  readJsonBody req (maxBodyBytes cfg) = Ok value ->
  normalizeWakePayload (hookPayload value) = Ok v ->
  dispatchWakeHook opts v = Normal tt ->
  exists c',
    handleHooksRequest opts req c = (Normal true, c')
    /\ statusCode (res c') = 200%Z
    /\ body (res c')
       = BodyJson (JObject [("ok", JBool true); ("mode", JString (wakeModeText (wakeMode v)))])
    /\ effects c' = (effects c ++ [WakeDispatched v])%list.
Proof.
  intros Hadm Hsub Hbody Hnorm Hdispatch.
  rewrite (accepted_run _ _ _ _ Hadm). cbv zeta.
  rewrite Hsub, Hbody. simpl. rewrite Hnorm.
  unfold callDispatchWake, bind, emit, lift. rewrite Hdispatch.
  eexists. split; [reflexivity|]. repeat split.
Qed.

End HandlerFacts.

Lemma handleHooksRequest_declines_witness :
  @handleHooksRequest unit (scriptedImports None (Ok JNull) (Normal None))
    {| hooksConfig := None; bindHost := "127.0.0.1"; port := 18789;
       dispatchWakeHook := fun _ => Normal tt;
       dispatchAgentHook := fun _ => Normal "run-1" |}
    (sampleRequest "POST" "/hooks/wake") freshConn
  = (Normal false, freshConn).
Proof.
  apply (@handleHooksRequest_declines unit (scriptedImports None (Ok JNull) (Normal None))).
  reflexivity.
Defined.

Lemma off_base_path_declined_witness :
  @handleHooksRequest unit (scriptedImports (Some "secret") (Ok JNull) (Normal None))
    (sampleOpts "secret") (sampleRequest "POST" "/hooksmith") freshConn
  = (Normal false, freshConn).
Proof.
  eapply (@off_base_path_declined unit
            (scriptedImports (Some "secret") (Ok JNull) (Normal None))).
  - reflexivity.
  - discriminate.
  - reflexivity.
Defined.

Lemma wrong_token_unauthorized_witness :
  exists c',
    @handleHooksRequest unit (scriptedImports (Some "guess") (Ok JNull) (Normal None))
      (sampleOpts "secret") (sampleRequest "POST" "/hooks/wake") freshConn = (Normal true, c')
    /\ written 401 "text/plain; charset=utf-8" (BodyText "Unauthorized") freshConn c'.
Proof.
  eapply (@wrong_token_unauthorized unit
            (scriptedImports (Some "guess") (Ok JNull) (Normal None))).
  - reflexivity.
  - right. reflexivity.
  - discriminate.
Defined.

Lemma sample_accepted (found : string) (bodyRead : Checked JsValue)
  (mapped : Completion (option HookMappingResult)) (path : string) :
  found <> "" ->
  String.prefix "/hooks/" path = true ->
  @accepted unit (scriptedImports (Some found) bodyRead mapped)
    (sampleOpts found)
    {| basePath := "/hooks"; token := found; maxBodyBytes := 262144; mappings := [tt] |}
    (sampleRequest "POST" path).
Proof.
  intros Hne Hpre. repeat split; auto. right. exact Hpre.
Qed.

Lemma oversized_body_413_witness :
  exists c',
    @handleHooksRequest unit
      (scriptedImports (Some "secret") (Failed "payload too large") (Normal None))
      (sampleOpts "secret") (sampleRequest "POST" "/hooks/agent") freshConn
    = (Normal true, c')
    /\ written 413 "application/json; charset=utf-8"
         (BodyJson (errorBody "payload too large")) freshConn c'.
Proof.
  eapply (@oversized_body_413 unit
            (scriptedImports (Some "secret") (Failed "payload too large") (Normal None))).
  - apply sample_accepted; [discriminate | reflexivity].
  - reflexivity.
  - reflexivity.
Defined.

Lemma unknown_route_404_witness :
  exists c',
    @handleHooksRequest unit (scriptedImports (Some "secret") (Ok (JObject [])) (Normal None))
      {| hooksConfig :=
           Some {| basePath := "/hooks"; token := "secret"; maxBodyBytes := 262144;
                   mappings := [] |};
         bindHost := "127.0.0.1"; port := 18789;
         dispatchWakeHook := fun _ => Normal tt;
         dispatchAgentHook := fun _ => Normal "run-1" |}
      (sampleRequest "POST" "/hooks/unknown") freshConn
    = (Normal true, c')
    /\ written 404 "text/plain; charset=utf-8" (BodyText "Not Found") freshConn c'.
Proof.
  eapply (@unknown_route_404 unit
            (scriptedImports (Some "secret") (Ok (JObject [])) (Normal None))
            _ _ _ _ (JObject [])).
  - repeat split; [right; reflexivity | discriminate].
  - repeat split.
  - reflexivity.
  - reflexivity.
Defined.

(** The scenario of the design document: [{"text":"hello","mode":"now"}]
    posted to the wake route with the right token. *)
Lemma wake_dispatched_once_witness :
  let hello := {| wakeText := "hello"; wakeMode := Now |} in
  let imports :=
    {| extractHookToken := fun _ _ => Some "secret";
       readJsonBody := fun _ _ =>
         Ok (JObject [("text", JString "hello"); ("mode", JString "now")]);
       normalizeHookHeaders := reqHeaders;
       normalizeWakePayload := fun _ => Ok hello;
       normalizeAgentPayload := fun _ => Failed "message required";
       applyHookMappings := fun _ _ => Normal None |} in
  exists c',
    @handleHooksRequest unit imports (sampleOpts "secret")
      (sampleRequest "POST" "/hooks/wake") freshConn = (Normal true, c')
    /\ statusCode (res c') = 200%Z
    /\ body (res c') = BodyJson (JObject [("ok", JBool true); ("mode", JString "now")])
    /\ effects c' = [WakeDispatched hello].
Proof.
  cbv zeta.
  eapply (@wake_dispatched_once unit _ (sampleOpts "secret") _
            (sampleRequest "POST" "/hooks/wake") freshConn
            (JObject [("text", JString "hello"); ("mode", JString "now")])
            {| wakeText := "hello"; wakeMode := Now |}).
  - repeat split; [right; reflexivity | discriminate].
  - reflexivity.
  - reflexivity.
  - reflexivity.
  - reflexivity.
Defined.

(** C9 at an empty secret and an empty token. *)
Lemma empty_token_unauthorized_witness :
  exists c',
    @handleHooksRequest unit (scriptedImports (Some "") (Ok JNull) (Normal None))
      (sampleOpts "") (sampleRequest "POST" "/hooks/wake") freshConn = (Normal true, c')
    /\ written 401 "text/plain; charset=utf-8" (BodyText "Unauthorized") freshConn c'.
Proof.
  eapply (@empty_token_unauthorized unit (scriptedImports (Some "") (Ok JNull) (Normal None))).
  - reflexivity.
  - right. reflexivity.
  - reflexivity.
Defined.

(** C4 as stated fails: a GET under the base path that carries no token
    is answered 401, without an [Allow] header. *)
Lemma get_without_token_is_401 :
  let run :=
    @handleHooksRequest unit (scriptedImports None (Ok JNull) (Normal None))
      (sampleOpts "secret") (sampleRequest "GET" "/hooks/wake") freshConn in
  fst run = Normal true
  /\ statusCode (res (snd run)) = 401%Z
  /\ getHeader "Allow" (res (snd run)) = None
  /\ body (res (snd run)) = BodyText "Unauthorized".
Proof. cbv zeta. repeat split; reflexivity. Qed.

Lemma non_post_method_not_allowed_witness :
  exists c',
    @handleHooksRequest unit (scriptedImports (Some "secret") (Ok JNull) (Normal None))
      (sampleOpts "secret") (sampleRequest "GET" "/hooks/wake") freshConn = (Normal true, c')
    /\ getHeader "Allow" (res c') = Some "POST"
    /\ written 405 "text/plain; charset=utf-8" (BodyText "Method Not Allowed") freshConn c'.
Proof.
  eapply (@non_post_method_not_allowed unit
            (scriptedImports (Some "secret") (Ok JNull) (Normal None))).
  - reflexivity.
  - right. reflexivity.
  - split; [reflexivity | discriminate].
  - discriminate.
Defined.

(** C8 as stated fails: the engine throws [new Error("boom")]; the
    response carries the fixed text, not the formatted error. *)
Lemma mapping_error_text_not_in_response :
  let run :=
    @handleHooksRequest unit
      (scriptedImports (Some "secret") (Ok (JObject [])) (Throw (JError "boom")))
      (sampleOpts "secret") (sampleRequest "POST" "/hooks/github") freshConn in
  fst run = Normal true
  /\ statusCode (res (snd run)) = 500%Z
  /\ body (res (snd run)) = BodyJson (errorBody "hook mapping failed")
  /\ formatError (JError "boom") = Some "boom"
  /\ body (res (snd run)) <> BodyJson (errorBody "boom")
  /\ effects (snd run) = [LogWarn "hook mapping failed: Error: boom"].
Proof. cbv zeta. repeat split; try reflexivity. discriminate. Qed.

Lemma mapping_exception_caught_witness :
  exists c',
    @handleHooksRequest unit
      (scriptedImports (Some "secret") (Ok (JObject [])) (Throw (JError "boom")))
      (sampleOpts "secret") (sampleRequest "POST" "/hooks/github") freshConn
    = (Normal true, c')
    /\ statusCode (res c') = 500%Z
    /\ body (res c') = BodyJson (errorBody "hook mapping failed")
    /\ ended (res c') = true
    /\ effects c'
       = (effects freshConn
            ++ [LogWarn ("hook mapping failed: " ++ toString (JError "boom"))])%list.
Proof.
  eapply (@mapping_exception_caught unit
            (scriptedImports (Some "secret") (Ok (JObject [])) (Throw (JError "boom")))
            (sampleOpts "secret") _ (sampleRequest "POST" "/hooks/github") freshConn
            (JObject []) (JError "boom")).
  - reflexivity.
  - right. reflexivity.
  - split; [reflexivity | discriminate].
  - reflexivity.
  - repeat split.
  - reflexivity.
  - discriminate.
  - reflexivity.
Defined.

End ServerHttpFacts.

(** ** server-providers.ts *)

Module ServerProvidersFacts.
Import Js ServerUtils ServerProviders.
Local Open Scope list_scope.

(** *** Counting over a trace *)

Lemma launches_snoc (k : ProviderKind) (t : list Effect) (e : Effect) :
  launches k (t ++ [e]) = launches k t + (if isLaunchOf k e then 1 else 0).
Proof.
  unfold launches. rewrite List.filter_app, length_app. simpl.
  destruct (isLaunchOf k e); reflexivity.
Qed.

Lemma configLoads_snoc (t : list Effect) (e : Effect) :
  configLoads (t ++ [e]) = configLoads t + (if isConfigLoad e then 1 else 0).
Proof.
  unfold configLoads. rewrite List.filter_app, length_app. simpl.
  destruct (isConfigLoad e); reflexivity.
Qed.

Lemma isLaunchOf_same (k : ProviderKind) (taskId signalId : nat) (args : MonitorArgs) :
  isLaunchOf k (MonitorLaunched k taskId signalId args) = true.
Proof. destruct k; reflexivity. Qed.

(** A log line is neither a launch nor a configuration read. *)
Lemma trace_log (k : ProviderKind) (level : LogLevel) (msg : string) (m : Manager) :
  trace (log k level msg m) = trace m ++ [Logged k level msg].
Proof. reflexivity. Qed.

Lemma launches_logIf (k k' : ProviderKind) (cond : bool) (level : LogLevel) (msg : string)
  (m : Manager) :
  launches k (trace (logIf cond k' level msg m)) = launches k (trace m).
Proof.
  destruct cond; simpl; [|reflexivity]. rewrite launches_snoc. simpl. lia.
Qed.

Lemma configLoads_logIf (k : ProviderKind) (cond : bool) (level : LogLevel) (msg : string)
  (m : Manager) :
  configLoads (trace (logIf cond k level msg m)) = configLoads (trace m).
Proof.
  destruct cond; simpl; [|reflexivity]. rewrite configLoads_snoc. simpl. lia.
Qed.

Lemma launches_logProbeFailure (k k' : ProviderKind) (verbose : bool) (p : ProbeOutcome)
  (m : Manager) :
  launches k (trace (logProbeFailure k' verbose p m)) = launches k (trace m).
Proof. destruct p; simpl; [apply launches_logIf | reflexivity]. Qed.

Lemma configLoads_logProbeFailure (k : ProviderKind) (verbose : bool) (p : ProbeOutcome)
  (m : Manager) :
  configLoads (trace (logProbeFailure k verbose p m)) = configLoads (trace m).
Proof. destruct p; simpl; [apply configLoads_logIf | reflexivity]. Qed.

(** *** start *)

(** With a task in place, a start call returns at its first line. *)
Lemma start_active (k : ProviderKind) (env : StartEnv) (m : Manager) :
  taskOf k m <> None -> start k env m = m.
Proof.
  destruct k; simpl; intros Htask;
    [ unfold startWhatsAppProvider | unfold startTelegramProvider
    | unfold startDiscordProvider | unfold startSignalProvider
    | unfold startIMessageProvider ];
    match goal with
    | |- (if isSome ?t then _ else _) = _ => destruct t; [reflexivity | contradiction]
    end.
Qed.

Ltac count_trace :=
  simpl;
  repeat
    (first
       [ rewrite launches_snoc | rewrite configLoads_snoc
       | rewrite launches_logIf | rewrite configLoads_logIf
       | rewrite launches_logProbeFailure | rewrite configLoads_logProbeFailure
       | rewrite isLaunchOf_same ];
     simpl);
  try lia.

(** A start call that leaves a task where there was none went all the
    way: it read the configuration once, launched one monitor and set the
    running flag. *)
Lemma start_launched (k : ProviderKind) (env : StartEnv) (m : Manager) :
  taskOf k m = None ->
  taskOf k (start k env m) <> None ->
  runningOf k (start k env m) = true
  /\ launches k (trace (start k env m)) = S (launches k (trace m))
  /\ configLoads (trace (start k env m)) = S (configLoads (trace m)).
Proof.
  destruct k; simpl; intros Hidle;
    [ unfold startWhatsAppProvider | unfold startTelegramProvider
    | unfold startDiscordProvider | unfold startSignalProvider
    | unfold startIMessageProvider ];
    rewrite Hidle; cbv zeta; simpl isSome; cbv iota.
  - destruct (disabled _); [simpl; rewrite Hidle; congruence|].
    destruct (webAuthExists env); [|simpl; rewrite Hidle; congruence].
    destruct (readWebSelfId env) as [e164 jid]. intros _. simpl.
    repeat split; count_trace.
  - destruct (disabled _).
    { destruct (shouldLogVerbose env); simpl; rewrite Hidle; congruence. }
    destruct (negb _).
    { destruct (shouldLogVerbose env); simpl; rewrite Hidle; congruence. }
    intros _. unfold launch, runningOf. simpl.
    repeat split; count_trace.
  - destruct (disabled _).
    { destruct (shouldLogVerbose env); simpl; rewrite Hidle; congruence. }
    destruct (negb _).
    { destruct (shouldLogVerbose env); simpl; rewrite Hidle; congruence. }
    intros _. unfold launch, runningOf. simpl.
    repeat split; count_trace.
  - destruct (cfgSignal (loadConfig env)) as [signalCfg|].
    2: { destruct (shouldLogVerbose env); simpl; rewrite Hidle; congruence. }
    destruct (disabled _).
    { destruct (shouldLogVerbose env); simpl; rewrite Hidle; congruence. }
    destruct (negb _).
    { destruct (shouldLogVerbose env); simpl; rewrite Hidle; congruence. }
    intros _. unfold launch, runningOf. simpl.
    repeat split; count_trace.
  - destruct (cfgIMessage (loadConfig env)) as [imessageCfg|].
    2: { destruct (shouldLogVerbose env); simpl; rewrite Hidle; congruence. }
    destruct (disabled _).
    { destruct (shouldLogVerbose env); simpl; rewrite Hidle; congruence. }
    intros _. unfold launch, runningOf. simpl.
    repeat split; count_trace.
Qed.

(** *** The two jobs of a start call *)

(** [start] is the job a call runs when it is made followed at once by
    the job that resumes it. *)
Lemma start_uninterrupted (k : ProviderKind) (env : StartEnv) (m : Manager) :
  start k env m = resumeStart (snd (startBegin k env m)) env (fst (startBegin k env m)).
Proof.
  destruct k; simpl; try reflexivity.
  - unfold startWhatsAppProvider, startWhatsAppBegin, startWhatsAppResume.
    destruct (isSome _); [reflexivity|]. cbv zeta.
    destruct (disabled _); reflexivity.
  - unfold startTelegramProvider, startTelegramBegin, startTelegramResume.
    destruct (isSome (task _)); [reflexivity|]. cbv zeta.
    destruct (disabled _); [reflexivity|].
    destruct (negb _); reflexivity.
  - unfold startDiscordProvider, startDiscordBegin, startDiscordResume.
    destruct (isSome (task _)); [reflexivity|]. cbv zeta.
    destruct (disabled _); [reflexivity|].
    destruct (negb _); reflexivity.
Qed.

(** With a task in place, a call returns at its first line and is not
    suspended. *)
Lemma startBegin_active (k : ProviderKind) (env : StartEnv) (m : Manager) :
  taskOf k m <> None -> startBegin k env m = (m, None).
Proof.
  intros Htask. generalize (start_active k env m Htask).
  destruct k; simpl in *; intros Hsame; try (rewrite Hsame; reflexivity);
    [ unfold startWhatsAppBegin | unfold startTelegramBegin | unfold startDiscordBegin ];
    destruct (task _); solve [reflexivity | contradiction].
Qed.

(** The conditions of [startsMonitor], one by one. *)
Ltac split_conditions H :=
  unfold startsMonitor in H; cbv zeta in H;
  repeat match type of H with
         | match ?c with Some _ => _ | None => _ end = true =>
             let Hcfg := fresh "Hcfg" in
             destruct c eqn:Hcfg; [|discriminate H]
         | (_ && _)%bool = true =>
             let H1 := fresh "Hcond" in
             apply andb_true_iff in H as [H1 H]; try apply negb_true_iff in H1
         | negb _ = true => apply negb_true_iff in H
         end.

(** A call that passes its first line and takes none of the early
    returns launches one monitor: it reads the configuration once, holds
    a new controller and the new task, and sets [running]. *)
Lemma start_launches (k : ProviderKind) (env : StartEnv) (m : Manager) :
  taskOf k m = None ->
  startsMonitor k env = true ->
  let m' := start k env m in
  taskOf k m' = Some (S (nextId m))
  /\ abortOf k m' = Some (nextId m)
  /\ runningOf k m' = true
  /\ lastErrorOf k m' = None
  /\ launches k (trace m') = S (launches k (trace m))
  /\ configLoads (trace m') = S (configLoads (trace m)).
Proof.
  intros Hidle Hstarts. cbv zeta.
  destruct k; simpl in Hidle; split_conditions Hstarts; simpl;
    [ unfold startWhatsAppProvider | unfold startTelegramProvider
    | unfold startDiscordProvider | unfold startSignalProvider
    | unfold startIMessageProvider ];
    rewrite Hidle; cbv zeta; simpl isSome; cbv iota;
    rewrite ?Hcfg; rewrite ?Hcond, ?Hcond0, ?Hstarts; simpl negb; cbv iota;
    try destruct (readWebSelfId env) as [e164 jid];
    try destruct (probeTelegram env _ _); try destruct (probeDiscord env _ _);
    destruct (shouldLogVerbose env);
    unfold launch, runningOf, lastErrorOf; simpl;
    repeat split; count_trace.
Qed.

(** A call that passes its first line and takes an early return
    launches nothing. *)
Lemma start_skips (k : ProviderKind) (env : StartEnv) (m : Manager) :
  taskOf k m = None ->
  startsMonitor k env = false ->
  taskOf k (start k env m) = None
  /\ launches k (trace (start k env m)) = launches k (trace m).
Proof.
  intros Hidle. unfold startsMonitor. cbv zeta.
  destruct k; simpl in Hidle; unfold start;
    [ unfold startWhatsAppProvider | unfold startTelegramProvider
    | unfold startDiscordProvider | unfold startSignalProvider
    | unfold startIMessageProvider ];
    rewrite Hidle; cbv zeta; simpl isSome; cbv iota;
    try destruct (cfgSignal _); try destruct (cfgIMessage _);
    try destruct (disabled _); try destruct (webAuthExists env);
    try destruct (nonEmpty _); try destruct (signalMeaningfullyConfigured _);
    simpl; try discriminate; intros _;
    destruct (shouldLogVerbose env); simpl; rewrite ?Hidle; split; count_trace;
    reflexivity.
Qed.

(** Two start calls made one after the other, the second once the first
    has returned, the first launching the monitor: the second changes
    nothing, so one monitor was launched, the configuration was read
    once, and the snapshot shows [running = true] after each call. *)
Theorem start_then_start (k : ProviderKind) (env1 env2 : StartEnv) (m : Manager) :
  taskOf k m = None ->
  startsMonitor k env1 = true ->
  let m1 := start k env1 m in
  let m2 := start k env2 m1 in
  m2 = m1
  /\ taskOf k m2 = Some (S (nextId m))
  /\ runningOf k m1 = true
  /\ runningOf k m2 = true
  /\ launches k (trace m2) = S (launches k (trace m))
  /\ configLoads (trace m2) = S (configLoads (trace m)).
Proof.
  intros Hidle Hstarts. cbv zeta.
  destruct (start_launches k env1 m Hidle Hstarts) as (Htask & _ & Hrun & _ & Hone & Hcfg).
  rewrite (start_active k env2 (start k env1 m)) by (rewrite Htask; discriminate).
  auto 7.
Qed.

Lemma start_then_start_witness :
  let m1 := start Telegram sampleEnv initialManager in
  let m2 := start Telegram sampleEnv m1 in
  m2 = m1
  /\ taskOf Telegram m2 = Some 1
  /\ runningOf Telegram m1 = true
  /\ runningOf Telegram m2 = true
  /\ launches Telegram (trace m2) = 1
  /\ configLoads (trace m2) = 1.
Proof.
  apply (start_then_start Telegram sampleEnv sampleEnv initialManager); reflexivity.
Defined.

(** The start functions of Signal and iMessage have no [await]: two
    calls of theirs cannot overlap, whichever way they are made. *)
Lemma startOverlapped_without_await (k : ProviderKind) (env1 env2 : StartEnv)
  (firstResumed : bool) (m : Manager) :
  awaits k = false ->
  startOverlapped k env1 env2 firstResumed m = start k env2 (start k env1 m).
Proof.
  destruct k; try discriminate; intros _; unfold startOverlapped; simpl;
    destruct firstResumed; reflexivity.
Qed.

(** Two calls of a start function that has an [await], the second made
    while the first waits: both have passed the first line before either
    assigns the task handle, so each launches a monitor. The manager is
    left holding the controller and the task of the call resumed last;
    the controller and the task of the other are held by nothing. *)
Theorem startOverlapped_launches_twice (k : ProviderKind) (env1 env2 : StartEnv)
  (firstResumed : bool) (m : Manager) :
  awaits k = true ->
  taskOf k m = None ->
  startsMonitor k env1 = true ->
  startsMonitor k env2 = true ->
  let m' := startOverlapped k env1 env2 firstResumed m in
  launches k (trace m') = S (S (launches k (trace m)))
  /\ configLoads (trace m') = S (S (configLoads (trace m)))
  /\ abortOf k m' = Some (nextId m + 2)
  /\ taskOf k m' = Some (nextId m + 3)
  /\ runningOf k m' = true.
Proof.
  intros Hawaits Hidle Hstarts1 Hstarts2. cbv zeta.
  destruct k; try discriminate Hawaits; simpl in Hidle;
    split_conditions Hstarts1; split_conditions Hstarts2;
    unfold startOverlapped, startBegin,
      startWhatsAppBegin, startTelegramBegin, startDiscordBegin;
    rewrite Hidle; cbv zeta; simpl isSome; cbv iota;
    repeat match goal with
           | H : disabled _ = false |- _ => rewrite H
           | H : nonEmpty _ = true |- _ => rewrite H
           end;
    simpl negb; cbv iota; simpl task; rewrite Hidle; simpl isSome; cbv iota;
    destruct firstResumed; unfold resumeStart, startResume,
      startWhatsAppResume, startTelegramResume, startDiscordResume;
    repeat match goal with
           | H : webAuthExists _ = true |- _ => rewrite H
           end;
    simpl negb; cbv iota;
    try destruct (readWebSelfId env1) as [e164 jid];
    try destruct (readWebSelfId env2) as [e164' jid'];
    try destruct (probeTelegram env1 _ _); try destruct (probeTelegram env2 _ _);
    try destruct (probeDiscord env1 _ _); try destruct (probeDiscord env2 _ _);
    destruct (shouldLogVerbose env1); destruct (shouldLogVerbose env2);
    unfold launch, runningOf; simpl;
    repeat split; count_trace; f_equal; lia.
Qed.

Lemma startOverlapped_launches_twice_witness :
  let m' := startOverlapped Discord sampleEnv sampleEnv false initialManager in
  launches Discord (trace m') = 2
  /\ configLoads (trace m') = 2
  /\ abortOf Discord m' = Some 2
  /\ taskOf Discord m' = Some 3
  /\ runningOf Discord m' = true.
Proof.
  apply (startOverlapped_launches_twice Discord sampleEnv sampleEnv false initialManager);
    reflexivity.
Defined.

(** C1 holds of two calls made one after the other and fails when the
    calls overlap: [startWhatsAppProvider] called twice before
    [webAuthExists()] has answered the first call, with the web provider
    enabled and a linked session. Both calls read the configuration and
    both launch a monitor; the manager keeps the controller and the task
    of the second, so a later stop call aborts the second controller
    only and the first monitor goes on. The same two calls made in turn
    launch one monitor. *)
Theorem overlapping_starts_launch_two_monitors :
  let inTurn := start WhatsApp sampleEnv (start WhatsApp sampleEnv initialManager) in
  let overlapped := startOverlapped WhatsApp sampleEnv sampleEnv true initialManager in
  let stopped := stop WhatsApp None 5 6 overlapped in
  (List.filter (isLaunchOf WhatsApp) (trace inTurn)
   = [MonitorLaunched WhatsApp 1 0 (WebMonitor false)]
   /\ configLoads (trace inTurn) = 1)
  /\ (List.filter (isLaunchOf WhatsApp) (trace overlapped)
      = [MonitorLaunched WhatsApp 1 0 (WebMonitor false);
         MonitorLaunched WhatsApp 3 2 (WebMonitor false)]
      /\ configLoads (trace overlapped) = 2
      /\ abortOf WhatsApp overlapped = Some 2
      /\ taskOf WhatsApp overlapped = Some 3
      /\ runningOf WhatsApp overlapped = true)
  /\ (signalled (trace stopped) = [2]
      /\ taskOf WhatsApp stopped = None
      /\ runningOf WhatsApp stopped = false).
Proof. vm_compute. repeat split. Qed.

(** Each connector of the sample environment starts once, and a second
    round of start calls changes nothing. *)
Example startProviders_twice :
  let m1 := startProviders (fun _ => sampleEnv) initialManager in
  startProviders (fun _ => sampleEnv) m1 = m1
  /\ map (fun k => launches k (trace m1)) [WhatsApp; Telegram; Discord; Signal; IMessage]
     = [1; 1; 1; 1; 1]
  /\ configLoads (trace m1) = 5.
Proof. vm_compute. repeat split. Qed.

(** *** markWhatsAppLoggedOut *)

(** C3 as stated fails: while the WhatsApp task is active and the status
    says [running = true], the call sets [running] to [false]. *)
Lemma markWhatsAppLoggedOut_clears_running :
  let m1 := startWhatsAppProvider sampleEnv initialManager in
  waRunning (runtime (whatsapp m1)) = true
  /\ task (whatsapp m1) = Some 1
  /\ waRunning (runtime (whatsapp (markWhatsAppLoggedOut true m1))) = false
  /\ waRunning (runtime (whatsapp (markWhatsAppLoggedOut false m1))) = false.
Proof. vm_compute. repeat split. Qed.

(** C3, amended: the call sets [running] and [connected] to [false], sets
    [lastError] to "logged out" when [cleared] and leaves it otherwise,
    and touches nothing else: the other fields of the WhatsApp status,
    its task and cancellation token, the other connectors, the trace. *)
Theorem markWhatsAppLoggedOut_frame (cleared : bool) (m : Manager) :
  let m' := markWhatsAppLoggedOut cleared m in
  let r := runtime (whatsapp m) in
  runtime (whatsapp m')
  = {| waRunning := false;
       waConnected := false;
       waReconnectAttempts := waReconnectAttempts r;
       waLastConnectedAt := waLastConnectedAt r;
       waLastDisconnect := waLastDisconnect r;
       waLastMessageAt := waLastMessageAt r;
       waLastEventAt := waLastEventAt r;
       waLastError := if cleared then Some "logged out" else waLastError r |}
  /\ task (whatsapp m') = task (whatsapp m)
  /\ abort (whatsapp m') = abort (whatsapp m)
  /\ (telegram m', discord m', signal m', imessage m')
     = (telegram m, discord m, signal m, imessage m)
  /\ trace m' = trace m
  /\ nextId m' = nextId m.
Proof. cbv zeta. repeat split. Qed.

(** *** Settlement *)

(** C2 as stated fails, at a WhatsApp task that fails with
    [new Error("boom")]. After the [.catch] callback and before the
    [.finally] callback a reader sees the error captured while [running]
    is still [true] and the task still there: the three effects are not
    one step. And inside the [.finally] callback the task handle is
    cleared first: after its first two statements the handle is gone and
    [running] is still [true]. *)
Lemma settle_effects_not_one_step :
  let started := runJobs [Start WhatsApp sampleEnv] initialManager in
  let caught := runJobs [Rejected WhatsApp (JError "boom")] started in
  let halfway := runStatements (take 2 (finallyStatements WhatsApp 0)) caught in
  (runningOf WhatsApp started = true /\ taskOf WhatsApp started = Some 1)
  /\ (lastErrorOf WhatsApp caught = Some "boom"
      /\ runningOf WhatsApp caught = true
      /\ taskOf WhatsApp caught = Some 1)
  /\ (taskOf WhatsApp halfway = None /\ runningOf WhatsApp halfway = true).
Proof. vm_compute. repeat split. Qed.

(** C2, amended: a task that fails settles in two steps of the scheduler,
    the two links of [.catch(...).finally(...)]. The [.catch] callback
    stores the formatted error in [lastError], logs the one line
    "provider exited: ..." with that text, and leaves [running], the task
    handle and the cancellation token as they were: a status read between
    the two callbacks sees the error with [running] and the task as before.
    The [.finally] callback, the only step when the task succeeds, clears
    the cancellation token and the task handle and then sets
    [running = false], keeping [lastError] and logging nothing. Inside it
    the handle is cleared before [running] is set: after its second
    statement of three the handle is gone and [running] is as it was
    before the callback. Neither callback ends in a state where [running]
    is [true] and the task handle is gone, unless it started in one. *)
Theorem settle_steps (k : ProviderKind) (err : JsValue) (now : Z) (m : Manager) :
  let caught := runJob (Rejected k err) m in
  let settled := runJob (Finally k now) m in
  let halfway := runStatements (take 2 (finallyStatements k now)) m in
  (runJobs (settlement k (Some err) now) m = runJob (Finally k now) caught
   /\ runJobs (settlement k None now) m = settled)
  /\ (lastErrorOf k caught = formatError err
      /\ trace caught
         = trace m ++ [Logged k Error ("provider exited: " ++ interpolate (formatError err))]
      /\ runningOf k caught = runningOf k m
      /\ taskOf k caught = taskOf k m
      /\ abortOf k caught = abortOf k m)
  /\ (runningOf k settled = false
      /\ taskOf k settled = None
      /\ abortOf k settled = None
      /\ lastErrorOf k settled = lastErrorOf k m
      /\ trace settled = trace m)
  /\ (length (finallyStatements k now) = 3
      /\ runStatements (drop 2 (finallyStatements k now)) halfway = settled
      /\ abortOf k halfway = None
      /\ taskOf k halfway = None
      /\ runningOf k halfway = runningOf k m)
  /\ (runningOf k caught = true /\ taskOf k caught = None ->
      runningOf k m = true /\ taskOf k m = None)
  /\ ~ (runningOf k settled = true /\ taskOf k settled = None).
Proof.
  cbv zeta.
  assert (Hsettled : runningOf k (runJob (Finally k now) m) = false)
    by (destruct k; reflexivity).
  split; [destruct k; split; reflexivity|].
  split; [destruct k; repeat split|].
  split; [destruct k; repeat split|].
  split; [destruct k; repeat split|].
  split.
  - assert (Hkept : runningOf k (runJob (Rejected k err) m) = runningOf k m
                    /\ taskOf k (runJob (Rejected k err) m) = taskOf k m)
      by (destruct k; split; reflexivity).
    destruct Hkept as [-> ->]. auto.
  - rewrite Hsettled. intros [Hrunning _]. discriminate Hrunning.
Qed.

(** *** The outcomes of a start call, and stop *)

Lemma start_idle_cases (k : ProviderKind) (env : StartEnv) (m : Manager) :
  taskOf k m = None ->
  let m' := start k env m in
  configLoads (trace m') = S (configLoads (trace m))
  /\ ((taskOf k m' <> None /\ runningOf k m' = true /\ lastErrorOf k m' = None
       /\ launches k (trace m') = S (launches k (trace m)))
      \/ (taskOf k m' = None /\ runningOf k m' = false /\ skipReason (lastErrorOf k m')
          /\ launches k (trace m') = launches k (trace m))).
Proof.
  assert (Hskip : forall reason,
            reason = "disabled" \/ reason = "not configured" \/ reason = "not linked" ->
            skipReason (Some reason)).
  { unfold skipReason. intros reason [-> | [-> | ->]]; auto. }
  destruct k; simpl; intros Hidle;
    [ unfold startWhatsAppProvider | unfold startTelegramProvider
    | unfold startDiscordProvider | unfold startSignalProvider
    | unfold startIMessageProvider ];
    rewrite Hidle; cbv zeta; simpl isSome; cbv iota;
    unfold runningOf, lastErrorOf.
  - destruct (disabled _).
    { split; [count_trace|]. right. simpl. repeat split; auto; count_trace. }
    destruct (webAuthExists env).
    2: { split; [count_trace|]. right. simpl. repeat split; auto; count_trace. }
    destruct (readWebSelfId env) as [e164 jid].
    split; [count_trace|]. left. simpl. repeat split; try discriminate; count_trace.
  - destruct (disabled _).
    { split; [count_trace|]. right.
      destruct (shouldLogVerbose env); simpl; repeat split; auto; count_trace. }
    destruct (negb _).
    { split; [count_trace|]. right.
      destruct (shouldLogVerbose env); simpl; repeat split; auto; count_trace. }
    split; [unfold launch; simpl; count_trace|]. left. unfold launch. simpl.
    repeat split; try discriminate; count_trace.
  - destruct (disabled _).
    { split; [count_trace|]. right.
      destruct (shouldLogVerbose env); simpl; repeat split; auto; count_trace. }
    destruct (negb _).
    { split; [count_trace|]. right.
      destruct (shouldLogVerbose env); simpl; repeat split; auto; count_trace. }
    split; [unfold launch; simpl; count_trace|]. left. unfold launch. simpl.
    repeat split; try discriminate; count_trace.
  - destruct (cfgSignal (loadConfig env)) as [signalCfg|].
    2: { split; [count_trace|]. right.
         destruct (shouldLogVerbose env); simpl; repeat split; auto; count_trace. }
    destruct (disabled _).
    { split; [count_trace|]. right.
      destruct (shouldLogVerbose env); simpl; repeat split; auto; count_trace. }
    destruct (negb _).
    { split; [count_trace|]. right.
      destruct (shouldLogVerbose env); simpl; repeat split; auto; count_trace. }
    split; [unfold launch; simpl; count_trace|]. left. unfold launch. simpl.
    repeat split; try discriminate; count_trace.
  - destruct (cfgIMessage (loadConfig env)) as [imessageCfg|].
    2: { split; [count_trace|]. right.
         destruct (shouldLogVerbose env); simpl; repeat split; auto; count_trace. }
    destruct (disabled _).
    { split; [count_trace|]. right.
      destruct (shouldLogVerbose env); simpl; repeat split; auto; count_trace. }
    split; [unfold launch; simpl; count_trace|]. left. unfold launch. simpl.
    repeat split; try discriminate; count_trace.
Qed.



(** The scenario of the design document: a connector started without its
    configuration launches nothing and reports "not configured". *)
Example start_not_configured :
  let env :=
    {| loadConfig :=
         {| cfgWeb := None; cfgTelegram := None; cfgDiscord := None;
            cfgSignal := None; cfgIMessage := None |};
       shouldLogVerbose := true;
       webAuthExists := false;
       readWebSelfId := (None, None);
       resolveTelegramToken := fun _ => "";
       probeTelegram := fun _ _ => Probed false None;
       probeDiscord := fun _ _ => Probed false None;
       envDiscordBotToken := None;
       dateNow := 0 |} in
  let m := startProviders (fun _ => env) initialManager in
  map (fun k => (taskOf k m, runningOf k m, lastErrorOf k m))
    [WhatsApp; Telegram; Discord; Signal; IMessage]
  = [ (None, false, Some "not linked");
      (None, false, Some "not configured");
      (None, false, Some "not configured");
      (None, false, Some "not configured");
      (None, false, Some "not configured") ]
  /\ map (fun k => launches k (trace m)) [WhatsApp; Telegram; Discord; Signal; IMessage]
     = [0; 0; 0; 0; 0].
Proof. vm_compute. split; reflexivity. Qed.

(** X11: after the [.finally] callback a new start call is no longer held back
    by the first line: it reads the configuration again. *)
Theorem start_after_settlement (k : ProviderKind) (env : StartEnv) (now : Z) (m : Manager) :
  let settled := runJob (Finally k now) m in
  taskOf k settled = None
  /\ configLoads (trace (start k env settled)) = S (configLoads (trace m)).
Proof.
  cbv zeta.
  assert (Hidle : taskOf k (runJob (Finally k now) m) = None) by (destruct k; reflexivity).
  split; [exact Hidle|].
  destruct (start_idle_cases k env _ Hidle) as [Hcfg _]. rewrite Hcfg.
  destruct k; reflexivity.
Qed.

(** X12: a stop call with neither controller nor task in place changes
    nothing: no abort, no [lastStopAt], no [lastError]. *)
Theorem stop_idle_noop (k : ProviderKind) (failure : option JsValue)
  (settledAt resumedAt : Z) (m : Manager) :
  abortOf k m = None ->
  taskOf k m = None ->
  stop k failure settledAt resumedAt m = m.
Proof.
  intros Habort Htask. unfold stop, stopRequested. rewrite Habort, Htask. reflexivity.
Qed.

Lemma stop_idle_noop_witness :
  stop Discord None 5 6 initialManager = initialManager.
Proof.
  apply (stop_idle_noop Discord None 5 6 initialManager); reflexivity.
Defined.

(** X13: a stop call of a connector whose task is in place aborts its
    controller and, once the task has settled, leaves the connector idle
    with [running = false]. *)
Theorem stop_leaves_idle (k : ProviderKind) (failure : option JsValue)
  (settledAt resumedAt : Z) (m : Manager) (signalId taskId : nat) :
  abortOf k m = Some signalId ->
  taskOf k m = Some taskId ->
  let m' := stop k failure settledAt resumedAt m in
  taskOf k m' = None
  /\ abortOf k m' = None
  /\ runningOf k m' = false
  /\ In (AbortSignalled k signalId) (trace m').
Proof.
  intros Habort Htask. cbv zeta.
  assert (Hreq : stopRequested k m = Some (record (AbortSignalled k signalId) m)).
  { unfold stopRequested. rewrite Habort, Htask. reflexivity. }
  assert (Hkept : taskOf k (record (AbortSignalled k signalId) m) = Some taskId)
    by (destruct k; exact Htask).
  unfold stop. rewrite Hreq, Hkept. simpl isSome. cbv iota.
  destruct k, failure; simpl; repeat split;
    repeat (apply in_or_app; simpl; auto; left).
Qed.

Lemma stop_leaves_idle_witness :
  let m := start IMessage sampleEnv initialManager in
  let m' := stop IMessage (Some (JError "killed")) 5 6 m in
  taskOf IMessage m' = None
  /\ abortOf IMessage m' = None
  /\ runningOf IMessage m' = false
  /\ In (AbortSignalled IMessage 0) (trace m').
Proof.
  apply (stop_leaves_idle IMessage (Some (JError "killed")) 5 6
           (start IMessage sampleEnv initialManager) 0 1); reflexivity.
Defined.

End ServerProvidersFacts.

(** ** server-utils.ts, continued *)

Module ServerUtilsMore.
Import Js ServerUtils ServerUtilsFacts.

(** *** Trimming twice *)

Lemma trimStart_fixed (s : string) :
  (forall c, firstChar s = Some c -> isWhiteSpace c = false) -> trimStart s = s.
Proof.
  destruct s as [|a r]; simpl; [reflexivity|].
  intros Hfirst. rewrite (Hfirst a eq_refl). reflexivity.
Qed.

Lemma lastChar_cons (a : ascii) (r : string) (c : ascii) :
  lastChar r = Some c -> lastChar (String a r) = Some c.
Proof. destruct r; simpl; [discriminate | auto]. Qed.

Lemma trimEnd_fixed (s : string) :
  (forall c, lastChar s = Some c -> isWhiteSpace c = false) -> trimEnd s = s.
Proof.
  induction s as [|a r IH]; simpl; [reflexivity|]. intros Hlast.
  destruct r as [|b r'].
  - simpl. rewrite (Hlast a eq_refl). reflexivity.
  - rewrite IH; [reflexivity|]. intros c Hc. apply Hlast. exact Hc.
Qed.

Lemma trim_trim (s : string) : trim (trim s) = trim s.
Proof.
  unfold trim at 1.
  rewrite (trimStart_fixed (trim s)) by apply trim_no_leading.
  apply trimEnd_fixed, trim_no_trailing.
Qed.

(** *** Normalizing twice *)

Lemma take_all {A} (n : nat) (l : list A) : length l <= n -> take n l = l.
Proof. apply firstn_all2. Qed.

(** A list of triggers that are trimmed, not empty and of at most 64 code
    units, no more than 32 of them, is what the chain makes of itself. *)
Lemma cleanedTriggers_fixed (l : list string) :
  length l <= 32 ->
  Forall (fun s => trim s = s /\ nonEmpty s = true /\ String.length s <= 64) l ->
  cleanedTriggers (map JString l) = l.
Proof.
  intros Hlen Hall. rewrite cleanedTriggers_kept.
  assert (Hkeep : List.filter keptEntry (map JString l) = map JString l).
  { clear Hlen. induction Hall as [|s l (Htrim & Hne & _) _ IH]; simpl; [reflexivity|].
    unfold keptEntry at 1, trimmedEntry. rewrite Htrim, Hne, IH. reflexivity. }
  rewrite Hkeep, take_all by (rewrite length_map; exact Hlen).
  rewrite map_map. clear Hlen Hkeep.
  induction Hall as [|s l (Htrim & _ & Hshort) _ IH]; simpl; [reflexivity|].
  rewrite IH. unfold cleanEntry, trimmedEntry.
  rewrite Htrim, sliceTo_all by exact Hshort. reflexivity.
Qed.

Lemma cleanedTriggers_clean (items : list JsValue) :
  Forall (fun v => String.length (trimmedEntry v) <= 64) items ->
  Forall (fun s => trim s = s /\ nonEmpty s = true /\ String.length s <= 64)
    (cleanedTriggers items).
Proof.
  intros Hshort. rewrite cleanedTriggers_kept. apply Forall_forall. intros s Hs.
  apply list_elem_of_In, in_map_iff in Hs as (v & <- & Hv).
  apply list_elem_of_In in Hv.
  pose proof (elem_of_sublist _ _ _ Hv (sublist_take _ _)) as Hin.
  apply list_elem_of_In, filter_In in Hin as [Hin Hkept].
  rewrite Forall_forall in Hshort.
  specialize (Hshort v (proj2 (list_elem_of_In _ _) Hin)).
  unfold cleanEntry. rewrite sliceTo_all by exact Hshort.
  destruct v; try discriminate Hkept. simpl in *.
  split; [apply trim_trim | split; [exact Hkept | exact Hshort]].
Qed.

(** X14: when no entry is longer than 64 code units once trimmed and at
    least one is kept, normalizing the output again gives the output
    back. *)
Theorem normalizeVoiceWakeTriggers_idempotent (defaults : list string)
  (items : list JsValue) :
  Forall (fun v => String.length (trimmedEntry v) <= 64) items ->
  Exists (fun v => keptEntry v = true) items ->
  let out := normalizeVoiceWakeTriggers defaults (JArray items) in
  normalizeVoiceWakeTriggers defaults (JArray (map JString out)) = out.
Proof.
  intros Hshort Hsome. cbv zeta.
  assert (Hne : (0 <? length (cleanedTriggers items))%nat = true).
  { apply Nat.ltb_lt. rewrite cleanedTriggers_kept, length_map, length_take.
    apply Exists_exists in Hsome as (v & Hv & Hk).
    assert (Hin : In v (List.filter keptEntry items))
      by (apply filter_In; split; [apply list_elem_of_In, Hv | exact Hk]).
    destruct (List.filter keptEntry items); [destruct Hin | simpl; lia]. }
  unfold normalizeVoiceWakeTriggers at 2. rewrite Hne.
  unfold normalizeVoiceWakeTriggers.
  rewrite cleanedTriggers_fixed, Hne;
    [reflexivity | apply cleanedTriggers_length | apply cleanedTriggers_clean, Hshort].
Qed.

Lemma normalizeVoiceWakeTriggers_idempotent_witness :
  let out :=
    normalizeVoiceWakeTriggers ["computer"]
      (JArray [JString "  hey claw "; JNumber 3; JString "hey claw"]) in
  normalizeVoiceWakeTriggers ["computer"] (JArray (map JString out)) = out.
Proof.
  apply (normalizeVoiceWakeTriggers_idempotent ["computer"]).
  - repeat constructor; simpl; lia.
  - constructor. reflexivity.
Defined.

(** *** formatError on every value *)

(** On the values of the model, [formatError] returns a string for
    everything but [undefined], for which [JSON.stringify] has no text. *)
Theorem formatError_string_but_undefined (err : JsValue) :
  formatError err = None <-> err = JUndefined.
Proof.
  split; [|intros ->; reflexivity].
  assert (Hdump : forall (any : bool) (text : string) (dump : Completion (list string))
                         (wrap : list string -> string) (plain : string),
             (if any then Some text
              else match
                     match dump with
                     | Throw e => Throw e
                     | Normal members => Normal (Some (wrap members))
                     end
                   with
                   | Normal r => r
                   | Throw _ => Some plain
                   end) <> None).
  { intros [] text [members|e] wrap plain; discriminate. }
  destruct err as [| |b|n|n|s|items|props|m]; intros Hnone;
    try reflexivity; try discriminate Hnone.
  - exfalso. revert Hnone. apply Hdump.
  - exfalso. revert Hnone. apply Hdump.
Qed.

End ServerUtilsMore.

(** ** The HTTP module, continued *)

Module ServerHttpMore.
Import Js ServerUtils ServerHttp GatewayServer HookRoutes ServerUtilsFacts ServerHttpFacts.
Local Open Scope conn_scope.

(** Running the handler: its definitions are unfolded and computed, and
    the tests that do not compute are split, innermost first. *)
Ltac run_handler :=
  cbv beta iota zeta delta
    [handleHooksRequest mappingBranch applyMapped callDispatchWake
     callDispatchAgent sendJson sendText tryCatch bind ret lift emit
     modifyRes setStatusCode setHeader endWith
     res effects statusCode ended body resHeaders fst snd].

Ltac split_run :=
  repeat (run_handler;
          match goal with
          | |- context [match ?x with _ => _ end] =>
              lazymatch x with
              | context [match _ with _ => _ end] => fail
              | _ => destruct x eqn:?
              end
          end).

Section HandlerMore.

Context {Mapping : Type} `{HooksImports Mapping}.

Implicit Types (opts : @HandlerOpts Mapping) (cfg : HooksConfigResolved Mapping).
Implicit Types (req : IncomingMessage) (c : Conn).

(** The checks of the handler, read back from its tests. *)
Lemma guard_underBasePath cfg req :
  negb (String.eqb (pathname (url req)) (basePath cfg))
  && negb (String.prefix (basePath cfg ++ "/") (pathname (url req))) = false ->
  underBasePath cfg req.
Proof.
  intros Hguard. apply andb_false_iff in Hguard as [Heq | Hpre].
  - left. apply String.eqb_eq. apply negb_false_iff, Heq.
  - right. apply negb_false_iff, Hpre.
Qed.

Lemma guard_authorized cfg req :
  negb (truthy (extractHookToken req (url req)))
  || negb (bool_decide (extractHookToken req (url req) = Some (token cfg))) = false ->
  authorized cfg req.
Proof.
  intros Hguard. apply orb_false_iff in Hguard as [Htruthy Hsame].
  apply negb_false_iff in Htruthy. apply negb_false_iff, bool_decide_eq_true_1 in Hsame.
  split; [exact Hsame|]. rewrite Hsame in Htruthy. intros Hempty.
  rewrite Hempty in Htruthy. discriminate.
Qed.

Lemma handleHooksRequest_cases opts req c :
  match handleHooksRequest opts req c with
  | (Normal false, c') => c' = c
  | (Normal true, c') =>
      ended (res c') = true /\ In (statusCode (res c')) hookStatusCodes
  | (Throw e, c') => res c' = res c
  end.
Proof.
  unfold hookStatusCodes. split_run; run_handler;
    try reflexivity; simpl; split; auto; tauto.
Qed.

(** X15: a call that returns [false] has written nothing; one that returns
    [true] has ended the response, with one of nine status codes; and the
    handler throws only where a dispatcher of a built-in route threw,
    the response still as it was. *)
Theorem handleHooksRequest_outcome opts req c :
  match handleHooksRequest opts req c with
  | (Normal false, c') => c' = c
  | (Normal true, c') =>
      ended (res c') = true /\ In (statusCode (res c')) hookStatusCodes
  | (Throw e, c') => res c' = res c
  end.
Proof. exact (handleHooksRequest_cases opts req c). Qed.

Lemma wake_dispatcher_throw_run opts cfg req c value v e :
  accepted opts cfg req ->
  hookSubPath (basePath cfg) (pathname (url req)) = "wake" ->
  readJsonBody req (maxBodyBytes cfg) = Ok value ->
  normalizeWakePayload (hookPayload value) = Ok v ->
  dispatchWakeHook opts v = Throw e ->
  handleHooksRequest opts req c
  = (Throw e, {| res := res c; effects := (effects c ++ [WakeDispatched v])%list |}).
Proof.
  intros Hacc Hsub Hbody Hnorm Hdispatch.
  rewrite (accepted_run _ _ _ _ Hacc). cbv zeta.
  rewrite Hsub, Hbody. simpl. rewrite Hnorm. run_handler. rewrite Hdispatch.
  reflexivity.
Qed.

(** X16: whatever the request, the handler dispatches or logs only after
    the configuration, path, token and method checks have passed. *)
Theorem effects_only_when_accepted opts req c :
  effects (snd (handleHooksRequest opts req c)) <> effects c ->
  exists cfg, accepted opts cfg req.
Proof.
  unfold handleHooksRequest.
  destruct (hooksConfig opts) as [cfg|] eqn:Hcfg;
    [|intros Hch; exfalso; apply Hch; reflexivity].
  cbv zeta.
  destruct (negb _ && negb _) eqn:Hpath;
    [intros Hch; exfalso; apply Hch; reflexivity|].
  destruct (negb (truthy _) || _) eqn:Htoken;
    [intros Hch; exfalso; apply Hch; reflexivity|].
  destruct (negb (bool_decide (method req = Some "POST"))) eqn:Hmethod;
    [intros Hch; exfalso; apply Hch; reflexivity|].
  intros _. exists cfg. split; [exact Hcfg|].
  split; [apply guard_underBasePath, Hpath|].
  split; [apply guard_authorized, Htoken|].
  apply negb_false_iff, bool_decide_eq_true_1 in Hmethod. exact Hmethod.
Qed.

(** X5: the agent route: a payload the normalizer accepts is dispatched
    once and answered 202 with the run id the dispatcher returned. *)
Theorem agent_dispatched_once opts cfg req c value v runId :
  accepted opts cfg req ->
  hookSubPath (basePath cfg) (pathname (url req)) = "agent" ->
  readJsonBody req (maxBodyBytes cfg) = Ok value ->
  normalizeAgentPayload (hookPayload value) = Ok v ->
  dispatchAgentHook opts v = Normal runId ->
  exists c',
    handleHooksRequest opts req c = (Normal true, c')
    /\ written 202 "application/json; charset=utf-8"
         (BodyJson (JObject [("ok", JBool true); ("runId", JString runId)]))
         {| res := res c; effects := (effects c ++ [AgentDispatched v])%list |} c'.
Proof.
  intros Hacc Hsub Hbody Hnorm Hdispatch.
  rewrite (accepted_run _ _ _ _ Hacc). cbv zeta.
  rewrite Hsub, Hbody. simpl. rewrite Hnorm. run_handler. rewrite Hdispatch.
  eexists. split; [reflexivity|]. unfold written, getHeader. simpl.
  rewrite find_header_app_last. repeat split.
Qed.

(** A bad payload on a built-in route, or a body that is not JSON, is
    answered 400 with the reason, and nothing is dispatched. *)
Lemma rejected_payload_400 opts cfg req c value error :
  accepted opts cfg req ->
  readJsonBody req (maxBodyBytes cfg) = Ok value ->
  (hookSubPath (basePath cfg) (pathname (url req)) = "wake"
   /\ normalizeWakePayload (hookPayload value) = Failed error)
  \/ (hookSubPath (basePath cfg) (pathname (url req)) = "agent"
      /\ normalizeAgentPayload (hookPayload value) = Failed error) ->
  exists c',
    handleHooksRequest opts req c = (Normal true, c')
    /\ written 400 "application/json; charset=utf-8" (BodyJson (errorBody error)) c c'.
Proof.
  intros Hacc Hbody Hroute.
  rewrite (accepted_run _ _ _ _ Hacc). cbv zeta.
  destruct (sendJson_written 400 (errorBody error) c) as (c' & Hrun & Hw).
  exists c'. split; [|exact Hw].
  destruct Hroute as [[Hsub Hnorm] | [Hsub Hnorm]];
    rewrite Hsub, Hbody; simpl; rewrite Hnorm; unfold bind; rewrite Hrun; reflexivity.
Qed.

Lemma mappedTo_run opts cfg req c value mapped :
  mappedTo opts cfg req value mapped ->
  handleHooksRequest opts req c
  = (returned <-
       tryCatch (m <- lift mapped ;; applyMapped opts m)
         (fun err =>
            emit (LogWarn ("hook mapping failed: " ++ toString err)) ;;
            sendJson 500 (errorBody "hook mapping failed") ;;
            ret (Some true)) ;;
     match returned with
     | Some b => ret b
     | None => sendText 404 "Not Found" ;; ret true
     end) c.
Proof.
  intros (Hacc & (Hsub & Hwake & Hagent) & Hbody & Hrules & Hmapped).
  rewrite (accepted_run _ _ _ _ Hacc). cbv zeta.
  rewrite Hsub, Hbody, Hwake, Hagent. simpl.
  assert (Hlen : (0 <? length (mappings cfg))%nat = true)
    by (destruct (mappings cfg); [contradiction | reflexivity]).
  rewrite Hlen. unfold mappingBranch. unfold mappingContextOf in Hmapped.
  rewrite Hmapped. reflexivity.
Qed.

(** X17: what the engine's answer becomes when it asks for no dispatch:
    no rule matched, 404; a rejected input, 400 with the reason; a match
    without action, 204 with an empty body and no content type. Nothing
    is dispatched or logged. *)
Theorem mapping_result_status opts cfg req c value mapped :
  mappedTo opts cfg req value (Normal mapped) ->
  exists c',
    handleHooksRequest opts req c = (Normal true, c')
    /\ match mapped with
       | None => written 404 "text/plain; charset=utf-8" (BodyText "Not Found") c c'
       | Some (MappingFailed error) =>
           written 400 "application/json; charset=utf-8" (BodyJson (errorBody error)) c c'
       | Some (MappingOk None) =>
           statusCode (res c') = 204%Z
           /\ body (res c') = BodyNone
           /\ ended (res c') = true
           /\ resHeaders (res c') = resHeaders (res c)
           /\ effects c' = effects c
       | Some (MappingOk (Some _)) => True
       end.
Proof.
  intros Hmapped. rewrite (mappedTo_run _ _ _ _ _ _ Hmapped).
  destruct mapped as [[error | [[text mode | a] |]] |]; run_handler.
  - eexists. split; [reflexivity|]. unfold written, getHeader. simpl.
    rewrite find_header_app_last. repeat split.
  - destruct (dispatchWakeHook opts _); eexists; split; try reflexivity; exact I.
  - destruct (dispatchAgentHook opts _); eexists; split; try reflexivity; exact I.
  - eexists. split; [reflexivity|]. repeat split.
  - eexists. split; [reflexivity|]. unfold written, getHeader. simpl.
    rewrite find_header_app_last. repeat split.
Qed.

(** X18: a mapped agent action is dispatched once, its missing fields
    filled in (name "Hook", empty session key, no delivery unless
    [deliver] is [true], channel [last]), and answered 202 with the run
    id. *)
Theorem mapped_agent_dispatched opts cfg req c value a runId :
  let v :=
    {| agentMessage := mMessage a;
       agentName := default "Hook" (mName a);
       agentWakeMode := mWakeMode a;
       agentSessionKey := default "" (mSessionKey a);
       agentDeliver := match mDeliver a with Some true => true | _ => false end;
       agentChannel := default ChLast (mChannel a);
       agentTo := mTo a;
       agentThinking := mThinking a;
       agentTimeoutSeconds := mTimeoutSeconds a |} in
  mappedTo opts cfg req value (Normal (Some (MappingOk (Some (ActionAgent a))))) ->
  dispatchAgentHook opts v = Normal runId ->
  exists c',
    handleHooksRequest opts req c = (Normal true, c')
    /\ written 202 "application/json; charset=utf-8"
         (BodyJson (JObject [("ok", JBool true); ("runId", JString runId)]))
         {| res := res c; effects := (effects c ++ [AgentDispatched v])%list |} c'.
Proof.
  cbv zeta. intros Hmapped Hdispatch. rewrite (mappedTo_run _ _ _ _ _ _ Hmapped).
  run_handler. rewrite Hdispatch.
  eexists. split; [reflexivity|]. unfold written, getHeader. simpl.
  rewrite find_header_app_last. repeat split.
Qed.

(** X19: an exception of the dispatcher on the wake route is not caught
    by the handler: it leaves the handler with the response untouched. *)
Theorem wake_dispatcher_exception_escapes opts cfg req c value v e :
  accepted opts cfg req ->
  hookSubPath (basePath cfg) (pathname (url req)) = "wake" ->
  readJsonBody req (maxBodyBytes cfg) = Ok value ->
  normalizeWakePayload (hookPayload value) = Ok v ->
  dispatchWakeHook opts v = Throw e ->
  handleHooksRequest opts req c
  = (Throw e, {| res := res c; effects := (effects c ++ [WakeDispatched v])%list |}).
Proof. apply wake_dispatcher_throw_run. Qed.

(** X20: the same exception from a mapped wake action is caught with the
    engine's: one warning, 500 with the fixed text. *)
Theorem mapped_dispatcher_exception_caught opts cfg req c value text mode e :
  mappedTo opts cfg req value (Normal (Some (MappingOk (Some (ActionWake text mode))))) ->
  dispatchWakeHook opts {| wakeText := text; wakeMode := mode |} = Throw e ->
  exists c',
    handleHooksRequest opts req c = (Normal true, c')
    /\ written 500 "application/json; charset=utf-8"
         (BodyJson (errorBody "hook mapping failed"))
         {| res := res c;
            effects :=
              (effects c
                 ++ [WakeDispatched {| wakeText := text; wakeMode := mode |};
                     LogWarn ("hook mapping failed: " ++ toString e)])%list |} c'.
Proof.
  intros Hmapped Hdispatch. rewrite (mappedTo_run _ _ _ _ _ _ Hmapped).
  run_handler. rewrite Hdispatch.
  eexists. split; [reflexivity|]. unfold written, getHeader. simpl.
  rewrite find_header_app_last, <- app_assoc. repeat split.
Qed.

(** *** The path below the base path *)

Lemma sliceFrom_app (a b : string) : sliceFrom (String.length a) (a ++ b) = b.
Proof. induction a as [|x a IH]; simpl; [destruct b; reflexivity | exact IH]. Qed.

Lemma prefix_app (a b : string) : String.prefix a (a ++ b) = true.
Proof.
  induction a as [|x a IH]; simpl; [destruct b; reflexivity|].
  destruct (ascii_dec x x); [exact IH | contradiction].
Qed.

Lemma append_assoc (a b d : string) : (a ++ b) ++ d = a ++ (b ++ d).
Proof.
  induction a as [|x a IH]; [reflexivity|].
  change (String x ((a ++ b) ++ d) = String x (a ++ (b ++ d))).
  rewrite IH. reflexivity.
Qed.

Lemma stripLeadingSlashes_slashes (n : nat) (route : string) :
  (forall r, route <> String "/" r) ->
  stripLeadingSlashes (slashes n ++ route) = route.
Proof.
  intros Hroute. induction n as [|n IH]; simpl; [|exact IH].
  destruct route as [|x r]; simpl; [reflexivity|].
  destruct (Ascii.eqb x "/") eqn:Hx; [|reflexivity].
  apply Ascii.eqb_eq in Hx. subst x. destruct (Hroute r eq_refl).
Qed.

(** X21: any number of slashes, one at least, may stand between the base
    path and the route: the request is under the base path and the route
    is what follows the slashes. *)
Theorem route_after_slashes cfg req (n : nat) (route : string) :
  pathname (url req) = basePath cfg ++ slashes (S n) ++ route ->
  (forall r, route <> String "/" r) ->
  underBasePath cfg req
  /\ hookSubPath (basePath cfg) (pathname (url req)) = route.
Proof.
  intros Hpath Hroute. split.
  - right. rewrite Hpath.
    change (slashes (S n) ++ route) with ("/" ++ (slashes n ++ route)).
    rewrite <- append_assoc. apply prefix_app.
  - unfold hookSubPath. rewrite Hpath, sliceFrom_app.
    apply stripLeadingSlashes_slashes, Hroute.
Qed.

(** The base path alone, or followed by slashes only, names no route:
    404. *)
Lemma no_route_404 opts cfg req c :
  accepted opts cfg req ->
  hookSubPath (basePath cfg) (pathname (url req)) = "" ->
  exists c',
    handleHooksRequest opts req c = (Normal true, c')
    /\ written 404 "text/plain; charset=utf-8" (BodyText "Not Found") c c'.
Proof.
  intros Hacc Hsub. rewrite (accepted_run _ _ _ _ Hacc). cbv zeta. rewrite Hsub. simpl.
  destruct (sendText_written 404 "Not Found" c) as (c' & Hrun & Hw).
  exists c'. unfold bind. rewrite Hrun. auto.
Qed.

End HandlerMore.

Lemma sample_request_accepted (imports : HooksImports unit) (opts : @HandlerOpts unit)
  (path : string) :
  hooksConfig opts = Some sampleHooksConfig ->
  (forall req, @extractHookToken unit imports req (url req) = Some "secret") ->
  String.prefix "/hooks/" path = true ->
  @accepted unit imports opts sampleHooksConfig (sampleRequest "POST" path).
Proof.
  intros Hcfg Htoken Hpre. split; [exact Hcfg|].
  split; [right; exact Hpre|]. split; [|reflexivity].
  split; [apply Htoken | discriminate].
Qed.

Lemma sample_mappedTo (opts : @HandlerOpts unit) (path : string)
  (mapped : Completion (option HookMappingResult)) :
  hooksConfig opts = Some sampleHooksConfig ->
  String.prefix "/hooks/" path = true ->
  mappedRoute (hookSubPath "/hooks" path) ->
  @mappedTo unit (acceptingImports mapped) opts sampleHooksConfig
    (sampleRequest "POST" path) (JObject []) mapped.
Proof.
  intros Hcfg Hpre Hroute. split; [apply sample_request_accepted; auto|].
  split; [exact Hroute|]. split; [reflexivity|]. split; [discriminate | reflexivity].
Qed.

Lemma effects_only_when_accepted_witness :
  exists cfg,
    @accepted unit (acceptingImports (Normal None)) (sampleOpts "secret") cfg
      (sampleRequest "POST" "/hooks/wake").
Proof.
  apply (@effects_only_when_accepted unit (acceptingImports (Normal None))
           (sampleOpts "secret") (sampleRequest "POST" "/hooks/wake") freshConn).
  vm_compute. discriminate.
Defined.

Lemma agent_dispatched_once_witness :
  exists c',
    @handleHooksRequest unit (acceptingImports (Normal None)) (sampleOpts "secret")
      (sampleRequest "POST" "/hooks/agent") freshConn = (Normal true, c')
    /\ written 202 "application/json; charset=utf-8"
         (BodyJson (JObject [("ok", JBool true); ("runId", JString "run-1")]))
         {| res := res freshConn;
            effects := (effects freshConn ++ [AgentDispatched sampleAgent])%list |} c'.
Proof.
  eapply (@agent_dispatched_once unit (acceptingImports (Normal None))
            (sampleOpts "secret") sampleHooksConfig _ freshConn (JObject []) sampleAgent).
  - apply sample_request_accepted; reflexivity.
  - reflexivity.
  - reflexivity.
  - reflexivity.
  - reflexivity.
Defined.

Lemma mapping_result_status_witness :
  exists c',
    @handleHooksRequest unit (acceptingImports (Normal (Some (MappingOk None))))
      (sampleOpts "secret") (sampleRequest "POST" "/hooks/github") freshConn
    = (Normal true, c')
    /\ (statusCode (res c') = 204%Z
        /\ body (res c') = BodyNone
        /\ ended (res c') = true
        /\ resHeaders (res c') = resHeaders (res freshConn)
        /\ effects c' = effects freshConn).
Proof.
  apply (@mapping_result_status unit (acceptingImports (Normal (Some (MappingOk None))))
           (sampleOpts "secret") sampleHooksConfig
           (sampleRequest "POST" "/hooks/github") freshConn (JObject [])
           (Some (MappingOk None))).
  apply sample_mappedTo; [reflexivity | reflexivity | repeat split].
Defined.

Lemma mapped_agent_dispatched_witness :
  let imports :=
    acceptingImports (Normal (Some (MappingOk (Some (ActionAgent sampleMappedAgent))))) in
  let v :=
    {| agentMessage := "build failed"; agentName := "Hook"; agentWakeMode := Now;
       agentSessionKey := ""; agentDeliver := false; agentChannel := ChLast;
       agentTo := None; agentThinking := None; agentTimeoutSeconds := None |} in
  exists c',
    @handleHooksRequest unit imports (sampleOpts "secret")
      (sampleRequest "POST" "/hooks/github") freshConn = (Normal true, c')
    /\ written 202 "application/json; charset=utf-8"
         (BodyJson (JObject [("ok", JBool true); ("runId", JString "run-1")]))
         {| res := res freshConn;
            effects := (effects freshConn ++ [AgentDispatched v])%list |} c'.
Proof.
  cbv zeta.
  apply (@mapped_agent_dispatched unit
           (acceptingImports (Normal (Some (MappingOk (Some (ActionAgent sampleMappedAgent))))))
           (sampleOpts "secret") sampleHooksConfig
           (sampleRequest "POST" "/hooks/github") freshConn (JObject [])
           sampleMappedAgent "run-1").
  - apply sample_mappedTo; [reflexivity | reflexivity | repeat split].
  - reflexivity.
Defined.

Lemma wake_dispatcher_exception_escapes_witness :
  @handleHooksRequest unit (acceptingImports (Normal None)) (failingOpts (JError "queue full"))
    (sampleRequest "POST" "/hooks/wake") freshConn
  = (Throw (JError "queue full"),
     {| res := res freshConn;
        effects := (effects freshConn ++ [WakeDispatched sampleWake])%list |}).
Proof.
  apply (@wake_dispatcher_exception_escapes unit (acceptingImports (Normal None))
           (failingOpts (JError "queue full")) sampleHooksConfig
           (sampleRequest "POST" "/hooks/wake") freshConn (JObject []) sampleWake).
  - apply sample_request_accepted; reflexivity.
  - reflexivity.
  - reflexivity.
  - reflexivity.
  - reflexivity.
Defined.

Lemma mapped_dispatcher_exception_caught_witness :
  let imports :=
    acceptingImports (Normal (Some (MappingOk (Some (ActionWake "deploy done" Now))))) in
  exists c',
    @handleHooksRequest unit imports (failingOpts (JError "queue full"))
      (sampleRequest "POST" "/hooks/github") freshConn = (Normal true, c')
    /\ written 500 "application/json; charset=utf-8"
         (BodyJson (errorBody "hook mapping failed"))
         {| res := res freshConn;
            effects :=
              (effects freshConn
                 ++ [WakeDispatched {| wakeText := "deploy done"; wakeMode := Now |};
                     LogWarn ("hook mapping failed: " ++ toString (JError "queue full"))])%list |}
         c'.
Proof.
  cbv zeta.
  apply (@mapped_dispatcher_exception_caught unit
           (acceptingImports (Normal (Some (MappingOk (Some (ActionWake "deploy done" Now))))))
           (failingOpts (JError "queue full")) sampleHooksConfig
           (sampleRequest "POST" "/hooks/github") freshConn (JObject [])
           "deploy done" Now (JError "queue full")).
  - apply sample_mappedTo; [reflexivity | reflexivity | repeat split].
  - reflexivity.
Defined.

Lemma route_after_slashes_witness :
  @underBasePath unit sampleHooksConfig (sampleRequest "POST" "/hooks///wake")
  /\ hookSubPath (basePath sampleHooksConfig)
       (pathname (url (sampleRequest "POST" "/hooks///wake"))) = "wake".
Proof.
  apply (@route_after_slashes unit sampleHooksConfig
           (sampleRequest "POST" "/hooks///wake") 2 "wake").
  - reflexivity.
  - discriminate.
Defined.

End ServerHttpMore.

(** ** The request listener *)

Module GatewayServerFacts.
Import Js ServerUtils ServerHttp GatewayServer HookRoutes.
Import ServerHttpFacts ServerHttpMore.
Local Open Scope conn_scope.

Section ListenerFacts.

Context `{ServerImports}.

Implicit Types (opts : ServerOpts) (req : IncomingMessage) (c : Conn).

(** An upgrade request is not answered here at all. *)
Lemma upgrade_untouched opts req c :
  isWebSocketUpgrade req = true -> requestListener opts req c = c.
Proof. intros Hup. unfold requestListener. rewrite Hup. reflexivity. Qed.

Lemma listener_run opts req c :
  isWebSocketUpgrade req = false ->
  requestListener opts req c = snd (tryCatch (handlerChain opts req) onChainError c).
Proof. intros Hup. unfold requestListener. rewrite Hup. reflexivity. Qed.

(** X22: when the hook handler takes the request, the connection is left
    as the hook handler left it, whatever the canvas host and the control
    UI would have done with the request. *)
Theorem hooks_handler_first opts req c c' :
  isWebSocketUpgrade req = false ->
  hooksHandler opts req c = (Normal true, c') ->
  requestListener opts req c = c'.
Proof.
  intros Hup Hhooks. rewrite listener_run by exact Hup.
  unfold tryCatch, handlerChain, bind at 1. rewrite Hhooks. reflexivity.
Qed.

(** X23: a request no handler takes is answered 404 as plain text: the
    hook handler declines, the canvas host is absent or both of its
    handlers decline, and the control UI is off or declines. *)
Theorem unhandled_request_404 opts req c c1 c2 c3 :
  isWebSocketUpgrade req = false ->
  hooksHandler opts req c = (Normal false, c1) ->
  match canvasHost opts with
  | Some host =>
      exists mid, handleA2uiHttpRequest req c1 = (Normal false, mid)
                  /\ handleHttpRequest host req mid = (Normal false, c2)
  | None => c2 = c1
  end ->
  (if controlUiEnabled opts
   then handleControlUiHttpRequest req (controlUiBasePath opts) c2 = (Normal false, c3)
   else c3 = c2) ->
  written 404 "text/plain; charset=utf-8" (BodyText "Not Found") c3
    (requestListener opts req c).
Proof.
  intros Hup Hhooks Hcanvas Hui. rewrite listener_run by exact Hup.
  destruct (sendText_written 404 "Not Found" c3) as (c' & Hrun & Hw).
  assert (Hchain : handlerChain opts req c = (Normal tt, c')).
  { unfold handlerChain, bind at 1. rewrite Hhooks.
    unfold bind at 1.
    assert (Hmid :
      match canvasHost opts with
      | Some host =>
          handled <- handleA2uiHttpRequest req ;;
          if (handled : bool) then ret true else handleHttpRequest host req
      | None => ret false
      end c1 = (Normal false, c2)).
    { destruct (canvasHost opts) as [host|].
      - destruct Hcanvas as (mid & Ha2ui & Hhost). unfold bind. rewrite Ha2ui. exact Hhost.
      - subst c2. reflexivity. }
    rewrite Hmid. unfold bind at 1.
    destruct (controlUiEnabled opts).
    - rewrite Hui. exact Hrun.
    - subst c3. exact Hrun. }
  unfold tryCatch. rewrite Hchain. exact Hw.
Qed.

(** X24: an exception that leaves the chain, from whichever handler, is
    answered 500 with [String(err)] as plain text, provided the response
    had not been ended when it was thrown. *)
Theorem chain_exception_500 opts req c c1 err :
  isWebSocketUpgrade req = false ->
  handlerChain opts req c = (Throw err, c1) ->
  ended (res c1) = false ->
  written 500 "text/plain; charset=utf-8" (BodyText (toString err)) c1
    (requestListener opts req c).
Proof.
  intros Hup Hchain _. rewrite listener_run by exact Hup.
  unfold tryCatch. rewrite Hchain. unfold onChainError.
  destruct (sendText_written 500 (toString err) c1) as (c' & Hrun & Hw).
  rewrite Hrun. exact Hw.
Qed.

(** An exception of the first handler leaves the chain. *)
Lemma hooks_exception_leaves_chain opts req c c1 err :
  hooksHandler opts req c = (Throw err, c1) ->
  handlerChain opts req c = (Throw err, c1).
Proof. intros Hhooks. unfold handlerChain, bind. rewrite Hhooks. reflexivity. Qed.

(** X25: every request that is not an upgrade leaves the listener with
    its response ended, as long as each handler ends the response when it
    returns [true]. *)
Theorem request_always_answered opts req c :
  isWebSocketUpgrade req = false ->
  endsWhenHandled (hooksHandler opts) ->
  endsWhenHandled handleA2uiHttpRequest ->
  (forall host, canvasHost opts = Some host -> endsWhenHandled (handleHttpRequest host)) ->
  endsWhenHandled (fun r => handleControlUiHttpRequest r (controlUiBasePath opts)) ->
  ended (res (requestListener opts req c)) = true.
Proof.
  intros Hup Hhooks Ha2ui Hhost Hui. rewrite listener_run by exact Hup.
  unfold tryCatch.
  destruct (handlerChain opts req c) as [[[]|err] c'] eqn:Hchain;
    [|destruct (sendText_written 500 (toString err) c') as (c2 & Hrun & Hw);
      unfold onChainError; rewrite Hrun; apply Hw].
  simpl. revert Hchain. unfold handlerChain, bind at 1.
  destruct (hooksHandler opts req c) as [[[|]|e1] c1] eqn:H1; [| |discriminate].
  { intros [= <-]. eapply Hhooks, H1. }
  unfold bind at 1.
  assert (Hcanvas : forall r c2,
    match canvasHost opts with
    | Some host =>
        handled <- handleA2uiHttpRequest req ;;
        if (handled : bool) then ret true else handleHttpRequest host req
    | None => ret false
    end c1 = (Normal true, c2) -> r = tt -> ended (res c2) = true).
  { intros r c2. destruct (canvasHost opts) as [host|]; [|discriminate].
    unfold bind.
    destruct (handleA2uiHttpRequest req c1) as [[[|]|e2] mid] eqn:H2; try discriminate.
    - intros [= <-] _. eapply Ha2ui, H2.
    - intros Hh _. eapply (Hhost host eq_refl), Hh. }
  match goal with
  | |- context [match ?x with _ => _ end] => destruct x as [[[|]|e3] c2] eqn:H3
  end; [| |discriminate].
  { intros [= <-]. eapply (Hcanvas tt), eq_refl. reflexivity. }
  unfold bind at 1.
  destruct (controlUiEnabled opts).
  - destruct (handleControlUiHttpRequest req (controlUiBasePath opts) c2)
      as [[[|]|e4] c3] eqn:H4; [| |discriminate].
    + intros [= <-]. eapply Hui, H4.
    + intros Hsend. destruct (sendText_written 404 "Not Found" c3) as (c4 & Hrun & Hw).
      rewrite Hrun in Hsend. injection Hsend as <-. apply Hw.
  - intros Hsend. destruct (sendText_written 404 "Not Found" c2) as (c4 & Hrun & Hw).
    simpl in Hsend. rewrite Hrun in Hsend. injection Hsend as <-. apply Hw.
Qed.

End ListenerFacts.

(** The hook handler keeps to the convention of the chain. *)
Lemma hooks_handler_ends {Mapping : Type} `{HooksImports Mapping}
  (hopts : @HandlerOpts Mapping) :
  endsWhenHandled (handleHooksRequest hopts).
Proof.
  intros req c c' Hrun. pose proof (handleHooksRequest_cases hopts req c) as Hcases.
  rewrite Hrun in Hcases. apply Hcases.
Qed.

Lemma hooks_handler_first_witness :
  let opts :=
    {| canvasHost := Some sampleCanvasHost; controlUiEnabled := true;
       controlUiBasePath := "/hooks"; hooksHandler := sampleHooks None |} in
  let req := sampleRequest "GET" "/hooks/status" in
  @requestListener sampleServerImports opts req freshConn
  = snd (sampleHooks None req freshConn).
Proof.
  cbv zeta.
  apply (@hooks_handler_first sampleServerImports). 
  - reflexivity.
  - reflexivity.
Defined.

Lemma unhandled_request_404_witness :
  written 404 "text/plain; charset=utf-8" (BodyText "Not Found") freshConn
    (@requestListener sampleServerImports (sampleServerOpts (sampleHooks None))
       (sampleRequest "GET" "/favicon.ico") freshConn).
Proof.
  apply (@unhandled_request_404 sampleServerImports (sampleServerOpts (sampleHooks None))
           (sampleRequest "GET" "/favicon.ico") freshConn freshConn freshConn freshConn).
  - reflexivity.
  - reflexivity.
  - exists freshConn. split; reflexivity.
  - reflexivity.
Defined.

(** The dispatcher of the wake route throws: the listener answers 500
    with the text of the error. *)
Lemma chain_exception_500_witness :
  let hooks :=
    @handleHooksRequest unit (acceptingImports (Normal None))
      (failingOpts (JError "queue full")) in
  written 500 "text/plain; charset=utf-8" (BodyText "Error: queue full")
    {| res := freshResponse; effects := [WakeDispatched sampleWake] |}
    (@requestListener sampleServerImports (sampleServerOpts hooks)
       (sampleRequest "POST" "/hooks/wake") freshConn).
Proof.
  cbv zeta.
  apply (@chain_exception_500 sampleServerImports _ _ freshConn
           {| res := freshResponse; effects := [WakeDispatched sampleWake] |}
           (JError "queue full")).
  - reflexivity.
  - reflexivity.
  - reflexivity.
Defined.

Lemma request_always_answered_witness :
  ended (res (@requestListener sampleServerImports
                (sampleServerOpts (sampleHooks (Some "secret")))
                (sampleRequest "POST" "/hooks/wake") freshConn)) = true.
Proof.
  apply (@request_always_answered sampleServerImports).
  - reflexivity.
  - apply hooks_handler_ends.
  - intros req c c' Hrun. discriminate Hrun.
  - intros host [= <-] req c c' Hrun. discriminate Hrun.
  - intros req c c'. simpl.
    destruct (String.prefix "/ui" (pathname (url req))); [|discriminate].
    intros [= <-]. reflexivity.
Defined.

End GatewayServerFacts.

(** ** server-providers.ts, continued *)

Module ServerProvidersMore.
Import Js ServerUtils ServerProviders ProvidersView ServerProvidersFacts.
Local Open Scope list_scope.

(** Splitting a start call along its tests. *)
Ltac unfold_start :=
  unfold start, startWhatsAppProvider, startTelegramProvider, startDiscordProvider,
    startSignalProvider, startIMessageProvider, launch, logProbeFailure, logIf, log.

Ltac split_tests :=
  repeat match goal with
         | |- context [if ?b then _ else _] => destruct b eqn:?
         | |- context [match ?x with _ => _ end] =>
             lazymatch x with
             | context [match _ with _ => _ end] => fail
             | _ => destruct x eqn:?
             end
         end.

(** *** One connector at a time *)

Lemma start_frame (k k' : ProviderKind) (env : StartEnv) (m : Manager) :
  k <> k' -> connectorOf k' (start k env m) = connectorOf k' m.
Proof.
  intros Hne. destruct k, k'; try contradiction; clear Hne;
    unfold_start; split_tests; reflexivity.
Qed.

Lemma kind_eq_dec (a b : ProviderKind) : {a = b} + {a <> b}.
Proof. decide equality. Qed.

Lemma job_frame (j : Job) (k : ProviderKind) (m : Manager) :
  jobKind j <> k -> connectorOf k (runJob j m) = connectorOf k m.
Proof.
  destruct j as [k' env|k' err|k' now|k'|k' now|next|cleared]; simpl jobKind; intros Hne.
  - apply start_frame, Hne.
  - destruct k', k; try contradiction; reflexivity.
  - destruct k', k; try contradiction; reflexivity.
  - destruct k', k; try contradiction; simpl; unfold stopRequested;
      split_tests; reflexivity.
  - destruct k', k; try contradiction; reflexivity.
  - destruct k; try contradiction; reflexivity.
  - destruct k; try contradiction; reflexivity.
Qed.

(** X26: a job of one connector (a start call, the callbacks of its
    task, a stop call, a status push, a logout mark) leaves the
    cancellation token, the task handle and the status record of every
    other connector as they were. *)
Theorem connectors_do_not_interfere (j : Job) (k : ProviderKind) (m : Manager) :
  jobKind j <> k ->
  abortOf k (runJob j m) = abortOf k m
  /\ taskOf k (runJob j m) = taskOf k m
  /\ statusOf k (runJob j m) = statusOf k m.
Proof.
  intros Hne. pose proof (job_frame j k m Hne) as Hframe.
  unfold connectorOf in Hframe. injection Hframe as Ha Ht Hs. auto.
Qed.

Lemma connectors_do_not_interfere_witness :
  let m := runJobs [Start Telegram sampleEnv; Start Signal sampleEnv] initialManager in
  abortOf Telegram (runJob (Rejected Signal (JError "down")) m) = abortOf Telegram m
  /\ taskOf Telegram (runJob (Rejected Signal (JError "down")) m) = taskOf Telegram m
  /\ statusOf Telegram (runJob (Rejected Signal (JError "down")) m) = statusOf Telegram m.
Proof.
  apply (connectors_do_not_interfere (Rejected Signal (JError "down")) Telegram).
  discriminate.
Defined.

(** *** Invariants of the jobs *)

Lemma runningOf_statusOf (k : ProviderKind) (m : Manager) :
  runningOf k m = anyRunning (statusOf k m).
Proof. destruct k; reflexivity. Qed.

Lemma start_paired (k : ProviderKind) (env : StartEnv) (m : Manager) :
  handlesPaired k m -> handlesPaired k (start k env m).
Proof.
  unfold handlesPaired. destruct k; simpl abortOf; simpl taskOf; intros Hp;
    unfold_start; split_tests; simpl in *; congruence.
Qed.

Lemma start_running (k : ProviderKind) (env : StartEnv) (m : Manager) :
  runningHasTask k m -> runningHasTask k (start k env m).
Proof.
  unfold runningHasTask, runningOf. destruct k; simpl; intros Hp;
    unfold_start; split_tests; simpl in *; try exact Hp; try discriminate;
    intros; discriminate.
Qed.

Lemma stopRequested_connector (k : ProviderKind) (m : Manager) :
  abortOf k (runJob (StopRequested k) m) = abortOf k m
  /\ taskOf k (runJob (StopRequested k) m) = taskOf k m
  /\ statusOf k (runJob (StopRequested k) m) = statusOf k m.
Proof.
  destruct k; unfold runJob, stopRequested, abortOf, taskOf, statusOf;
    split_tests; simpl; repeat split; congruence.
Qed.

Lemma job_paired (j : Job) (m : Manager) :
  (forall k, handlesPaired k m) -> forall k, handlesPaired k (runJob j m).
Proof.
  intros Hall k. destruct (kind_eq_dec (jobKind j) k) as [Hsame | Hother].
  - specialize (Hall k). subst k.
    destruct j as [k env|k err|k now|k|k now|next|cleared]; simpl jobKind in *.
    + apply start_paired, Hall.
    + destruct k; exact Hall.
    + destruct k; reflexivity.
    + destruct (stopRequested_connector k m) as (Ha & Ht & _).
      unfold handlesPaired. rewrite Ha, Ht. exact Hall.
    + destruct k; reflexivity.
    + exact Hall.
    + exact Hall.
  - pose proof (job_frame j k m Hother) as Hframe. unfold connectorOf in Hframe.
    injection Hframe as Ha Ht _. unfold handlesPaired. rewrite Ha, Ht. apply Hall.
Qed.

Lemma job_running (j : Job) (k : ProviderKind) (m : Manager) :
  (k = WhatsApp -> isStatusSink j = false) ->
  runningHasTask k m -> runningHasTask k (runJob j m).
Proof.
  intros Hsink Hinv. destruct (kind_eq_dec (jobKind j) k) as [Hsame | Hother].
  - subst k.
    destruct j as [k env|k err|k now|k|k now|next|cleared]; simpl jobKind in *.
    + apply start_running, Hinv.
    + destruct k; exact Hinv.
    + destruct k; intros Hrun; discriminate Hrun.
    + destruct (stopRequested_connector k m) as (_ & Ht & Hs).
      unfold runningHasTask.
      rewrite runningOf_statusOf, Hs, Ht, <- runningOf_statusOf. exact Hinv.
    + destruct k; intros Hrun; discriminate Hrun.
    + discriminate (Hsink eq_refl).
    + intros Hrun; discriminate Hrun.
  - pose proof (job_frame j k m Hother) as Hframe. unfold connectorOf in Hframe.
    injection Hframe as _ Ht Hs. unfold runningHasTask.
    rewrite runningOf_statusOf, Hs, Ht, <- runningOf_statusOf. exact Hinv.
Qed.

Lemma runJobs_snoc (js : list Job) (j : Job) (m : Manager) :
  runJobs (js ++ [j]) m = runJob j (runJobs js m).
Proof. unfold runJobs. rewrite fold_left_app. reflexivity. Qed.

(** X27: after any sequence of jobs from the initial state, every
    connector has its cancellation token and its task handle both set or
    both null. *)
Theorem handles_always_paired (js : list Job) (k : ProviderKind) :
  isSome (abortOf k (runJobs js initialManager))
  = isSome (taskOf k (runJobs js initialManager)).
Proof.
  revert k. induction js as [|j js IH] using rev_ind; intros k.
  - destruct k; reflexivity.
  - rewrite runJobs_snoc. apply job_paired. exact IH.
Qed.

(** X28: after any sequence of jobs from the initial state, a connector
    whose snapshot says [running] has its task handle set; for WhatsApp,
    as long as the connector pushed no status of its own. *)
Theorem running_has_task (js : list Job) (k : ProviderKind) :
  (k = WhatsApp -> Forall (fun j => isStatusSink j = false) js) ->
  snapshotRunning k (getRuntimeSnapshot (runJobs js initialManager)) = true ->
  taskOf k (runJobs js initialManager) <> None.
Proof.
  induction js as [|j js IH] using rev_ind; intros Hsink.
  - destruct k; discriminate.
  - rewrite runJobs_snoc. apply job_running.
    + intros Hk. specialize (Hsink Hk). apply Forall_app in Hsink as [_ Hj].
      inversion Hj; assumption.
    + unfold runningHasTask, runningOf. apply IH. intros Hk. specialize (Hsink Hk).
      apply Forall_app in Hsink as [Hjs _]. exact Hjs.
Qed.

Lemma running_has_task_witness :
  taskOf Discord
    (runJobs [Start Discord sampleEnv; StatusSink (runtime (whatsapp initialManager));
              Rejected Discord (JError "gateway closed")] initialManager) <> None.
Proof.
  apply (running_has_task
           [Start Discord sampleEnv; StatusSink (runtime (whatsapp initialManager));
            Rejected Discord (JError "gateway closed")] Discord).
  - discriminate.
  - reflexivity.
Defined.

(** *** startProviders *)

Lemma start_visible_frame (k k' : ProviderKind) (env : StartEnv) (m : Manager) :
  k <> k' -> visibleOf k' (start k env m) = visibleOf k' m.
Proof.
  intros Hne. pose proof (start_frame k k' env m Hne) as Hframe.
  unfold connectorOf in Hframe. injection Hframe as _ Ht Hs.
  unfold visibleOf. rewrite Ht, Hs. reflexivity.
Qed.

Lemma start_visible_congr (k : ProviderKind) (env : StartEnv) (m1 m2 : Manager) :
  visibleOf k m1 = visibleOf k m2 ->
  visibleOf k (start k env m1) = visibleOf k (start k env m2).
Proof.
  unfold visibleOf.
  destruct k; simpl taskOf; simpl statusOf; intros [= Ht Hr];
    match goal with
    | Ht : isSome (task (?slot m1)) = isSome (task (?slot m2)) |- _ =>
        destruct (task (slot m1)) eqn:Ht1, (task (slot m2)) eqn:Ht2;
        simpl in Ht; try discriminate Ht
    end;
    unfold_start; rewrite ?Ht1, ?Ht2; simpl isSome; cbv iota;
    first [ rewrite Ht1, Ht2, Hr; reflexivity
          | split_tests; simpl; rewrite ?Hr, ?Ht1, ?Ht2; reflexivity ].
Qed.

Lemma startProviders_starts (envs : ProviderKind -> StartEnv) (m : Manager) :
  startProviders envs m
  = start IMessage (envs IMessage)
      (start Signal (envs Signal)
         (start Telegram (envs Telegram)
            (start Discord (envs Discord) (start WhatsApp (envs WhatsApp) m)))).
Proof. reflexivity. Qed.

(** X29: within [startProviders] each connector ends as if it had been
    started alone: whether another connector was launched, skipped or
    already running changes neither its status nor whether it has a
    task. *)
Theorem startProviders_independent (envs : ProviderKind -> StartEnv) (m : Manager)
  (k : ProviderKind) :
  visibleOf k (startProviders envs m) = visibleOf k (start k (envs k) m).
Proof.
  rewrite startProviders_starts.
  destruct k;
    rewrite ?start_visible_frame by discriminate;
    apply start_visible_congr;
    rewrite ?start_visible_frame by discriminate; reflexivity.
Qed.

Lemma launchedKinds_app (a b : list Effect) :
  launchedKinds (a ++ b) = launchedKinds a ++ launchedKinds b.
Proof. apply omap_app. Qed.

Lemma start_trace (k : ProviderKind) (env : StartEnv) (m : Manager) :
  exists added,
    trace (start k env m) = trace m ++ added
    /\ (launchedKinds added = [] \/ launchedKinds added = [k]).
Proof.
  destruct k; unfold_start; split_tests; simpl;
    first [ exists []; split; [symmetry; apply app_nil_r | left; reflexivity]
          | eexists; split; [rewrite <- ?app_assoc; reflexivity | simpl; auto] ].
Qed.

(** X30: [startProviders] launches the monitors in the order WhatsApp,
    Discord, Telegram, Signal, iMessage, each at most once. *)
Theorem startProviders_order (envs : ProviderKind -> StartEnv) (m : Manager) :
  exists added,
    trace (startProviders envs m) = trace m ++ added
    /\ sublist (launchedKinds added) startOrder.
Proof.
  rewrite startProviders_starts.
  destruct (start_trace WhatsApp (envs WhatsApp) m) as (a1 & H1t & H1).
  destruct (start_trace Discord (envs Discord) (start WhatsApp (envs WhatsApp) m))
    as (a2 & H2t & H2).
  destruct (start_trace Telegram (envs Telegram)
              (start Discord (envs Discord) (start WhatsApp (envs WhatsApp) m)))
    as (a3 & H3t & H3).
  destruct (start_trace Signal (envs Signal)
              (start Telegram (envs Telegram)
                 (start Discord (envs Discord) (start WhatsApp (envs WhatsApp) m))))
    as (a4 & H4t & H4).
  destruct (start_trace IMessage (envs IMessage)
              (start Signal (envs Signal)
                 (start Telegram (envs Telegram)
                    (start Discord (envs Discord) (start WhatsApp (envs WhatsApp) m)))))
    as (a5 & H5t & H5).
  exists (a1 ++ a2 ++ a3 ++ a4 ++ a5). split.
  - rewrite H5t, H4t, H3t, H2t, H1t, <- !app_assoc. reflexivity.
  - rewrite !launchedKinds_app. unfold startOrder.
    destruct H1 as [-> | ->], H2 as [-> | ->], H3 as [-> | ->],
             H4 as [-> | ->], H5 as [-> | ->]; simpl;
      repeat first [apply sublist_nil | apply sublist_skip | apply sublist_cons].
Qed.

End ServerProvidersMore.
